(** * pansat.download.providers: a shallow embedding and its properties

    The module [pansat/download/providers.py] defines the abstract
    [DataProvider] class (previous / next file lookup, range queries and
    nearest-file lookup on top of one abstract primitive, [get_files]) and
    two concrete providers, [CopernicusProvider] and [IcareProvider].

    Modelling conventions.
    - A naive [datetime] is the number of microseconds since
      0001-01-01T00:00:00 (an integer, as in CPython); a [timedelta] is a
      number of microseconds.  Adding a [timedelta] to a [datetime] raises
      [OverflowError] outside years 1..9999, as CPython does.
    - [timedelta.total_seconds()] is a float, the correctly rounded
      quotient of the integer number of microseconds by 10^6; the floats
      are those of [Float64].  The range query only tests the sign of the
      float, which is the sign of the integer ([total_seconds_tests]), and
      its model tests the integer.  [get_file_by_date] sorts the floats,
      and so does its model: deltas below 2^33 seconds, some 272 years,
      have different floats in the same order ([total_seconds_strict]),
      larger ones need not.
    - An FTP session for a listing is what the server makes of it: the
      connection, the login, the change of directory, the listing, and
      the [QUIT] sent when the [with] block is left, each of which can
      fail.
    - A Python exception is a value of [exn]; fallible code returns
      [result].
    - The abstract primitive [get_files] and the product's [name_to_date]
      are parameters of the [DataProvider] section.  They are functions:
      two calls with the same arguments give the same answer.  A listing
      may raise; [name_to_date] is taken to decode every name it is given.
    - The methods are read as they are written.  (The file itself has an
      over-indented [print] in [CopernicusProvider.get_files], which is
      not modelled.) *)

From stdpp Require Import base option list strings gmap sorting.
From Stdlib Require Import ZArith Lia Sorting.Sorted Sorting.Permutation.
From Stdlib Require Import Ascii DecimalString.
From Stdlib Require Decimal DecimalPos.

Set Default Proof Using "Type".

Local Open Scope Z_scope.

(* ===================================================================== *)
(** ** Exceptions and results *)

Inductive exn : Type :=
  | ValueError (msg : string)
  | IndexError
  | OverflowError
  | UnboundLocalError
  | AttributeError
  | TypeError
  | KeyError (key : string)
  | PyException (msg : string)
  | RemoteError (msg : string).

Inductive result (A : Type) : Type :=
  | Ok (a : A)
  | Raise (e : exn).
Arguments Ok {A} a.
Arguments Raise {A} e.

Definition bind {A B} (c : result A) (k : A -> result B) : result B :=
  match c with
  | Ok a => k a
  | Raise e => Raise e
  end.

Notation "'let*' x ':=' c 'in' k" := (bind c (fun x => k))
  (at level 10, x name, c at level 100, k at level 200).

(** [try: body except: pass] around an in-place extension of [acc]. *)
Definition try_extend {A} (acc : list A) (body : result (list A)) : list A :=
  match body with
  | Ok l => l
  | Raise _ => acc
  end.

(* ===================================================================== *)
(** ** Python lists *)

Module PyList.

(** [l[i]] with Python's negative indices; [IndexError] out of range. *)
Definition getitem {A} (l : list A) (i : Z) : result A :=
  let n := Z.of_nat (length l) in
  let j := if i <? 0 then i + n else i in
  if (0 <=? j) && (j <? n) then
    match l !! Z.to_nat j with
    | Some x => Ok x
    | None => Raise IndexError
    end
  else Raise IndexError.

(** [l[-1:]] *)
Definition last_slice {A} (l : list A) : list A :=
  skipn (length l - 1)%nat l.

(** position of the first occurrence, as [list.index] finds it *)
Fixpoint find_index (x : string) (l : list string) : option nat :=
  match l with
  | [] => None
  | y :: l' => if String.eqb y x then Some 0%nat
               else option_map S (find_index x l')
  end.

(** [l.index(x)] *)
Definition index (l : list string) (x : string) : result Z :=
  match find_index x l with
  | Some i => Ok (Z.of_nat i)
  | None => Raise (ValueError "is not in list")
  end.

(** [enumerate(l)] *)
Definition enumerate {A} (l : list A) : list (nat * A) :=
  combine (seq 0 (length l)) l.

(** [[f(x) for x in l]] when [f] may raise *)
Fixpoint mapM {A B} (f : A -> result B) (l : list A) : result (list B) :=
  match l with
  | [] => Ok []
  | x :: l' =>
      let* y := f x in
      let* ys := mapM f l' in
      Ok (y :: ys)
  end.

End PyList.

(* ===================================================================== *)
(** ** float64 *)

(** The floats of [total_seconds()] and of the numpy array.  A finite
    float64 is a multiple of [2 ** -1074]; it is kept as that multiple,
    an integer, so that the order of the floats is the order of the
    integers and [0.0] is [0]. *)
Module Float64.

Abbreviation float := Z.

Definition scale : Z := 1074.

(** [0.0] *)
Definition zero : float := 0.

(** [x < y] *)
Definition ltb (x y : float) : bool := x <? y.

(** [p / q] rounded to the nearest integer, a tie to the even one, for
    [0 <= p] and [0 < q] *)
Definition round_half_even (p q : Z) : Z :=
  let a := p / q in
  let r := p mod q in
  if 2 * r <? q then a
  else if q <? 2 * r then a + 1
  else if Z.even a then a else a + 1.

(** The exponent of the unit in the last place of [n / d], in units of
    [2 ** -1074]: a float64 keeps 53 bits from the leading bit of the
    quotient on, and no bit below [2 ** -1074]. *)
Definition last_place (n d : Z) : Z :=
  Z.max (Z.log2 (n * 2 ^ scale / d) - 52) 0.

(** [n / d] for [0 < n] and [0 < d], rounded to a float64 *)
Definition round_quotient (n d : Z) : float :=
  let e := last_place n d in
  round_half_even (n * 2 ^ scale) (d * 2 ^ e) * 2 ^ e.

(** [a / b] of two [int]s with [0 < b]: the quotient correctly rounded,
    as CPython computes it.  (A quotient of [2 ** 1024] or more raises
    [OverflowError] there; a timedelta has less than [10 ** 9] days.) *)
Definition true_divide (a b : Z) : float :=
  Z.sgn a * round_quotient (Z.abs a) b.

End Float64.

(* ===================================================================== *)
(** ** datetime *)

Module DateTime.

Abbreviation datetime := Z.
Abbreviation timedelta := Z.

Definition us_per_day : Z := 86400000000.

(** [timedelta(days=n)] *)
Definition days (n : Z) : timedelta := n * us_per_day.

(** [datetime.min] and [datetime.max] *)
Definition min_datetime : datetime := 0.
Definition max_datetime : datetime := 3652059 * us_per_day - 1.

Definition in_range (t : datetime) : bool :=
  (min_datetime <=? t) && (t <=? max_datetime).

(** [t + d] and [t - d] for a timedelta [d] *)
Definition add (t : datetime) (d : timedelta) : result datetime :=
  if in_range (t + d) then Ok (t + d) else Raise OverflowError.

Definition sub (t : datetime) (d : timedelta) : result datetime :=
  add t (- d).

(** [t1 - t2], a timedelta *)
Definition diff (t1 t2 : datetime) : timedelta := t1 - t2.

(** [d.total_seconds()]: the microseconds of [d] divided by [10 ** 6] *)
Definition total_seconds (d : timedelta) : Float64.float :=
  Float64.true_divide d 1000000.

(** [2 ** 33] seconds, as a timedelta *)
Definition exact_within : timedelta := 2 ^ 33 * 1000000.

(** sign tests on [total_seconds()]; the float has the sign of the
    timedelta, see [total_seconds_tests] *)
Definition is_positive (d : timedelta) : bool := d >? 0.
Definition is_nonnegative (d : timedelta) : bool := d >=? 0.
Definition is_negative (d : timedelta) : bool := d <? 0.

(** zero-based index of the calendar day of [t] ([t.toordinal() - 1]) *)
Definition day_number (t : datetime) : Z := t / us_per_day.

(** CPython's [_ord2ymd], reduced to the year and the day of the year;
    [n] is the zero-based day number. *)
Definition year_and_yday (n : Z) : Z * Z :=
  let n400 := n / 146097 in
  let r400 := n mod 146097 in
  let n100 := r400 / 36524 in
  let r100 := r400 mod 36524 in
  let n4 := r100 / 1461 in
  let r4 := r100 mod 1461 in
  let n1 := r4 / 365 in
  let r1 := r4 mod 365 in
  let y := n400 * 400 + 1 + n100 * 100 + n4 * 4 + n1 in
  if (n1 =? 4) || (n100 =? 4) then (y - 1, 366) else (y, r1 + 1).

(** [t.year] *)
Definition year (t : datetime) : Z := fst (year_and_yday (day_number t)).

(** [int(t.strftime("%j"))] *)
Definition julian_day (t : datetime) : Z := snd (year_and_yday (day_number t)).

(** Building a datetime from civil fields, for examples. *)
Definition is_leap (y : Z) : bool :=
  (y mod 4 =? 0) && (negb (y mod 100 =? 0) || (y mod 400 =? 0)).

Definition days_before_year (y : Z) : Z :=
  let p := y - 1 in p * 365 + p / 4 - p / 100 + p / 400.

Definition days_before_month (y m : Z) : Z :=
  nth (Z.to_nat (m - 1)) [0; 31; 59; 90; 120; 151; 181; 212; 243; 273; 304; 334] 0
  + (if (2 <? m) && is_leap y then 1 else 0).

Definition civil (y m d hh mm ss : Z) : datetime :=
  (days_before_year y + days_before_month y m + (d - 1)) * us_per_day
  + ((hh * 60 + mm) * 60 + ss) * 1000000.

End DateTime.

Import DateTime.

(* ===================================================================== *)
(** ** numpy: the three array operations [get_file_by_date] uses *)

Module Numpy.

(** An array of float64 is the list of its entries. *)

(** [dts[inds]] *)
Definition take (dts : list Float64.float) (inds : list nat)
  : result (list Float64.float) :=
  PyList.mapM (fun i => PyList.getitem dts (Z.of_nat i)) inds.

(** [np.where(mask)[0]] *)
Definition where_true (mask : list bool) : list nat :=
  map fst (List.filter snd (PyList.enumerate mask)).

(** What [np.argsort] returns is a permutation of the indices that sorts
    the entries; where entries are equal, their order is left to the
    sorting kind, and the default kind does not keep it.  [get_file_by_date]
    therefore takes [argsort] as a parameter, and its properties are
    stated for any [argsort] that [sorts].  The function [argsort] below
    is one such function, for the examples: insertion of the indices from
    the right, an index going in front of the entries that are not
    smaller, so that equal entries keep their order. *)
Fixpoint insert_index (dts : list Float64.float) (i : nat) (acc : list nat)
  : list nat :=
  match acc with
  | [] => [i]
  | j :: acc' =>
      if nth i dts 0 <=? nth j dts 0 then i :: j :: acc'
      else j :: insert_index dts i acc'
  end.

Definition argsort (dts : list Float64.float) : list nat :=
  foldr (insert_index dts) [] (seq 0 (length dts)).

(** Another one: where the reference puts equal entries in the order of
    their indices, this one puts them in the opposite order. *)
Fixpoint insert_index_before (dts : list Float64.float) (i : nat) (acc : list nat)
  : list nat :=
  match acc with
  | [] => [i]
  | j :: acc' =>
      if nth i dts 0 <? nth j dts 0 then i :: j :: acc'
      else j :: insert_index_before dts i acc'
  end.

Definition argsort_ties_reversed (dts : list Float64.float) : list nat :=
  foldr (insert_index_before dts) [] (seq 0 (length dts)).

(** What the code needs of [np.argsort]: the result holds every index
    once, and the entries at these indices do not decrease. *)
Definition ascending (dts : list Float64.float) (i j : nat) : Prop :=
  nth i dts 0 <= nth j dts 0.

Definition sorts (f : list Float64.float -> list nat) (dts : list Float64.float)
  : Prop :=
  Permutation (f dts) (seq 0 (length dts))
  /\ Sorted (ascending dts) (f dts).

End Numpy.

(* ===================================================================== *)
(** ** class DataProvider *)

Module DataProvider.

(** The local variables of [get_files_in_range] that live across the
    [while] loop: the cursor [t], the accumulated [files], and [pos1],
    which is unbound until the body has run once. *)
Record loop_state : Type := {
  cursor : datetime;
  files : list string;
  pos1 : option (list bool)
}.

(** [[i for i, (p0, p1) in enumerate(zip(pos0, pos1)) if p0 and not p1]] *)
Definition select_indices (pos0 pos1 : list bool) : list nat :=
  map fst
    (List.filter (fun e : nat * (bool * bool) => fst (snd e) && negb (snd (snd e)))
       (PyList.enumerate (combine pos0 pos1))).

(** number of one-day steps from [t0] that are needed to reach [t1] *)
Definition days_spanned (t0 t1 : datetime) : nat :=
  Z.to_nat ((t1 - t0 + us_per_day - 1) / us_per_day).

Section Generic.

Variable name_to_date : string -> datetime.
Variable get_files : Z -> Z -> result (list string).
Variable argsort : list Float64.float -> list nat.

(** the listing of the calendar day of [t] *)
Definition day_listing (t : datetime) : result (list string) :=
  get_files (year t) (julian_day t).

Definition get_preceeding_file (filename : string) : result string :=
  let t := name_to_date filename in
  let* files := get_files (year t) (julian_day t) in
  let* i := PyList.index files filename in
  if i =? 0 then
    let* t_p := DateTime.sub t (days 1) in
    let* prev := get_files (year t_p) (julian_day t_p) in
    PyList.getitem prev (-1)
  else PyList.getitem files (i - 1).

Definition get_following_file (filename : string) : result string :=
  let t := name_to_date filename in
  let* files := get_files (year t) (julian_day t) in
  let* i := PyList.index files filename in
  if i =? Z.of_nat (length files) - 1 then
    let* t_p := DateTime.add t (days 1) in
    let* next := get_files (year t_p) (julian_day t_p) in
    PyList.getitem next 0
  else PyList.getitem files (i + 1).

(** One pass through the body of the [while] loop. *)
Definition range_body (t0 t1 : datetime) (st : loop_state) : result loop_state :=
  let t := cursor st in
  let* fs := get_files (year t) (julian_day t) in
  let pos0 := map (fun f => is_nonnegative (diff (name_to_date f) t0)) fs in
  let pos1' := map (fun f => is_positive (diff (name_to_date f) t1)) fs in
  let inds := select_indices pos0 pos1' in
  let* chosen := PyList.mapM (fun i => PyList.getitem fs (Z.of_nat i)) inds in
  let* t' := DateTime.add t (days 1) in
  Ok {| cursor := t'; files := files st ++ chosen; pos1 := Some pos1' |}.

(** [while (t1 - t).total_seconds() > 0.0: body]; [None] when [fuel]
    passes through the body were not enough to leave the loop. *)
Fixpoint range_loop (fuel : nat) (t0 t1 : datetime) (st : loop_state)
  : option (result loop_state) :=
  if is_positive (diff t1 (cursor st)) then
    match fuel with
    | O => None
    | S fuel' =>
        match range_body t0 t1 st with
        | Ok st' => range_loop fuel' t0 t1 st'
        | Raise e => Some (Raise e)
        end
    end
  else Some (Ok st).

(** The two statements after the loop. *)
Definition prepend_preceeding (t0_inclusive : bool) (fl : list string)
  : result (list string) :=
  if t0_inclusive then
    let* first := PyList.getitem fl 0 in
    let* f_p := get_preceeding_file first in
    Ok (f_p :: fl)
  else Ok fl.

Definition append_following (flags : option (list bool)) (fl : list string)
  : result (list string) :=
  let* p1 := match flags with Some l => Ok l | None => Raise UnboundLocalError end in
  let* last_flag := PyList.getitem p1 (-1) in
  if negb last_flag && negb (bool_decide (fl = [])) then
    Ok (try_extend fl
          (let* l := PyList.getitem fl (-1) in
           let* g := get_following_file l in
           Ok (fl ++ [g])))
  else Ok fl.

Definition range_finish (t0_inclusive : bool) (st : loop_state)
  : result (list string) :=
  let* fl := prepend_preceeding t0_inclusive (files st) in
  append_following (pos1 st) fl.

Definition range_start (t0 : datetime) : loop_state :=
  {| cursor := t0; files := []; pos1 := None |}.

Definition get_files_in_range_fuel (fuel : nat) (t0 t1 : datetime)
    (t0_inclusive : bool) : option (result (list string)) :=
  match range_loop fuel t0 t1 (range_start t0) with
  | None => None
  | Some r => Some (let* st := r in range_finish t0_inclusive st)
  end.

(** [get_files_in_range(t0, t1, t0_inclusive)].  The loop is run with
    [days_spanned t0 t1] passes allowed, which [range_loop_visit] shows
    to be always enough, so that the last branch is never taken. *)
Definition get_files_in_range (t0 t1 : datetime) (t0_inclusive : bool)
  : result (list string) :=
  match get_files_in_range_fuel (days_spanned t0 t1) t0 t1 t0_inclusive with
  | Some r => r
  | None => Raise (PyException "while loop still running")
  end.

Definition get_file_by_date (t : datetime) : result string :=
  let* t_p := DateTime.sub t (days 1) in
  let* prev := get_files (year t_p) (julian_day t_p) in
  let files0 := PyList.last_slice prev in
  let* today := get_files (year t) (julian_day t) in
  let files := files0 ++ today in
  let ts := map name_to_date files in
  let dts := map (fun tf => diff tf t) ts in
  let dts := map total_seconds dts in
  let inds := argsort dts in
  let* sorted := Numpy.take dts inds in
  let indices :=
    Numpy.where_true (map (fun x => Float64.ltb x Float64.zero) sorted) in
  let* ind :=
    if (length indices =? 0)%nat then Ok (Z.of_nat (length dts) - 1)
    else
      let* k := PyList.getitem indices (-1) in
      let* i := PyList.getitem inds (Z.of_nat k) in
      Ok (Z.of_nat i) in
  PyList.getitem files ind.

End Generic.

End DataProvider.

(* ===================================================================== *)
(** ** Products and the registries of supported products *)

(** What the providers use of a product: [product.__name__] and
    [product.name_to_date]. *)
Record product : Type := {
  product_name : string;
  product_name_to_date : string -> datetime
}.

(** The two module-level registries are of different Python types: a
    [list] of names and a [dict] from names to path components. *)
Inductive registry : Type :=
  | PyListOf (names : list string)
  | PyDictOf (items : list (string * list string)).

Module Registry.

(** [name in r] *)
Definition contains (r : registry) (name : string) : bool :=
  match r with
  | PyListOf names => existsb (String.eqb name) names
  | PyDictOf items => existsb (fun kv => String.eqb name (fst kv)) items
  end.

(** [r.keys()]: a list has no such attribute *)
Definition keys (r : registry) : result (list string) :=
  match r with
  | PyListOf _ => Raise AttributeError
  | PyDictOf items => Ok (map fst items)
  end.

(** [r[name]] for a dict *)
Definition lookup (r : registry) (name : string) : result (list string) :=
  match r with
  | PyListOf _ => Raise TypeError
  | PyDictOf items =>
      match List.find (fun kv => String.eqb name (fst kv)) items with
      | Some kv => Ok (snd kv)
      | None => Raise (KeyError name)
      end
  end.

End Registry.

(** [os.path.join] of relative components *)
Definition path_join (parts : list string) : string :=
  String.concat "/" parts.

(* ===================================================================== *)
(** ** class CopernicusProvider *)

Module CopernicusProvider.

Definition copernicus_products : registry :=
  PyListOf [ "reanalysis-era5-land";
             "reanalysis-era5-land-monthly-means";
             "reanalysis-era5-pressure-levels";
             "reanalysis-era5-pressure-levels-monthly-means";
             "reanalysis-era5-single-levels";
             "reanalysis-era5-single-levels-monthly-means" ].

Record instance : Type := {
  self_product : product;
  self_variables : list string;
  self_domain : list string
}.

(** [__init__(self, product, variables, domain=None)]; [domain = None]
    is stored as the empty string, here the empty sequence. *)
Definition init (p : product) (variables : list string)
    (domain : option (list string)) : result instance :=
  if negb (Registry.contains copernicus_products (product_name p)) then
    let* available_products := Registry.keys copernicus_products in
    Raise (ValueError (product_name p ++ "  not a available from the Copernicus data provider. Currently available products are:  {available_products}."))
  else
    Ok {| self_product := p;
          self_variables := variables;
          self_domain := match domain with None => [] | Some d => d end |}.

End CopernicusProvider.

(* ===================================================================== *)
(** ** class IcareProvider *)

Module IcareProvider.

Definition icare_products : registry :=
  PyDictOf [ ("CloudSat_2b_GeoProf", ["SPACEBORNE"; "CLOUDSAT"; "2B-GEOPROF"]);
             ("CloudSat_1b_CPR", ["SPACEBORNE"; "CLOUDSAT"; "1B-CPR"]);
             ("CloudSat_MODIS_Aux", ["SPACEBORNE"; "CLOUDSAT"; "MODIS-AUX"]);
             ("CloudSat_ECMWF_Aux", ["SPACEBORNE"; "CLOUDSAT"; "ECMWF-AUX"]) ].

(** An element of a cached listing: [t(l)] for the constructor [t] that
    was passed, [str] or [int]. *)
Inductive atom : Type :=
  | AStr (s : string)
  | AInt (n : Z).

(** The instance, together with what it has done on the network so far:
    the number of FTP connections it opened and, in order, the paths whose
    listing [ftp.nlst()] has returned. *)
Record instance : Type := {
  self_product : product;
  product_path : string;
  cache : gmap string (list atom);
  connections : nat;
  retrieved : list string
}.

(** What holds of an instance while the sessions end well and only
    [get_files] is called: every path whose listing was retrieved is in
    the cache, and none was retrieved twice. *)
Definition cache_inv (s : instance) : Prop :=
  NoDup (retrieved s)
  /\ forall path, path ∈ retrieved s -> is_Some (cache s !! path).

(** What one FTP session does when asked for the listing of a path.  The
    session is left through [FTP.__exit__], which sends [QUIT] and lets
    an error reply to it through: with [QuitFails] the listing has been
    returned by [ftp.nlst()] and leaving the [with] block raises. *)
Inductive ftp_reply : Type :=
  | ConnectFails
  | IdentityMissing
  | LoginFails
  | CwdFails
  | NlstFails
  | QuitFails (names : list string)
  | Listing (names : list string).

(** [__init__(self, product)] *)
Definition init (p : product) : result instance :=
  if negb (Registry.contains icare_products (product_name p)) then
    let* available_products := Registry.keys icare_products in
    Raise (ValueError (product_name p ++ "  not a available from the ICARE data provider. Currently available products are:  {available_products}."))
  else
    let* parts := Registry.lookup icare_products (product_name p) in
    Ok {| self_product := p;
          product_path := path_join parts;
          cache := ∅;
          connections := 0;
          retrieved := [] |}.

(** [str], the constructor [get_files] passes *)
Definition str (l : string) : result atom := Ok (AStr l).

(** [name[-3:] == "hdf"] *)
Definition ends_with_hdf (name : string) : bool :=
  let n := String.length name in
  String.eqb (String.substring (n - 3) 3 name) "hdf".

(** [[name for name in listing if name[-3:] == "hdf"]] *)
Fixpoint hdf_files (listing : list atom) : result (list string) :=
  match listing with
  | [] => Ok []
  | AInt _ :: _ => Raise TypeError
  | AStr name :: rest =>
      let* files := hdf_files rest in
      Ok (if ends_with_hdf name then name :: files else files)
  end.

Section Remote.

(** The server: the reply to the [k]-th connection of the instance, asked
    for a path.  The reply may change from one connection to the next. *)
Variable server : nat -> string -> ftp_reply.

(** [os.path.join(product_path, str(year), date.strftime("%Y_%m_%d"))],
    with [date] parsed from the year and the padded day; the parsing
    raises on a day that the year does not have. *)
Variable day_directory : string -> Z -> Z -> result string.

Definition connect (s : instance) : instance :=
  {| self_product := self_product s; product_path := product_path s;
     cache := cache s; connections := S (connections s);
     retrieved := retrieved s |}.

Definition note_retrieved (path : string) (s : instance) : instance :=
  {| self_product := self_product s; product_path := product_path s;
     cache := cache s; connections := connections s;
     retrieved := retrieved s ++ [path] |}.

Definition store (path : string) (listing : list atom) (s : instance) : instance :=
  {| self_product := self_product s; product_path := product_path s;
     cache := <[path := listing]> (cache s); connections := connections s;
     retrieved := retrieved s |}.

(** [__ftp_listing_to_list__(self, path, t)] *)
Definition ftp_listing_to_list (path : string) (t : string -> result atom)
    (s : instance) : result (list atom) * instance :=
  match cache s !! path with
  | Some listing => (Ok listing, s)
  | None =>
      let s1 := connect s in
      match server (connections s) path with
      | ConnectFails => (Raise (RemoteError "connect"), s1)
      | IdentityMissing => (Raise (RemoteError "get_identity"), s1)
      | LoginFails => (Raise (RemoteError "login"), s1)
      | CwdFails =>
          (Raise (PyException ("Can't find product folder " ++ path
             ++ "on the ICARE ftp server.. Are you sure this isa  ICARE multi sensor product?")), s1)
      | NlstFails => (Raise (RemoteError "nlst"), s1)
      | QuitFails names => (Raise (RemoteError "quit"), note_retrieved path s1)
      | Listing names =>
          let s2 := note_retrieved path s1 in
          match PyList.mapM t names with
          | Raise e => (Raise e, s2)
          | Ok listing => (Ok listing, store path listing s2)
          end
      end
  end.

(** [get_files(self, year, day)] *)
Definition get_files (year day : Z) (s : instance)
  : result (list string) * instance :=
  match day_directory (product_path s) year day with
  | Raise e => (Raise e, s)
  | Ok path =>
      let '(r, s') := ftp_listing_to_list path str s in
      (let* listing := r in hdf_files listing, s')
  end.

(** The instance after a sequence of [get_files] calls. *)
Definition run (calls : list (Z * Z)) (s : instance) : instance :=
  fold_left (fun s c => snd (get_files (fst c) (snd c) s)) calls s.

End Remote.

End IcareProvider.

(* ===================================================================== *)
(** ** The range query, day by day *)

(** A second description of the [while] loop of [get_files_in_range], by
    the number of days it visits; [range_loop_visit] below shows that the
    loop computes it. *)
Module RangeQuery.

Section Days.

Variable name_to_date : string -> datetime.
Variable get_files : Z -> Z -> result (list string).

(** the test a file passes to be selected: [p0 and not p1] *)
Definition in_window (t0 t1 : datetime) (f : string) : bool :=
  (t0 <=? name_to_date f) && (name_to_date f <=? t1).

Definition selected (t0 t1 : datetime) (fs : list string) : list string :=
  List.filter (in_window t0 t1) fs.

(** the entry of [pos1] for a file *)
Definition after (t1 : datetime) (f : string) : bool :=
  is_positive (diff (name_to_date f) t1).

(** the listings of [k] consecutive days from the day of [t], or the
    first exception on the way *)
Fixpoint visit (k : nat) (t : datetime) : result (list (list string)) :=
  match k with
  | O => Ok []
  | S k' =>
      let* fs := get_files (year t) (julian_day t) in
      let* t' := DateTime.add t (days 1) in
      let* rest := visit k' t' in
      Ok (fs :: rest)
  end.

(** the variables on leaving the loop after [k] days with listings [ls] *)
Definition loop_exit (t0 t1 : datetime) (st : DataProvider.loop_state)
    (k : nat) (ls : list (list string)) : DataProvider.loop_state :=
  {| DataProvider.cursor := DataProvider.cursor st + days (Z.of_nat k);
     DataProvider.files :=
       DataProvider.files st ++ concat (map (selected t0 t1) ls);
     DataProvider.pos1 :=
       match last ls with
       | Some fs => Some (map (after t1) fs)
       | None => DataProvider.pos1 st
       end |}.

End Days.

End RangeQuery.

(* ===================================================================== *)
(** ** Assumptions on an archive, and a small archive for examples *)

Module Archive.

Section Assumptions.

Variable name_to_date : string -> datetime.
Variable get_files : Z -> Z -> result (list string).

(** The listing of a day holds files of that day only. *)
Definition listings_by_day : Prop :=
  forall (t : datetime) (fs : list string) (f : string),
    get_files (year t) (julian_day t) = Ok fs -> f ∈ fs ->
    day_number (name_to_date f) = day_number t.

(** No listing names a file twice. *)
Definition listings_nodup : Prop :=
  forall (y d : Z) (fs : list string), get_files y d = Ok fs -> NoDup fs.

(** No file is in the listings of two days. *)
Definition listings_disjoint : Prop :=
  forall (t t' : datetime) (fs fs' : list string) (f : string),
    get_files (year t) (julian_day t) = Ok fs ->
    get_files (year t') (julian_day t') = Ok fs' ->
    f ∈ fs -> f ∈ fs' ->
    day_number t = day_number t'.

(** A listing is in ascending order of the decoded timestamps. *)
Definition chronological (fs : list string) : Prop :=
  Sorted (fun a b => name_to_date a <= name_to_date b) fs.

Definition listings_chronological : Prop :=
  forall (y d : Z) (fs : list string), get_files y d = Ok fs -> chronological fs.

End Assumptions.

(** A product that decodes file names by a table of start times. *)
Definition table_name_to_date (starts : list (string * datetime)) (f : string)
  : datetime :=
  match List.find (fun kv => String.eqb f (fst kv)) starts with
  | Some kv => snd kv
  | None => 0
  end.

(** A provider that answers from a table of days; a day is given by any
    datetime in it, and a day that is not in the table has no file. *)
Definition table_get_files (tbl : list (datetime * list string)) (y d : Z)
  : result (list string) :=
  match List.find (fun e => (year (fst e) =? y) && (julian_day (fst e) =? d)) tbl with
  | Some e => Ok (snd e)
  | None => Ok []
  end.

(** A check, by computation, that a table meets the three assumptions. *)
Definition entry_ok (ntd : string -> datetime) (e : datetime * list string) : bool :=
  forallb (fun f => day_number (ntd f) =? day_number (fst e)) (snd e)
  && bool_decide (NoDup (snd e))
  && forallb (fun ab => ntd (fst ab) <=? ntd (snd ab))
       (combine (snd e) (tail (snd e))).

Definition table_ok (ntd : string -> datetime) (tbl : list (datetime * list string))
  : bool :=
  forallb (entry_ok ntd) tbl.

(** Three days of files around the end of February 2020. *)
Definition starts : list (string * datetime) :=
  [ ("e9", civil 2020 2 28 23 0 0);
    ("f1", civil 2020 2 29 10 0 0);
    ("f2", civil 2020 2 29 14 0 0);
    ("f3", civil 2020 2 29 20 0 0);
    ("g1", civil 2020 3 1 2 0 0);
    ("g2", civil 2020 3 1 12 0 0) ].

Definition listings : list (datetime * list string) :=
  [ (civil 2020 2 28 0 0 0, ["e9"]);
    (civil 2020 2 29 0 0 0, ["f1"; "f2"; "f3"]);
    (civil 2020 3 1 0 0 0, ["g1"; "g2"]) ].

Definition name_to_date : string -> datetime := table_name_to_date starts.
Definition get_files : Z -> Z -> result (list string) := table_get_files listings.

(** An archive without any file. *)
Definition no_files (y d : Z) : result (list string) := Ok [].

(** Datetimes of the examples. *)
Definition feb29 (hh : Z) : datetime := civil 2020 2 29 hh 0 0.
Definition mar01 (hh : Z) : datetime := civil 2020 3 1 hh 0 0.

(** An ICARE product, a server whose listing changes after the first
    connection, and the directories of two days. *)
Definition cloudsat : product :=
  {| product_name := "CloudSat_1b_CPR"; product_name_to_date := name_to_date |}.

Definition changing_server (k : nat) (path : string) : IcareProvider.ftp_reply :=
  match k with
  | O => IcareProvider.Listing ["f1.hdf"; "f2.hdf"; "readme.txt"]
  | S _ => IcareProvider.Listing ["f1.hdf"; "f2.hdf"; "f3.hdf"]
  end.

Definition two_days (product_path : string) (y d : Z) : result string :=
  if (y =? 2020) && (d =? 60) then Ok (String.append product_path "/2020/2020_02_29")
  else if (y =? 2020) && (d =? 61) then Ok (String.append product_path "/2020/2020_03_01")
  else Raise (ValueError "time data does not match format").

End Archive.

(* ===================================================================== *)
(** ** The directory of a day on the ICARE server *)

(** [get_files] builds the directory of a day by printing the year and
    the day, parsing the two as a date with the format [%Y%j] and printing
    the date again; [download] prints the date of the file.  The model
    follows CPython 3.11 ([str], [_strptime], [posixpath.join]).  The
    C library prints [%m] and [%d] with two digits; what it prints for
    [%Y] is the same everywhere from year 1000 on and is a parameter. *)
Module Paths.

(** [str(n)] for an integer *)
Definition str_int (n : Z) : string := NilZero.string_of_int (Z.to_int n).

(** ["0" * n] *)
Fixpoint zeros (n : nat) : string :=
  match n with
  | O => EmptyString
  | S n' => String "0" (zeros n')
  end.

(** [day_str = "0" * (3 - len(day_str)) + day_str] *)
Definition pad_day (day_str : string) : string :=
  String.append (zeros (3 - String.length day_str)) day_str.

(** the value of a decimal digit, for the class [\d] *)
Definition digit (c : ascii) : option Z :=
  let n := Z.of_nat (nat_of_ascii c) in
  if (48 <=? n) && (n <=? 57) then Some (n - 48) else None.

(** [(?P<Y>\d\d\d\d)] at the start of a string *)
Definition match_Y (s : string) : option (Z * string) :=
  match s with
  | String a (String b (String c (String d rest))) =>
      match digit a, digit b, digit c, digit d with
      | Some x, Some y, Some z, Some w =>
          Some (1000 * x + 100 * y + 10 * z + w, rest)
      | _, _, _, _ => None
      end
  | _ => None
  end.

(** The alternatives of [%j] that take three, two and one character:
    [36[0-6]|3[0-5]\d|[1-2]\d\d|0[1-9]\d|00[1-9]], then
    [[1-9]\d|0[1-9]], then [[1-9]]. *)
Definition match_j3 (s : string) : option (Z * string) :=
  match s with
  | String a (String b (String c rest)) =>
      match digit a, digit b, digit c with
      | Some x, Some y, Some z =>
          if ((x =? 3) && (y =? 6) && (z <=? 6))
             || ((x =? 3) && (y <=? 5))
             || ((1 <=? x) && (x <=? 2))
             || ((x =? 0) && (1 <=? y))
             || ((x =? 0) && (y =? 0) && (1 <=? z))
          then Some (100 * x + 10 * y + z, rest) else None
      | _, _, _ => None
      end
  | _ => None
  end.

Definition match_j2 (s : string) : option (Z * string) :=
  match s with
  | String a (String b rest) =>
      match digit a, digit b with
      | Some x, Some y =>
          if (1 <=? x) || ((x =? 0) && (1 <=? y))
          then Some (10 * x + y, rest) else None
      | _, _ => None
      end
  | _ => None
  end.

Definition match_j1 (s : string) : option (Z * string) :=
  match s with
  | String a rest =>
      match digit a with
      | Some x => if 1 <=? x then Some (x, rest) else None
      | None => None
      end
  | _ => None
  end.

(** [(?P<j>...)]: the first alternative that matches *)
Definition match_j (s : string) : option (Z * string) :=
  match match_j3 s with
  | Some r => Some r
  | None =>
      match match_j2 s with
      | Some r => Some r
      | None => match_j1 s
      end
  end.

(** [datetime.strptime(s, "%Y%j")]: the year and the day of the year are
    read, and the date is the day of the year counted from the first of
    January, also beyond the end of the year. *)
Definition strptime_Yj (s : string) : result datetime :=
  match match_Y s with
  | None => Raise (ValueError "time data does not match format")
  | Some (y, rest) =>
      match match_j rest with
      | None => Raise (ValueError "time data does not match format")
      | Some (j, EmptyString) =>
          if y =? 0 then Raise (ValueError "year 0 is out of range")
          else
            let n := days_before_year y + j - 1 in
            if n <=? 3652058 then Ok (n * us_per_day)
            else Raise (ValueError "year 10000 is out of range")
      | Some (j, String _ _) => Raise (ValueError "unconverted data remains")
      end
  end.

(** the month of the date with day [yday] of year [y]: the last month
    that begins before that day *)
Definition month_of (y yday : Z) : Z :=
  match List.find (fun m => days_before_month y m <? yday)
          [12; 11; 10; 9; 8; 7; 6; 5; 4; 3; 2; 1] with
  | Some m => m
  | None => 1
  end.

(** [t.month] and [t.day] *)
Definition month (t : datetime) : Z := month_of (year t) (julian_day t).
Definition day (t : datetime) : Z :=
  julian_day t - days_before_month (year t) (month t).

(** two digits, as [%m] and [%d] print them *)
Definition two_digits (n : Z) : string :=
  if n <? 10 then String "0" (str_int n) else str_int n.

(** [os.path.join(a, *p)] of [posixpath] *)
Definition starts_with_slash (s : string) : bool :=
  match s with
  | String c _ => Ascii.eqb c "/"
  | EmptyString => false
  end.

Fixpoint ends_with_slash (s : string) : bool :=
  match s with
  | EmptyString => false
  | String c EmptyString => Ascii.eqb c "/"
  | String _ s' => ends_with_slash s'
  end.

Fixpoint posix_join (a : string) (p : list string) : string :=
  match p with
  | [] => a
  | b :: p' =>
      posix_join
        (if starts_with_slash b then b
         else if (String.length a =? 0)%nat || ends_with_slash a then String.append a b
         else String.append a (String "/" b))
        p'
  end.

Section Directories.

(** [%Y] of the C library *)
Variable strftime_Y : Z -> string.

(** [t.strftime("%Y_%m_%d")] *)
Definition strftime_Ymd (t : datetime) : string :=
  String.append (strftime_Y (year t))
    (String "_" (String.append (two_digits (month t))
                   (String "_" (two_digits (day t))))).

(** the [date] of [get_files(year, day)] *)
Definition listing_date (y d : Z) : result datetime :=
  strptime_Yj (String.append (str_int y) (pad_day (str_int d))).

(** the [path] of [get_files(year, day)] *)
Definition day_directory (product_path : string) (y d : Z) : result string :=
  let* date := listing_date y d in
  Ok (posix_join product_path [str_int y; strftime_Ymd date]).

(** the [path] of [download(filename, dest)], for the date of the file *)
Definition file_directory (product_path : string) (date : datetime) : string :=
  posix_join product_path [str_int (year date); strftime_Ymd date].

End Directories.

(** number of days of a year *)
Definition year_length (y : Z) : Z := if is_leap y then 366 else 365.

(** Checks by computation: the year is printed with the four digits that
    [%Y] reads back, and the padded day is read back by [%j], or not. *)
Definition year_reads_back (y : Z) : bool :=
  match match_Y (str_int y) with
  | Some (v, EmptyString) => v =? y
  | _ => false
  end.

Definition day_reads_back (d : Z) : bool :=
  match match_j (pad_day (str_int d)) with
  | Some (v, EmptyString) => v =? d
  | _ => false
  end.

Definition day_not_read (d : Z) : bool :=
  match match_j (pad_day (str_int d)) with
  | Some (_, EmptyString) => false
  | _ => true
  end.

End Paths.

(* ===================================================================== *)
(** ** IcareProvider.download *)

(** [download] fetches the identity, opens a connection, logs in, changes
    to the directory of the date of the file, opens the destination for
    writing and lets [retrbinary] write the blocks it receives.  The disk
    is a map from paths to contents; an exception of a collaborator is a
    [RemoteError] that names the call. *)
Module IcareDownload.

(** What one FTP session does when asked for a file of a directory: the
    blocks that [RETR] delivers, and whether it ends well. *)
Inductive transfer_reply : Type :=
  | ConnectFails
  | LoginFails
  | CwdFails
  | Transfer (blocks : list string) (complete : bool).

Section Remote.

(** [get_identity("Icare")] returns *)
Variable has_identity : bool.

(** the reply to the [k]-th connection of the instance, for a directory
    and a file name *)
Variable server : nat -> string -> string -> transfer_reply.

(** [open(dest, "wb")] succeeds *)
Variable can_open : string -> bool.

(** [%Y] of the C library *)
Variable strftime_Y : Z -> string.

(** the [path] of [download(filename, dest)] *)
Definition download_path (s : IcareProvider.instance) (filename : string) : string :=
  Paths.file_directory strftime_Y (IcareProvider.product_path s)
    (product_name_to_date (IcareProvider.self_product s) filename).

(** [download(self, filename, dest)] *)
Definition download (filename dest : string) (s : IcareProvider.instance)
    (disk : gmap string string)
  : result unit * IcareProvider.instance * gmap string string :=
  let path := download_path s filename in
  if negb has_identity then (Raise (RemoteError "get_identity"), s, disk)
  else
    let s1 := IcareProvider.connect s in
    match server (IcareProvider.connections s) path filename with
    | ConnectFails => (Raise (RemoteError "connect"), s1, disk)
    | LoginFails => (Raise (RemoteError "login"), s1, disk)
    | CwdFails => (Raise (RemoteError "cwd"), s1, disk)
    | Transfer blocks complete =>
        if negb (can_open dest) then (Raise (RemoteError "open"), s1, disk)
        else
          let written := <[dest := String.concat "" blocks]> disk in
          if complete then (Ok tt, s1, written)
          else (Raise (RemoteError "retrbinary"), s1, written)
    end.

End Remote.

End IcareDownload.

(* ===================================================================== *)
(** ** The life of an ICARE instance *)

(** After its construction an instance is used through its methods:
    [get_files], [download], and [__ftp_listing_to_list__], which can be
    called directly with any converter.  A step is one such call, whether
    it returns or raises. *)
Module IcareLifetime.

Section Remote.

Variable listings : nat -> string -> IcareProvider.ftp_reply.
Variable day_directory : string -> Z -> Z -> result string.
Variable has_identity : bool.
Variable transfers : nat -> string -> string -> IcareDownload.transfer_reply.
Variable can_open : string -> bool.
Variable strftime_Y : Z -> string.

Inductive step (s s' : IcareProvider.instance) : Prop :=
  | step_get_files (year day : Z) (r : result (list string)) :
      IcareProvider.get_files listings day_directory year day s = (r, s') ->
      step s s'
  | step_ftp_listing (path : string) (t : string -> result IcareProvider.atom)
      (r : result (list IcareProvider.atom)) :
      IcareProvider.ftp_listing_to_list listings path t s = (r, s') ->
      step s s'
  | step_download (filename dest : string) (disk disk' : gmap string string)
      (r : result unit) :
      IcareDownload.download has_identity transfers can_open strftime_Y
        filename dest s disk = (r, s', disk') ->
      step s s'.

(** [s'] is the instance [s] later in its life. *)
Definition later (s s' : IcareProvider.instance) : Prop := rtc step s s'.

End Remote.

(** [s'] has the product path and every cached listing of [s], and the
    listings it retrieved beyond those of [s] are of paths that [s] has
    not cached. *)
Definition keeps_listings (s s' : IcareProvider.instance) : Prop :=
  IcareProvider.product_path s' = IcareProvider.product_path s
  /\ (forall path l, IcareProvider.cache s !! path = Some l ->
                     IcareProvider.cache s' !! path = Some l)
  /\ exists more,
       IcareProvider.retrieved s' = IcareProvider.retrieved s ++ more
       /\ forall path, is_Some (IcareProvider.cache s !! path) -> path ∉ more.

End IcareLifetime.

(* ===================================================================== *)
(** ** Servers, converters and a disk for examples *)

Module Scenario.

(** The product of [Archive] with one more name, [f4], that decodes to
    the evening of the 29th of February and is in no listing. *)
Definition name_to_date_f4 : string -> datetime :=
  Archive.table_name_to_date (("f4", civil 2020 2 29 22 0 0) :: Archive.starts).

Definition mar02 (hh : Z) : datetime := civil 2020 3 2 hh 0 0.

(** The instance that [IcareProvider(cloudsat)] returns. *)
Definition fresh : IcareProvider.instance :=
  {| IcareProvider.self_product := Archive.cloudsat;
     IcareProvider.product_path := "SPACEBORNE/CLOUDSAT/1B-CPR";
     IcareProvider.cache := ∅;
     IcareProvider.connections := 0;
     IcareProvider.retrieved := [] |}.

(** The same for a product whose files are named as those of [Archive]
    with the suffix [.hdf]: the first two characters give the start. *)
Definition cloudsat_hdf : product :=
  {| product_name := "CloudSat_1b_CPR";
     product_name_to_date := fun f => Archive.name_to_date (String.substring 0 2 f) |}.

Definition fresh_hdf : IcareProvider.instance :=
  {| IcareProvider.self_product := cloudsat_hdf;
     IcareProvider.product_path := "SPACEBORNE/CLOUDSAT/1B-CPR";
     IcareProvider.cache := ∅;
     IcareProvider.connections := 0;
     IcareProvider.retrieved := [] |}.

(** The directory of the 29th of February 2020. *)
Definition feb29_directory : string := "SPACEBORNE/CLOUDSAT/1B-CPR/2020/2020_02_29".

(** A server that does not find the directory at the first connection and
    lists it from the second on. *)
Definition recovering_server (k : nat) (path : string) : IcareProvider.ftp_reply :=
  match k with
  | O => IcareProvider.CwdFails
  | S _ => IcareProvider.Listing ["f1.hdf"; "notes.txt"; "f2.hdf"]
  end.

(** A server whose first session delivers the listing and then fails at
    [QUIT]; the sessions after it end well. *)
Definition quitting_server (k : nat) (path : string) : IcareProvider.ftp_reply :=
  match k with
  | O => IcareProvider.QuitFails ["f1.hdf"; "f2.hdf"]
  | S _ => IcareProvider.Listing ["f1.hdf"; "f2.hdf"]
  end.

(** Two files that start a microsecond apart in the year 1, and a
    provider that has the given names in the listing of the last day of
    the year 9999. *)
Definition far_name_to_date : string -> datetime :=
  Archive.table_name_to_date [("a", 0); ("b", 1)].

Definition far_day (hh : Z) : datetime := civil 9999 12 31 hh 0 0.

Definition far_get_files (names : list string) : Z -> Z -> result (list string) :=
  Archive.table_get_files [(far_day 0, names)].

(** A server whose listing does not change, and one that lists folders
    named by numbers. *)
Definition steady_server (k : nat) (path : string) : IcareProvider.ftp_reply :=
  IcareProvider.Listing ["f1.hdf"; "f2.hdf"].

Definition numbered_server (k : nat) (path : string) : IcareProvider.ftp_reply :=
  IcareProvider.Listing ["2019"; "2020"].

(** The converter [int] on names of decimal digits; any other name raises
    [ValueError] here ([int] of Python also reads a sign, spaces and
    underscores, which the names of the examples do not have). *)
Fixpoint digits_value (acc : Z) (s : string) : option Z :=
  match s with
  | EmptyString => Some acc
  | String c s' =>
      match Paths.digit c with
      | Some d => digits_value (10 * acc + d) s'
      | None => None
      end
  end.

Definition int_of_digits (l : string) : result IcareProvider.atom :=
  match l with
  | EmptyString => Raise (ValueError "invalid literal for int()")
  | String _ _ =>
      match digits_value 0 l with
      | Some n => Ok (IcareProvider.AInt n)
      | None => Raise (ValueError "invalid literal for int()")
      end
  end.

(** A server for downloads: in the directory of the 29th of February it
    delivers [f1] in two blocks, breaks off after the first block of [f2]
    and has no other file; it has no other directory. *)
Definition file_server (k : nat) (path filename : string)
  : IcareDownload.transfer_reply :=
  if String.eqb path feb29_directory then
    if String.eqb filename "f1" then IcareDownload.Transfer ["abc"; "def"] true
    else if String.eqb filename "f2" then IcareDownload.Transfer ["abc"] false
    else IcareDownload.Transfer [] false
  else IcareDownload.CwdFails.

(** A disk with two files, and destinations that can all be opened. *)
Definition disk : gmap string string :=
  <["out.hdf" := "old content"]> (<["notes.txt" := "kept"]> ∅).

Definition any_destination (dest : string) : bool := true.

End Scenario.

(* ===================================================================== *)
(** ** Calendar and array examples *)

Example year_and_yday_leap_end :
  (year (civil 2020 12 31 23 59 59), julian_day (civil 2020 12 31 23 59 59)) = (2020, 366).
Proof. reflexivity. Qed.

Example year_and_yday_new_year :
  (year (civil 2021 1 1 0 0 0), julian_day (civil 2021 1 1 0 0 0)) = (2021, 1).
Proof. reflexivity. Qed.

Example year_and_yday_century :
  (year (civil 1900 3 1 12 0 0), julian_day (civil 1900 3 1 12 0 0)) = (1900, 60).
Proof. reflexivity. Qed.

Example year_and_yday_table :
  map year_and_yday [0; 146096; 730178; 737789; 767008]
  = [(1, 1); (400, 366); (2000, 60); (2020, 366); (2100, 365)].
Proof. reflexivity. Qed.

Example max_datetime_is_9999 :
  (year max_datetime, julian_day max_datetime, in_range (max_datetime + 1)) = (9999, 365, false).
Proof. reflexivity. Qed.

Example argsort_example : Numpy.argsort [5; -3; 5; 0; -3] = [1; 4; 3; 0; 2]%nat.
Proof. reflexivity. Qed.


(* ===================================================================== *)
(** ** Facts on results and Python lists *)

Lemma bind_Ok_inv {A B} (c : result A) (k : A -> result B) (b : B) :
  bind c k = Ok b -> exists a, c = Ok a /\ k a = Ok b.
Proof. destruct c as [a|e]; simpl; [eauto | discriminate]. Qed.

Lemma getitem_nat {A} (l : list A) (i : nat) :
  PyList.getitem l (Z.of_nat i)
  = match l !! i with Some x => Ok x | None => Raise IndexError end.
Proof.
  unfold PyList.getitem.
  destruct (Z.ltb_spec (Z.of_nat i) 0) as [Hneg|_]; [lia|].
  rewrite Nat2Z.id.
  destruct (Z.leb_spec 0 (Z.of_nat i)) as [_|Hneg]; [|lia].
  destruct (Z.ltb_spec (Z.of_nat i) (Z.of_nat (length l))) as [Hlt|Hge]; simpl.
  - reflexivity.
  - rewrite lookup_ge_None_2 by lia. reflexivity.
Qed.

Lemma getitem_first {A} (l : list A) :
  PyList.getitem l 0
  = match head l with Some x => Ok x | None => Raise IndexError end.
Proof. change 0 with (Z.of_nat 0). rewrite getitem_nat, head_lookup. reflexivity. Qed.

Lemma getitem_last {A} (l : list A) :
  PyList.getitem l (-1)
  = match last l with Some x => Ok x | None => Raise IndexError end.
Proof.
  unfold PyList.getitem. rewrite last_lookup.
  destruct l as [|a l]; [reflexivity|].
  change (-1 <? 0) with true. cbv iota.
  destruct (Z.leb_spec 0 (-1 + Z.of_nat (length (a :: l)))) as [_|Hneg];
    [|simpl in Hneg; lia].
  destruct (Z.ltb_spec (-1 + Z.of_nat (length (a :: l))) (Z.of_nat (length (a :: l))))
    as [_|Hge]; [|lia].
  simpl andb. cbv iota.
  replace (Z.to_nat (-1 + Z.of_nat (length (a :: l)))) with (pred (length (a :: l)))
    by (simpl; lia).
  reflexivity.
Qed.

Lemma find_index_lookup (x : string) (l : list string) (i : nat) :
  PyList.find_index x l = Some i -> l !! i = Some x.
Proof.
  revert i. induction l as [|y l IH]; intros i; simpl; [discriminate|].
  destruct (String.eqb_spec y x) as [->|Hne].
  - intros [= <-]. reflexivity.
  - destruct (PyList.find_index x l) as [j|]; simpl; [|discriminate].
    intros [= <-]. simpl. apply IH. reflexivity.
Qed.

Lemma find_index_length (x : string) (l : list string) (i : nat) :
  PyList.find_index x l = Some i -> (i < length l)%nat.
Proof. intros H. eapply lookup_lt_Some, find_index_lookup, H. Qed.

Lemma find_index_head (x : string) (l : list string) :
  PyList.find_index x (x :: l) = Some 0%nat.
Proof. simpl. rewrite String.eqb_refl. reflexivity. Qed.

Lemma find_index_elem_of (x : string) (l : list string) :
  x ∈ l -> exists i, PyList.find_index x l = Some i.
Proof.
  induction l as [|y l IH]; intros Hin; [inversion Hin|].
  simpl. destruct (String.eqb_spec y x) as [->|Hne]; [eauto|].
  apply elem_of_cons in Hin as [->|Hin]; [congruence|].
  destruct (IH Hin) as [i ->]. simpl. eauto.
Qed.

(** In a listing without repetition, the position [index] finds is the
    position of the entry. *)
Lemma find_index_NoDup (x : string) (l : list string) (i : nat) :
  NoDup l -> l !! i = Some x -> PyList.find_index x l = Some i.
Proof.
  intros Hnd. revert i. induction Hnd as [|y l Hnotin Hnd IH]; intros i Hi.
  - rewrite lookup_nil in Hi. discriminate.
  - simpl. destruct (String.eqb_spec y x) as [->|Hne].
    + destruct i as [|i]; [reflexivity|]. simpl in Hi.
      exfalso. apply Hnotin. eapply list_elem_of_lookup_2, Hi.
    + destruct i as [|i]; simpl in Hi; [congruence|].
      rewrite (IH i Hi). reflexivity.
Qed.

Lemma index_Ok (l : list string) (x : string) (i : Z) :
  PyList.index l x = Ok i
  <-> exists n, PyList.find_index x l = Some n /\ i = Z.of_nat n.
Proof.
  unfold PyList.index. destruct (PyList.find_index x l) as [n|]; split.
  - intros [= <-]. eauto.
  - intros (m & [= <-] & ->). reflexivity.
  - discriminate.
  - intros (m & Hm & _). discriminate.
Qed.

(* ===================================================================== *)
(** ** Facts on the calendar *)

Lemma year_and_yday_inverse (n : Z) :
  n = days_before_year (fst (year_and_yday n)) + snd (year_and_yday n) - 1.
Proof.
  unfold year_and_yday, days_before_year. cbv zeta.
  destruct ((_ =? 4) || (_ =? 4)) eqn:E; cbn [fst snd].
  - apply orb_true_iff in E. rewrite !Z.eqb_eq in E.
    Z.to_euclidean_division_equations; lia.
  - apply orb_false_iff in E. rewrite !Z.eqb_neq in E.
    Z.to_euclidean_division_equations; lia.
Qed.

(** The key [(year, day of the year)] names one calendar day. *)
Lemma day_key_injective (t t' : datetime) :
  year t = year t' -> julian_day t = julian_day t' ->
  day_number t = day_number t'.
Proof.
  unfold year, julian_day. intros Hy Hd.
  rewrite (year_and_yday_inverse (day_number t)),
          (year_and_yday_inverse (day_number t')), Hy, Hd.
  reflexivity.
Qed.

Lemma day_key_same_day (t t' : datetime) :
  day_number t = day_number t' ->
  year t = year t' /\ julian_day t = julian_day t'.
Proof. unfold year, julian_day. intros ->. split; reflexivity. Qed.

Lemma day_number_shift (t : datetime) (k : Z) :
  day_number (t + days k) = day_number t + k.
Proof.
  unfold day_number, days, us_per_day.
  rewrite Z.div_add by lia. reflexivity.
Qed.

Lemma add_Ok (t : datetime) (d : timedelta) (t' : datetime) :
  DateTime.add t d = Ok t' <-> t' = t + d /\ in_range (t + d) = true.
Proof.
  unfold DateTime.add. destruct (in_range (t + d)); split.
  - intros [= <-]. auto.
  - intros [-> _]. reflexivity.
  - discriminate.
  - intros [_ H]. discriminate.
Qed.

Lemma add_one_day (t t' : datetime) :
  DateTime.add t (days 1) = Ok t' ->
  t' = t + us_per_day /\ day_number t' = day_number t + 1.
Proof.
  intros [-> _]%add_Ok. split.
  - unfold days. lia.
  - apply day_number_shift.
Qed.

Lemma sub_one_day (t t' : datetime) :
  DateTime.sub t (days 1) = Ok t' ->
  t' = t - us_per_day /\ day_number t' = day_number t - 1.
Proof.
  unfold DateTime.sub. intros [-> _]%add_Ok. split.
  - unfold days. lia.
  - replace (- days 1) with (days (-1)) by reflexivity.
    rewrite day_number_shift. lia.
Qed.

(* ===================================================================== *)
(** ** Preceding and following file *)

Section AdjacentFiles.

Variable name_to_date : string -> datetime.
Variable get_files : Z -> Z -> result (list string).

Local Abbreviation day_listing := (DataProvider.day_listing get_files).
Local Abbreviation get_preceeding_file :=
  (DataProvider.get_preceeding_file name_to_date get_files).
Local Abbreviation get_following_file :=
  (DataProvider.get_following_file name_to_date get_files).

Lemma preceeding_within_day (filename : string) (fs : list string) (i : nat) :
  day_listing (name_to_date filename) = Ok fs ->
  PyList.find_index filename fs = Some (S i) ->
  exists x, fs !! i = Some x /\ get_preceeding_file filename = Ok x.
Proof.
  intros Hfs Hi. unfold DataProvider.get_preceeding_file.
  unfold DataProvider.day_listing in Hfs. rewrite Hfs. simpl.
  unfold PyList.index. rewrite Hi. simpl.
  destruct (Z.eqb_spec (Z.of_nat (S i)) 0) as [E|_]; [lia|].
  replace (Z.of_nat (S i) - 1) with (Z.of_nat i) by lia.
  rewrite getitem_nat.
  apply find_index_length in Hi.
  destruct (lookup_lt_is_Some_2 fs i) as [x Hx]; [lia|].
  rewrite Hx. eauto.
Qed.

Lemma preceeding_across_days (filename : string) (fs prev : list string)
    (t_p : datetime) :
  day_listing (name_to_date filename) = Ok fs ->
  PyList.find_index filename fs = Some 0%nat ->
  DateTime.sub (name_to_date filename) (days 1) = Ok t_p ->
  day_listing t_p = Ok prev ->
  get_preceeding_file filename
  = match last prev with Some x => Ok x | None => Raise IndexError end.
Proof.
  intros Hfs Hi Hsub Hprev. unfold DataProvider.get_preceeding_file.
  unfold DataProvider.day_listing in Hfs, Hprev. rewrite Hfs. simpl.
  unfold PyList.index. rewrite Hi. simpl.
  rewrite Hsub. simpl. rewrite Hprev. simpl. apply getitem_last.
Qed.

Lemma following_within_day (filename : string) (fs : list string) (i : nat) :
  day_listing (name_to_date filename) = Ok fs ->
  PyList.find_index filename fs = Some i ->
  (i + 1 < length fs)%nat ->
  exists x, fs !! (i + 1)%nat = Some x /\ get_following_file filename = Ok x.
Proof.
  intros Hfs Hi Hlt. unfold DataProvider.get_following_file.
  unfold DataProvider.day_listing in Hfs. rewrite Hfs. simpl.
  unfold PyList.index. rewrite Hi. simpl.
  destruct (Z.eqb_spec (Z.of_nat i) (Z.of_nat (length fs) - 1)) as [E|_]; [lia|].
  replace (Z.of_nat i + 1) with (Z.of_nat (i + 1)) by lia.
  rewrite getitem_nat.
  destruct (lookup_lt_is_Some_2 fs (i + 1)) as [x Hx]; [lia|].
  rewrite Hx. eauto.
Qed.

Lemma following_across_days (filename : string) (fs next : list string)
    (i : nat) (t_n : datetime) :
  day_listing (name_to_date filename) = Ok fs ->
  PyList.find_index filename fs = Some i ->
  (i + 1)%nat = length fs ->
  DateTime.add (name_to_date filename) (days 1) = Ok t_n ->
  day_listing t_n = Ok next ->
  get_following_file filename
  = match head next with Some x => Ok x | None => Raise IndexError end.
Proof.
  intros Hfs Hi Hlen Hadd Hnext. unfold DataProvider.get_following_file.
  unfold DataProvider.day_listing in Hfs, Hnext. rewrite Hfs. simpl.
  unfold PyList.index. rewrite Hi. simpl.
  destruct (Z.eqb_spec (Z.of_nat i) (Z.of_nat (length fs) - 1)) as [_|E]; [|lia].
  rewrite Hadd. simpl. rewrite Hnext. simpl. apply getitem_first.
Qed.

(** The last entry of a listing without repetition sits at the last
    position. *)
Lemma last_entry_position (filename : string) (fs : list string) (i : nat) :
  NoDup fs -> last fs = Some filename ->
  PyList.find_index filename fs = Some i -> (i + 1)%nat = length fs.
Proof.
  intros Hnd Hlast Hi. rewrite last_lookup in Hlast.
  rewrite (find_index_NoDup _ _ _ Hnd Hlast) in Hi.
  injection Hi as <-.
  destruct fs; [rewrite lookup_nil in Hlast; discriminate | simpl; lia].
Qed.

(** C5.  Let [filename] be in the listing [fs] of its own calendar day,
    at position [i] (the position [list.index] finds).  Then
    [get_preceeding_file] returns the entry at [i - 1] when [i > 0] and
    the last entry of the listing of the previous calendar day when
    [i = 0]; [get_following_file] returns the entry at [i + 1] when there
    is one and the first entry of the listing of the next calendar day
    when [i] is the last position, which is where the last entry of a
    listing without repetition is found.  Where the neighbouring day has
    no entry, the call raises [IndexError]. *)
Theorem adjacent_file_lookup (filename : string) (fs : list string) (i : nat) :
  day_listing (name_to_date filename) = Ok fs ->
  PyList.find_index filename fs = Some i ->
  ((0 < i)%nat ->
     exists x, fs !! (i - 1)%nat = Some x /\ get_preceeding_file filename = Ok x)
  /\ (i = 0%nat ->
      forall t_p prev,
        DateTime.sub (name_to_date filename) (days 1) = Ok t_p ->
        day_listing t_p = Ok prev ->
        day_number t_p = day_number (name_to_date filename) - 1
        /\ get_preceeding_file filename
           = match last prev with Some x => Ok x | None => Raise IndexError end)
  /\ ((i + 1 < length fs)%nat ->
      exists x, fs !! (i + 1)%nat = Some x /\ get_following_file filename = Ok x)
  /\ ((i + 1)%nat = length fs ->
      forall t_n next,
        DateTime.add (name_to_date filename) (days 1) = Ok t_n ->
        day_listing t_n = Ok next ->
        day_number t_n = day_number (name_to_date filename) + 1
        /\ get_following_file filename
           = match head next with Some x => Ok x | None => Raise IndexError end)
  /\ (NoDup fs -> last fs = Some filename -> (i + 1)%nat = length fs).
Proof.
  intros Hfs Hi. repeat split.
  - destruct i as [|i]; [lia|]. intros _.
    replace (S i - 1)%nat with i by lia.
    eapply preceeding_within_day; eassumption.
  - eapply sub_one_day; eassumption.
  - subst i. eapply preceeding_across_days; eassumption.
  - intros Hlt. eapply following_within_day; eassumption.
  - eapply add_one_day; eassumption.
  - eapply following_across_days; eassumption.
  - intros Hnd Hlast. eapply last_entry_position; eassumption.
Qed.

(** Listings that hold files of their own day only share no file. *)
Lemma by_day_disjoint :
  Archive.listings_by_day name_to_date get_files ->
  Archive.listings_disjoint get_files.
Proof.
  intros Hday t t' fs fs' f Hfs Hfs' Hin Hin'.
  rewrite <- (Hday t fs f Hfs Hin). exact (Hday t' fs' f Hfs' Hin').
Qed.

(** A file that has a preceding file is in the listing of its own day. *)
Lemma preceeding_own_listing (g h : string) :
  get_preceeding_file g = Ok h ->
  exists fs, day_listing (name_to_date g) = Ok fs /\ g ∈ fs.
Proof.
  unfold DataProvider.get_preceeding_file. intros H.
  apply bind_Ok_inv in H as (fs & Hfs & H).
  apply bind_Ok_inv in H as (iz & Hidx & _).
  apply index_Ok in Hidx as (i & Hi & _).
  exists fs. split; [exact Hfs|].
  eapply list_elem_of_lookup_2, find_index_lookup, Hi.
Qed.

(** C6.  When no listing names a file twice and no file is in the
    listings of two days, the file before the file after [f] is [f],
    whenever both calls return. *)
Theorem preceeding_of_following (f g h : string) :
  Archive.listings_nodup get_files ->
  Archive.listings_disjoint get_files ->
  get_following_file f = Ok g ->
  get_preceeding_file g = Ok h ->
  h = f.
Proof.
  intros Hnd Hdis Hfol Hpre.
  destruct (preceeding_own_listing g h Hpre) as (gs & Hgs & Hg).
  unfold DataProvider.day_listing in Hgs.
  unfold DataProvider.get_following_file in Hfol.
  apply bind_Ok_inv in Hfol as (fs & Hfs & Hfol).
  apply bind_Ok_inv in Hfol as (iz & Hidx & Hfol).
  apply index_Ok in Hidx as (i & Hi & ->).
  pose proof (find_index_lookup _ _ _ Hi) as Hfi.
  pose proof (find_index_length _ _ _ Hi) as Hlen.
  unfold DataProvider.get_preceeding_file in Hpre.
  rewrite Hgs in Hpre. cbn [bind] in Hpre.
  destruct (Z.eqb_spec (Z.of_nat i) (Z.of_nat (length fs) - 1)) as [Elast|Enot].
  - (* [f] closes its day: [g] opens the next one *)
    apply bind_Ok_inv in Hfol as (t_n & Hadd & Hfol).
    apply bind_Ok_inv in Hfol as (next & Hnext & Hfol).
    rewrite getitem_first in Hfol.
    destruct next as [|g' next']; [discriminate|]. simpl in Hfol.
    injection Hfol as ->.
    apply add_one_day in Hadd as [_ Hdn].
    assert (Hsame : day_number (name_to_date g) = day_number t_n)
      by (eapply (Hdis _ _ gs (g :: next') g); [eassumption.. | left]).
    destruct (day_key_same_day _ _ Hsame) as [Ey Ed].
    rewrite Ey, Ed, Hnext in Hgs. injection Hgs as <-.
    unfold PyList.index in Hpre. rewrite find_index_head in Hpre. simpl in Hpre.
    apply bind_Ok_inv in Hpre as (t_p & Hsub & Hpre).
    apply bind_Ok_inv in Hpre as (prev & Hprev & Hpre).
    apply sub_one_day in Hsub as [_ Hdp].
    assert (Hback : day_number t_p = day_number (name_to_date f)) by lia.
    destruct (day_key_same_day _ _ Hback) as [Ey' Ed'].
    rewrite Ey', Ed', Hfs in Hprev. injection Hprev as <-.
    rewrite getitem_last, last_lookup in Hpre.
    replace (pred (length fs)) with i in Hpre by lia.
    rewrite Hfi in Hpre. congruence.
  - (* [g] is the next entry of the same day *)
    replace (Z.of_nat i + 1) with (Z.of_nat (i + 1)) in Hfol by lia.
    rewrite getitem_nat in Hfol.
    destruct (fs !! (i + 1)%nat) as [g'|] eqn:Hgi; [|discriminate].
    injection Hfol as ->.
    assert (Hsame : day_number (name_to_date g) = day_number (name_to_date f))
      by (eapply (Hdis _ _ gs fs g);
          [eassumption.. | eapply list_elem_of_lookup_2, Hgi]).
    destruct (day_key_same_day _ _ Hsame) as [Ey Ed].
    rewrite Ey, Ed, Hfs in Hgs. injection Hgs as <-.
    unfold PyList.index in Hpre.
    rewrite (find_index_NoDup g fs (i + 1)) in Hpre
      by (eauto using Hnd). simpl in Hpre.
    destruct (Z.eqb_spec (Z.of_nat (i + 1)) 0) as [E0|_]; [lia|].
    replace (Z.of_nat (i + 1) - 1) with (Z.of_nat i) in Hpre by lia.
    rewrite getitem_nat, Hfi in Hpre. congruence.
Qed.

End AdjacentFiles.

Lemma days_spanned_zero (t t1 : datetime) :
  t1 <= t -> DataProvider.days_spanned t t1 = 0%nat.
Proof.
  intros H. unfold DataProvider.days_spanned, us_per_day.
  assert ((t1 - t + 86400000000 - 1) / 86400000000 <= 0)
    by (Z.to_euclidean_division_equations; lia).
  lia.
Qed.

Lemma days_spanned_succ (t t1 : datetime) :
  t < t1 ->
  DataProvider.days_spanned t t1
  = S (DataProvider.days_spanned (t + us_per_day) t1).
Proof.
  intros H. unfold DataProvider.days_spanned, us_per_day.
  replace (t1 - t + 86400000000 - 1)
    with (t1 - (t + 86400000000) + 86400000000 - 1 + 1 * 86400000000) by lia.
  rewrite Z.div_add by lia.
  assert (0 <= (t1 - (t + 86400000000) + 86400000000 - 1) / 86400000000)
    by (Z.to_euclidean_division_equations; lia).
  lia.
Qed.

(** [days_spanned] is the ceiling of the length of the range in days. *)
Lemma days_spanned_ceiling (t0 t1 : datetime) :
  t0 < t1 ->
  (Z.of_nat (DataProvider.days_spanned t0 t1) - 1) * us_per_day < t1 - t0
  /\ t1 - t0 <= Z.of_nat (DataProvider.days_spanned t0 t1) * us_per_day.
Proof.
  intros H. unfold DataProvider.days_spanned, us_per_day.
  assert (0 <= (t1 - t0 + 86400000000 - 1) / 86400000000)
    by (Z.to_euclidean_division_equations; lia).
  rewrite Z2Nat.id by assumption.
  Z.to_euclidean_division_equations; lia.
Qed.

Lemma in_range_step (t : datetime) (k : nat) :
  in_range t = true -> in_range (t + days (Z.of_nat (S k))) = true ->
  in_range (t + days 1) = true
  /\ in_range (t + days 1 + days (Z.of_nat k)) = true.
Proof.
  unfold in_range, days, min_datetime, max_datetime, us_per_day.
  rewrite !andb_true_iff, !Z.leb_le. lia.
Qed.

Lemma day_number_lt (a b : datetime) :
  day_number a < day_number b -> a < b.
Proof.
  unfold day_number, us_per_day. intros H.
  Z.to_euclidean_division_equations; lia.
Qed.

Lemma last_map {A B} (f : A -> B) (l : list A) :
  last (map f l) = option_map f (last l).
Proof.
  induction l as [|a l IH]; [reflexivity|].
  simpl map. rewrite !last_cons, IH. destruct (last l); reflexivity.
Qed.

Lemma StronglySorted_filter {A} (R : A -> A -> Prop) (p : A -> bool) (l : list A) :
  StronglySorted R l -> StronglySorted R (List.filter p l).
Proof.
  induction 1 as [|a l Hs IH Hall]; simpl; [constructor|].
  destruct (p a); [|exact IH].
  constructor; [exact IH|].
  rewrite List.Forall_forall in Hall |- *.
  intros x Hx. apply filter_In in Hx as [Hx _]. auto.
Qed.

Lemma StronglySorted_lookup {A} (R : A -> A -> Prop) (l : list A) (i j : nat)
    (x y : A) :
  StronglySorted R l -> (i < j)%nat -> l !! i = Some x -> l !! j = Some y ->
  R x y.
Proof.
  intros Hs Hij Hx Hy. rewrite <- (take_drop j l) in Hs.
  eapply StronglySorted_app_1_elem_of; [exact Hs | |].
  - eapply list_elem_of_lookup_2. rewrite lookup_take_lt; eassumption.
  - eapply list_elem_of_lookup_2 with (i := 0%nat).
    rewrite lookup_drop, Nat.add_0_r. exact Hy.
Qed.

(* ===================================================================== *)
(** ** The loop of the range query *)

Section RangeLoop.

Variable name_to_date : string -> datetime.
Variable get_files : Z -> Z -> result (list string).

Local Abbreviation range_body := (DataProvider.range_body name_to_date get_files).
Local Abbreviation range_loop := (DataProvider.range_loop name_to_date get_files).
Local Abbreviation selected := (RangeQuery.selected name_to_date).
Local Abbreviation after := (RangeQuery.after name_to_date).
Local Abbreviation visit := (RangeQuery.visit get_files).
Local Abbreviation loop_exit := (RangeQuery.loop_exit name_to_date).

(** The comprehension over [enumerate(zip(pos0, pos1))] followed by
    [fs[i]] is a filter of [fs]; no index is out of range. *)
Lemma chosen_from (p0 p1 : string -> bool) (pre fs : list string) :
  PyList.mapM (fun i => PyList.getitem (pre ++ fs) (Z.of_nat i))
    (map fst
       (List.filter (fun e : nat * (bool * bool) => fst (snd e) && negb (snd (snd e)))
          (combine (seq (length pre) (length fs)) (combine (map p0 fs) (map p1 fs)))))
  = Ok (List.filter (fun f => p0 f && negb (p1 f)) fs).
Proof.
  revert pre. induction fs as [|f fs IH]; intros pre; [reflexivity|].
  assert (Hrest := IH (pre ++ [f])).
  rewrite <- app_assoc, length_app in Hrest. simpl in Hrest.
  replace (length pre + 1)%nat with (S (length pre)) in Hrest by lia.
  simpl. destruct (p0 f && negb (p1 f)); simpl.
  - rewrite getitem_nat, list_lookup_middle by reflexivity. simpl.
    rewrite Hrest. reflexivity.
  - exact Hrest.
Qed.

Lemma chosen_is_selected (t0 t1 : datetime) (fs : list string) :
  PyList.mapM (fun i => PyList.getitem fs (Z.of_nat i))
    (DataProvider.select_indices
       (map (fun f => is_nonnegative (diff (name_to_date f) t0)) fs)
       (map (fun f => is_positive (diff (name_to_date f) t1)) fs))
  = Ok (selected t0 t1 fs).
Proof.
  unfold DataProvider.select_indices, PyList.enumerate.
  rewrite length_combine, !length_map, Nat.min_id.
  rewrite (chosen_from _ _ [] fs). f_equal.
  apply filter_ext. intros f.
  unfold RangeQuery.in_window, is_nonnegative, is_positive, diff.
  destruct (Z.leb_spec t0 (name_to_date f)), (Z.leb_spec (name_to_date f) t1),
    (Z.geb_spec (name_to_date f - t0) 0), (Z.gtb_spec (name_to_date f - t1) 0);
    simpl; solve [reflexivity | lia].
Qed.

Lemma range_body_eq (t0 t1 : datetime) (st : DataProvider.loop_state) :
  range_body t0 t1 st
  = let* fs := DataProvider.day_listing get_files (DataProvider.cursor st) in
    let* t' := DateTime.add (DataProvider.cursor st) (days 1) in
    Ok {| DataProvider.cursor := t';
          DataProvider.files := DataProvider.files st ++ selected t0 t1 fs;
          DataProvider.pos1 := Some (map (after t1) fs) |}.
Proof.
  unfold DataProvider.range_body, DataProvider.day_listing.
  destruct (get_files _ _) as [fs|e]; [|reflexivity]. simpl.
  rewrite chosen_is_selected. reflexivity.
Qed.

(** The loop, run for as many passes as the range spans days, leaves
    with the variables [loop_exit] describes, or with the first exception
    of a listing or of the cursor's step. *)
Lemma range_loop_visit (t0 t1 : datetime) (k : nat) (st : DataProvider.loop_state) :
  k = DataProvider.days_spanned (DataProvider.cursor st) t1 ->
  range_loop k t0 t1 st
  = Some (let* ls := visit k (DataProvider.cursor st) in
          Ok (loop_exit t0 t1 st k ls)).
Proof.
  revert st. induction k as [|k IH]; intros st Hk.
  - destruct (Z.lt_ge_cases (DataProvider.cursor st) t1) as [Hlt|Hge].
    { rewrite days_spanned_succ in Hk by assumption. discriminate. }
    simpl. unfold is_positive, diff.
    destruct (Z.gtb_spec (t1 - DataProvider.cursor st) 0) as [Hpos|_]; [lia|].
    unfold RangeQuery.loop_exit. simpl. destruct st as [c fl p]. simpl.
    rewrite app_nil_r. do 3 f_equal. unfold days. lia.
  - destruct (Z.lt_ge_cases (DataProvider.cursor st) t1) as [Hlt|Hge].
    2: { rewrite days_spanned_zero in Hk by assumption. discriminate. }
    rewrite days_spanned_succ in Hk by assumption. injection Hk as Hk.
    simpl. unfold is_positive at 1, diff at 1.
    destruct (Z.gtb_spec (t1 - DataProvider.cursor st) 0) as [_|Hneg]; [|lia].
    rewrite range_body_eq. unfold DataProvider.day_listing.
    destruct (get_files _ _) as [fs|e]; [|reflexivity]. simpl.
    destruct (DateTime.add (DataProvider.cursor st) (days 1)) as [t'|e] eqn:Hadd;
      [|reflexivity]. simpl.
    apply add_one_day in Hadd as [-> _].
    rewrite IH by (simpl; exact Hk). simpl.
    destruct (visit k _) as [rest|e]; [|reflexivity]. simpl.
    unfold RangeQuery.loop_exit. simpl. do 3 f_equal.
    + unfold days. lia.
    + rewrite <- app_assoc. reflexivity.
    + rewrite last_cons. destruct (last rest); reflexivity.
Qed.

(** More passes than needed change nothing. *)
Lemma range_loop_more_fuel (t0 t1 : datetime) (n m : nat)
    (st : DataProvider.loop_state) (r : result DataProvider.loop_state) :
  range_loop n t0 t1 st = Some r -> (n <= m)%nat ->
  range_loop m t0 t1 st = Some r.
Proof.
  revert m st. induction n as [|n IH]; intros m st Hn Hle.
  - simpl in Hn. destruct m; simpl;
      destruct (is_positive _); try discriminate; exact Hn.
  - destruct m as [|m]; [lia|]. simpl in Hn |- *.
    destruct (is_positive _); [|exact Hn].
    destruct (range_body t0 t1 st); [|exact Hn].
    apply IH; [exact Hn | lia].
Qed.

(** What a successful visit of [k] days says about each day. *)
Lemma visit_Ok (k : nat) (t : datetime) (ls : list (list string)) :
  visit k t = Ok ls ->
  length ls = k
  /\ forall (j : nat) (fs : list string), ls !! j = Some fs ->
       DataProvider.day_listing get_files (t + days (Z.of_nat j)) = Ok fs.
Proof.
  revert t ls. induction k as [|k IH]; intros t ls H; simpl in H.
  - injection H as <-. split; [reflexivity|]. intros j fs Hj.
    rewrite lookup_nil in Hj. discriminate.
  - apply bind_Ok_inv in H as (fs0 & Hfs0 & H).
    apply bind_Ok_inv in H as (t' & Hadd & H).
    apply bind_Ok_inv in H as (rest & Hrest & H).
    injection H as <-. apply add_one_day in Hadd as [-> _].
    destruct (IH _ _ Hrest) as [Hlen Hall]. split; [simpl; lia|].
    intros [|j] fs Hj; simpl in Hj.
    + injection Hj as <-. unfold days. rewrite Z.add_0_r. exact Hfs0.
    + specialize (Hall j fs Hj).
      replace (t + days (Z.of_nat (S j)))
        with (t + us_per_day + days (Z.of_nat j)) by (unfold days; lia).
      exact Hall.
Qed.

End RangeLoop.

(* ===================================================================== *)
(** ** The range query *)

Section RangeQueryFacts.

Variable name_to_date : string -> datetime.
Variable get_files : Z -> Z -> result (list string).

Local Abbreviation day_listing := (DataProvider.day_listing get_files).
Local Abbreviation get_preceeding_file :=
  (DataProvider.get_preceeding_file name_to_date get_files).
Local Abbreviation get_following_file :=
  (DataProvider.get_following_file name_to_date get_files).
Local Abbreviation range_body := (DataProvider.range_body name_to_date get_files).
Local Abbreviation range_loop := (DataProvider.range_loop name_to_date get_files).
Local Abbreviation range_finish := (DataProvider.range_finish name_to_date get_files).
Local Abbreviation append_following :=
  (DataProvider.append_following name_to_date get_files).
Local Abbreviation get_files_in_range :=
  (DataProvider.get_files_in_range name_to_date get_files).
Local Abbreviation get_files_in_range_fuel :=
  (DataProvider.get_files_in_range_fuel name_to_date get_files).
Local Abbreviation selected := (RangeQuery.selected name_to_date).
Local Abbreviation after := (RangeQuery.after name_to_date).
Local Abbreviation visit := (RangeQuery.visit get_files).
Local Abbreviation loop_exit := (RangeQuery.loop_exit name_to_date).

Lemma get_files_in_range_eq (t0 t1 : datetime) (t0_inclusive : bool) :
  get_files_in_range t0 t1 t0_inclusive
  = let* ls := visit (DataProvider.days_spanned t0 t1) t0 in
    range_finish t0_inclusive
      (loop_exit t0 t1 (DataProvider.range_start t0)
         (DataProvider.days_spanned t0 t1) ls).
Proof.
  unfold DataProvider.get_files_in_range, DataProvider.get_files_in_range_fuel.
  rewrite (range_loop_visit name_to_date get_files t0 t1 _ (DataProvider.range_start t0))
    by reflexivity.
  simpl. destruct (visit _ t0); reflexivity.
Qed.

(** The passes [get_files_in_range] allows its loop are enough, and so
    is any larger number. *)
Lemma get_files_in_range_fuel_enough (t0 t1 : datetime) (t0_inclusive : bool)
    (fuel : nat) :
  (DataProvider.days_spanned t0 t1 <= fuel)%nat ->
  get_files_in_range_fuel fuel t0 t1 t0_inclusive
  = Some (get_files_in_range t0 t1 t0_inclusive).
Proof.
  intros Hle.
  unfold DataProvider.get_files_in_range, DataProvider.get_files_in_range_fuel.
  pose proof (range_loop_visit name_to_date get_files t0 t1
                (DataProvider.days_spanned t0 t1)
                (DataProvider.range_start t0) eq_refl) as Hrun.
  rewrite (range_loop_more_fuel _ _ _ _ _ _ _ _ Hrun Hle), Hrun.
  reflexivity.
Qed.

(** C10.  For [t0 < t1] the loop of [get_files_in_range] ends: each pass
    moves the cursor on by exactly one day, and [days_spanned t0 t1]
    passes, the ceiling of the length of the range in days, are enough to
    leave the loop, with an exception or with the cursor at [t0] plus that
    many days, where the guard [(t1 - t) > 0] fails. *)
Theorem range_loop_terminates (t0 t1 : datetime) :
  t0 < t1 ->
  let k := DataProvider.days_spanned t0 t1 in
  ((Z.of_nat k - 1) * us_per_day < t1 - t0 /\ t1 - t0 <= Z.of_nat k * us_per_day)
  /\ (forall st st', range_body t0 t1 st = Ok st' ->
        DataProvider.cursor st' = DataProvider.cursor st + us_per_day)
  /\ exists r,
       (forall fuel, (k <= fuel)%nat ->
          range_loop fuel t0 t1 (DataProvider.range_start t0) = Some r)
       /\ (forall st, r = Ok st ->
             DataProvider.cursor st = t0 + Z.of_nat k * us_per_day
             /\ is_positive (diff t1 (DataProvider.cursor st)) = false).
Proof.
  intros Hlt k. split; [exact (days_spanned_ceiling t0 t1 Hlt)|]. split.
  - intros st st' Hbody. rewrite range_body_eq in Hbody.
    apply bind_Ok_inv in Hbody as (fs & _ & Hbody).
    apply bind_Ok_inv in Hbody as (t' & Hadd & Hbody).
    injection Hbody as <-. simpl. apply add_one_day in Hadd as [-> _].
    reflexivity.
  - pose proof (range_loop_visit name_to_date get_files t0 t1 k
                  (DataProvider.range_start t0) eq_refl) as Hrun.
    eexists. split.
    + intros fuel Hle. eapply range_loop_more_fuel; [exact Hrun | exact Hle].
    + intros st Hst. simpl in Hst.
      apply bind_Ok_inv in Hst as (ls & _ & Hst). injection Hst as <-.
      simpl. split; [unfold days; reflexivity|].
      destruct (days_spanned_ceiling t0 t1 Hlt) as [_ Hup]. fold k in Hup.
      unfold is_positive, diff, days.
      destruct (Z.gtb_spec (t1 - (t0 + Z.of_nat k * us_per_day)) 0); [lia|reflexivity].
Qed.

Lemma visit_no_files (k : nat) (t : datetime) :
  (forall y d, get_files y d = Ok []) ->
  in_range t = true -> in_range (t + days (Z.of_nat k)) = true ->
  visit k t = Ok (replicate k []).
Proof.
  intros Hempty. revert t. induction k as [|k IH]; intros t Hlo Hhi; [reflexivity|].
  destruct (in_range_step t k Hlo Hhi) as [Hstep Hrest].
  cbn [RangeQuery.visit]. rewrite Hempty. cbn [bind].
  unfold DateTime.add. rewrite Hstep. cbn [bind].
  rewrite (IH _ Hstep Hrest). reflexivity.
Qed.

(** C4, as the code behaves.  When no day has any file, the range query
    for [t0 < t1] does not return the empty list: [pos1] is empty after
    the loop and [pos1[-1]] raises [IndexError], ahead of the test
    [not files == []] that was to cover the empty result. *)
Theorem range_query_without_files_raises (t0 t1 : datetime) :
  t0 < t1 ->
  (forall y d, get_files y d = Ok []) ->
  in_range t0 = true ->
  in_range (t0 + days (Z.of_nat (DataProvider.days_spanned t0 t1))) = true ->
  get_files_in_range t0 t1 false = Raise IndexError.
Proof.
  intros Hlt Hempty Hlo Hhi. rewrite get_files_in_range_eq.
  rewrite (visit_no_files _ _ Hempty Hlo Hhi). simpl.
  rewrite days_spanned_succ by assumption.
  unfold DataProvider.range_finish, RangeQuery.loop_exit. simpl.
  rewrite last_cons.
  destruct (last (replicate _ [])) as [fs|] eqn:Hlast; [|reflexivity].
  apply last_Some_elem_of, elem_of_replicate in Hlast as [-> _]. reflexivity.
Qed.

Lemma append_following_shape (flags : option (list bool)) (fl l : list string) :
  append_following flags fl = Ok l ->
  l = fl
  \/ exists lastf g, last fl = Some lastf /\ get_following_file lastf = Ok g
                    /\ l = fl ++ [g].
Proof.
  unfold DataProvider.append_following. intros H.
  apply bind_Ok_inv in H as (p1 & _ & H).
  apply bind_Ok_inv in H as (flag & _ & H).
  destruct (negb flag && negb (bool_decide (fl = []))); [|left; congruence].
  injection H as <-. rewrite getitem_last.
  destruct (last fl) as [lastf|]; simpl; [|left; reflexivity].
  destruct (get_following_file lastf) as [g|e] eqn:Hg; simpl; [|left; reflexivity].
  right. eauto.
Qed.

Lemma append_following_cons (flags : option (list bool)) (p f : string)
    (fl : list string) :
  append_following flags (p :: f :: fl)
  = let* l := append_following flags (f :: fl) in Ok (p :: l).
Proof.
  unfold DataProvider.append_following.
  destruct flags as [p1|]; [|reflexivity]. cbn [bind].
  destruct (PyList.getitem p1 (-1)) as [flag|e]; [|reflexivity]. cbn [bind].
  rewrite !bool_decide_eq_false_2 by discriminate.
  destruct flag; cbn [negb andb bind]; [reflexivity|].
  rewrite !getitem_last, last_cons.
  destruct (last (f :: fl)) as [lastf|] eqn:Hlast;
    [|apply last_None in Hlast; discriminate].
  cbn [bind]. destruct (get_following_file lastf); reflexivity.
Qed.

Lemma range_finish_inclusive (st : DataProvider.loop_state) (f : string)
    (l : list string) :
  range_finish false st = Ok (f :: l) ->
  range_finish true st = let* p := get_preceeding_file f in Ok (p :: f :: l).
Proof.
  unfold DataProvider.range_finish, DataProvider.prepend_preceeding. simpl.
  intros H. destruct (DataProvider.files st) as [|f0 fl] eqn:Hfl.
  - apply append_following_shape in H as [H|(lastf & g & Hlast & _)];
      discriminate.
  - assert (f0 = f) as ->.
    { apply append_following_shape in H as [H|(lastf & g & _ & _ & H)];
        simpl in H; congruence. }
    rewrite getitem_first. simpl.
    destruct (get_preceeding_file f) as [p|e]; [|reflexivity]. simpl.
    rewrite append_following_cons, H. reflexivity.
Qed.

(** C7.  When the call without [t0_inclusive] returns a list that starts
    with [f], the call with [t0_inclusive=True] returns that list with
    [get_preceeding_file(f)] put in front; it raises what
    [get_preceeding_file(f)] raises. *)
Theorem inclusive_prepends_preceeding (t0 t1 : datetime) (f : string)
    (l : list string) :
  get_files_in_range t0 t1 false = Ok (f :: l) ->
  get_files_in_range t0 t1 true
  = let* p := get_preceeding_file f in Ok (p :: f :: l).
Proof.
  rewrite !get_files_in_range_eq. intros H.
  apply bind_Ok_inv in H as (ls & Hls & H). rewrite Hls. simpl.
  apply range_finish_inclusive, H.
Qed.

Local Abbreviation not_later := (fun a b : string => name_to_date a <= name_to_date b).

Lemma selected_in_window (t0 t1 : datetime) (ls : list (list string)) :
  Forall (fun f => t0 <= name_to_date f /\ name_to_date f <= t1)
    (concat (map (selected t0 t1) ls)).
Proof.
  induction ls as [|fs ls IH]; simpl; [constructor|].
  apply Forall_app. split; [|exact IH].
  apply List.Forall_forall. intros f Hf.
  apply filter_In in Hf as [_ Hw]. unfold RangeQuery.in_window in Hw.
  apply andb_true_iff in Hw as [H0 H1]. apply Z.leb_le in H0, H1. auto.
Qed.

(** The files selected from consecutive days are in order, when each
    listing is and holds files of its own day only. *)
Lemma selected_in_order (t0 t1 : datetime) (ls : list (list string)) (t : datetime) :
  Archive.listings_by_day name_to_date get_files ->
  Archive.listings_chronological name_to_date get_files ->
  (forall (j : nat) (fs : list string), ls !! j = Some fs ->
     day_listing (t + days (Z.of_nat j)) = Ok fs) ->
  StronglySorted not_later (concat (map (selected t0 t1) ls))
  /\ Forall (fun f => day_number t <= day_number (name_to_date f))
       (concat (map (selected t0 t1) ls)).
Proof.
  intros Hday Hchr. revert t. induction ls as [|fs ls IH]; intros t Hls; simpl.
  - split; constructor.
  - assert (Hfs : day_listing (t + days (Z.of_nat 0)) = Ok fs) by (apply Hls; reflexivity).
    assert (Hhere : forall f, f ∈ selected t0 t1 fs ->
                      day_number (name_to_date f) = day_number t).
    { intros f Hf. apply list_elem_of_In, filter_In in Hf as [Hf _].
      rewrite (Hday _ _ f Hfs) by (apply list_elem_of_In, Hf).
      rewrite day_number_shift. simpl. lia. }
    destruct (IH (t + days 1)) as [Hsorted Hlater].
    { intros j gs Hj.
      replace (t + days 1 + days (Z.of_nat j)) with (t + days (Z.of_nat (S j)))
        by (unfold days; lia).
      apply Hls. exact Hj. }
    rewrite day_number_shift in Hlater.
    rewrite Forall_forall in Hlater.
    split.
    + apply StronglySorted_app_2.
      * intros x1 x2 H1 H2. apply Hhere in H1. apply Hlater in H2.
        apply Z.lt_le_incl, day_number_lt. lia.
      * apply StronglySorted_filter, Sorted_StronglySorted.
        { intros x y z ? ?. lia. }
        eapply Hchr, Hfs.
      * exact Hsorted.
    + apply Forall_app. split; apply Forall_forall; intros f Hf.
      * rewrite (Hhere f Hf). lia.
      * apply Hlater in Hf. lia.
Qed.

(** The following file does not start earlier. *)
Lemma following_not_earlier (f g : string) :
  Archive.listings_by_day name_to_date get_files ->
  Archive.listings_chronological name_to_date get_files ->
  get_following_file f = Ok g ->
  name_to_date f <= name_to_date g.
Proof.
  intros Hday Hchr Hfol. unfold DataProvider.get_following_file in Hfol.
  apply bind_Ok_inv in Hfol as (fs & Hfs & Hfol).
  apply bind_Ok_inv in Hfol as (iz & Hidx & Hfol).
  apply index_Ok in Hidx as (i & Hi & ->).
  apply find_index_lookup in Hi.
  destruct (Z.eqb_spec (Z.of_nat i) (Z.of_nat (length fs) - 1)) as [_|_].
  - apply bind_Ok_inv in Hfol as (t_n & Hadd & Hfol).
    apply bind_Ok_inv in Hfol as (next & Hnext & Hfol).
    rewrite getitem_first in Hfol.
    destruct next as [|g' next']; [discriminate|]. injection Hfol as ->.
    apply add_one_day in Hadd as [_ Hdn].
    assert (Hg : day_number (name_to_date g) = day_number t_n)
      by (eapply Hday; [exact Hnext | left]).
    apply Z.lt_le_incl, day_number_lt. lia.
  - replace (Z.of_nat i + 1) with (Z.of_nat (i + 1)) in Hfol by lia.
    rewrite getitem_nat in Hfol.
    destruct (fs !! (i + 1)%nat) as [g'|] eqn:Hgi; [|discriminate].
    injection Hfol as ->.
    eapply (StronglySorted_lookup not_later fs i (i + 1)); [| lia | eassumption..].
    apply Sorted_StronglySorted; [intros x y z ? ?; lia|].
    eapply Hchr, Hfs.
Qed.

(** What the loop leaves behind for [t0 < t1]: the listing of the last
    day it visited decides [pos1]. *)
Lemma range_loop_exit (t0 t1 : datetime) (st : DataProvider.loop_state) :
  t0 < t1 ->
  range_loop (DataProvider.days_spanned t0 t1) t0 t1 (DataProvider.range_start t0)
  = Some (Ok st) ->
  exists ls fs,
    visit (DataProvider.days_spanned t0 t1) t0 = Ok ls
    /\ st = loop_exit t0 t1 (DataProvider.range_start t0)
              (DataProvider.days_spanned t0 t1) ls
    /\ last ls = Some fs
    /\ day_listing (t0 + days (Z.of_nat (DataProvider.days_spanned t0 t1) - 1)) = Ok fs
    /\ DataProvider.files st = concat (map (selected t0 t1) ls)
    /\ DataProvider.pos1 st = Some (map (after t1) fs).
Proof.
  intros Hlt Hrun.
  rewrite (range_loop_visit name_to_date get_files t0 t1 _ (DataProvider.range_start t0))
    in Hrun by reflexivity.
  injection Hrun as Hrun. apply bind_Ok_inv in Hrun as (ls & Hls & Hst).
  simpl in Hls. injection Hst as <-.
  destruct (visit_Ok get_files _ _ _ Hls) as [Hlen Hall].
  pose proof (days_spanned_succ t0 t1 Hlt) as Hk.
  destruct (last ls) as [fs|] eqn:Hlast.
  2: { apply last_None in Hlast. subst ls. simpl in Hlen. lia. }
  exists ls, fs. repeat split; try assumption.
  - rewrite last_lookup in Hlast. apply Hall in Hlast.
    replace (Z.of_nat (pred (length ls)))
      with (Z.of_nat (DataProvider.days_spanned t0 t1) - 1) in Hlast by lia.
    exact Hlast.
  - unfold RangeQuery.loop_exit. simpl. rewrite Hlast. reflexivity.
Qed.

(** C3, as the code behaves.  For [t0 < t1], once the loop has run
    through, let [e] be the last entry of the listing of the last day it
    visited.  The file that follows the last selected file is appended
    exactly when [e] is not after [t1] (its entry of [pos1] is false) and
    some file was selected; when looking it up raises, the exception is
    dropped and the selected files are returned as they are. *)
Theorem trailing_file_appended (t0 t1 : datetime) (st : DataProvider.loop_state) :
  t0 < t1 ->
  range_loop (DataProvider.days_spanned t0 t1) t0 t1 (DataProvider.range_start t0)
  = Some (Ok st) ->
  exists fs,
    day_listing (t0 + days (Z.of_nat (DataProvider.days_spanned t0 t1) - 1)) = Ok fs
    /\ DataProvider.pos1 st = Some (map (after t1) fs)
    /\ forall e, last fs = Some e ->
         (name_to_date e <= t1 -> DataProvider.files st <> [] ->
            exists lastf,
              last (DataProvider.files st) = Some lastf
              /\ get_files_in_range t0 t1 false
                 = Ok (match get_following_file lastf with
                       | Ok g => DataProvider.files st ++ [g]
                       | Raise _ => DataProvider.files st
                       end))
         /\ (t1 < name_to_date e \/ DataProvider.files st = [] ->
             get_files_in_range t0 t1 false = Ok (DataProvider.files st)).
Proof.
  intros Hlt Hrun.
  destruct (range_loop_exit t0 t1 st Hlt Hrun)
    as (ls & fs & Hls & Hst & Hlast & Hfs & Hfiles & Hpos).
  exists fs. split; [exact Hfs|]. split; [exact Hpos|].
  intros e He.
  assert (Hquery : get_files_in_range t0 t1 false
                   = append_following (DataProvider.pos1 st) (DataProvider.files st)).
  { rewrite get_files_in_range_eq, Hls. cbn [bind]. rewrite <- Hst. reflexivity. }
  rewrite Hquery, Hpos. unfold DataProvider.append_following. cbn [bind].
  rewrite getitem_last, last_map, He. cbn [option_map bind].
  unfold RangeQuery.after, is_positive, diff. split.
  - intros Hle Hne.
    destruct (Z.gtb_spec (name_to_date e - t1) 0) as [Hgt|_]; [lia|].
    rewrite bool_decide_eq_false_2 by exact Hne. cbn [negb andb].
    rewrite getitem_last.
    destruct (last (DataProvider.files st)) as [lastf|] eqn:Hl;
      [|apply last_None in Hl; contradiction].
    exists lastf. split; [reflexivity|]. cbn [bind].
    destruct (get_following_file lastf); reflexivity.
  - intros [Hgt|Hnil].
    + destruct (Z.gtb_spec (name_to_date e - t1) 0) as [_|Hle]; [|lia].
      reflexivity.
    + rewrite bool_decide_eq_true_2 by exact Hnil.
      rewrite andb_false_r. reflexivity.
Qed.

(** C1, as the code behaves.  For [t0 < t1] the list returned without
    [t0_inclusive] is the selected files followed by at most one trailing
    entry, the file following the last selected one.  Every selected file
    has a timestamp [ts] with [t0 <= ts <= t1]; a file that starts exactly
    at [t1] is selected.  When every listing is in ascending order of the
    timestamps and holds files of its own day only, the returned list is
    in ascending order too, the trailing entry included. *)
Theorem range_query_window (t0 t1 : datetime) (l : list string) :
  t0 < t1 ->
  get_files_in_range t0 t1 false = Ok l ->
  exists sel extra,
    l = sel ++ extra
    /\ Forall (fun f => t0 <= name_to_date f /\ name_to_date f <= t1) sel
    /\ (extra = []
        \/ exists lastf g, last sel = Some lastf
                          /\ get_following_file lastf = Ok g /\ extra = [g])
    /\ (Archive.listings_by_day name_to_date get_files ->
        Archive.listings_chronological name_to_date get_files ->
        StronglySorted not_later l).
Proof.
  intros Hlt Hquery. rewrite get_files_in_range_eq in Hquery.
  apply bind_Ok_inv in Hquery as (ls & Hls & Hfin).
  unfold DataProvider.range_finish, DataProvider.prepend_preceeding in Hfin.
  cbn [bind] in Hfin. unfold RangeQuery.loop_exit in Hfin.
  cbn [DataProvider.files DataProvider.pos1 DataProvider.range_start app] in Hfin.
  set (sel := concat (map (selected t0 t1) ls)) in *.
  assert (Hsorted : Archive.listings_by_day name_to_date get_files ->
                    Archive.listings_chronological name_to_date get_files ->
                    StronglySorted not_later sel).
  { intros Hday Hchr.
    apply (selected_in_order t0 t1 ls t0 Hday Hchr).
    apply (visit_Ok get_files _ _ _ Hls). }
  apply append_following_shape in Hfin as [->|(lastf & g & Hlast & Hg & ->)].
  - exists sel, []. rewrite app_nil_r.
    repeat split; [apply selected_in_window | left; reflexivity | exact Hsorted].
  - exists sel, [g].
    repeat split; [apply selected_in_window | right; eauto |].
    intros Hday Hchr. specialize (Hsorted Hday Hchr).
    pose proof (following_not_earlier lastf g Hday Hchr Hg) as Hnext.
    apply StronglySorted_app_2; [| exact Hsorted | repeat constructor].
    intros x1 x2 H1 ->%list_elem_of_singleton.
    apply last_Some in Hlast as [sel' Hsel]. rewrite Hsel in Hsorted, H1.
    apply elem_of_app in H1 as [H1| ->%list_elem_of_singleton]; [|exact Hnext].
    pose proof (StronglySorted_app_1_elem_of _ _ _ x1 lastf Hsorted H1) as Hx.
    cbv beta in Hx. specialize (Hx ltac:(left)). lia.
Qed.

End RangeQueryFacts.

(* ===================================================================== *)
(** ** float64: the rounding of [total_seconds()] *)

Lemma round_half_even_near (p q : Z) :
  0 <= p -> 0 < q ->
  p / q <= Float64.round_half_even p q <= p / q + 1
  /\ 2 * Z.abs (Float64.round_half_even p q * q - p) <= q.
Proof.
  intros Hp Hq. unfold Float64.round_half_even.
  pose proof (Z.div_mod p q ltac:(lia)) as Hdm.
  pose proof (Z.mod_pos_bound p q Hq) as Hr.
  set (a := p / q) in *. set (r := p mod q) in *.
  destruct (Z.ltb_spec (2 * r) q); [split; nia|].
  destruct (Z.ltb_spec q (2 * r)); [split; nia|].
  destruct (Z.even a); split; nia.
Qed.

(** The unit in the last place is not above the quotient, and 53 bits
    from it on hold the quotient. *)
Lemma last_place_spec (n d : Z) :
  0 < n -> 0 < d -> d <= n * 2 ^ Float64.scale ->
  let e := Float64.last_place n d in
  0 <= e
  /\ d * 2 ^ e <= n * 2 ^ Float64.scale
  /\ n * 2 ^ Float64.scale < d * 2 ^ (e + 53).
Proof.
  intros Hn Hd Hbig. unfold Float64.last_place.
  set (N := n * 2 ^ Float64.scale) in *.
  assert (Hq : 0 < N / d) by (apply Z.div_str_pos; lia).
  destruct (Z.log2_spec (N / d) Hq) as [Hlo Hhi].
  pose proof (Z.log2_nonneg (N / d)) as HL.
  set (L := Z.log2 (N / d)) in *.
  pose proof (Z.mul_div_le N d Hd) as Hfloor.
  pose proof (Z.mul_succ_div_gt N d Hd) as Hceil.
  cbv zeta. split; [lia|].
  assert (Hpow : 2 ^ Z.max (L - 52) 0 <= 2 ^ L)
    by (apply Z.pow_le_mono_r; lia).
  split; [nia|].
  assert (Hpow2 : 2 ^ Z.succ L <= 2 ^ (Z.max (L - 52) 0 + 53))
    by (apply Z.pow_le_mono_r; lia).
  nia.
Qed.

Lemma last_place_below (n d b : Z) :
  0 < n -> 0 < d -> d <= n * 2 ^ Float64.scale ->
  0 <= b -> n < d * 2 ^ b ->
  Float64.last_place n d <= Z.max (Float64.scale + b - 53) 0.
Proof.
  intros Hn Hd Hbig Hb Hlt. unfold Float64.last_place.
  set (N := n * 2 ^ Float64.scale) in *.
  assert (Hq : 0 < N / d) by (apply Z.div_str_pos; lia).
  assert (Hs : 0 < 2 ^ Float64.scale)
    by (apply Z.pow_pos_nonneg; unfold Float64.scale; lia).
  assert (Hup : N / d < 2 ^ (b + Float64.scale)).
  { apply Z.div_lt_upper_bound; [lia|].
    rewrite Z.pow_add_r by (unfold Float64.scale; lia). unfold N. nia. }
  apply Z.log2_lt_pow2 in Hup; [|exact Hq]. lia.
Qed.

(** A quotient that is not below [2 ** -1074] does not round to zero. *)
Lemma round_quotient_pos (n d : Z) :
  0 < n -> 0 < d -> d <= n * 2 ^ Float64.scale ->
  0 < Float64.round_quotient n d.
Proof.
  intros Hn Hd Hbig.
  destruct (last_place_spec n d Hn Hd Hbig) as (He & Hlo & _).
  unfold Float64.round_quotient.
  set (e := Float64.last_place n d) in *.
  assert (Hpe : 0 < 2 ^ e) by (apply Z.pow_pos_nonneg; lia).
  destruct (round_half_even_near (n * 2 ^ Float64.scale) (d * 2 ^ e)) as [[Hm _] _];
    [lia | nia |].
  assert (1 <= n * 2 ^ Float64.scale / (d * 2 ^ e)).
  { apply Z.div_le_lower_bound; lia. }
  nia.
Qed.

(** The float is within half a unit in the last place of the quotient:
    for a quotient below [2 ** b], within [2 ** (b - 54)]. *)
Lemma round_quotient_error (n d b : Z) :
  0 < n -> 0 < d -> d <= n * 2 ^ Float64.scale ->
  0 <= b -> n < d * 2 ^ b ->
  2 * Z.abs (Float64.round_quotient n d * d - n * 2 ^ Float64.scale)
  <= d * 2 ^ Z.max (Float64.scale + b - 53) 0.
Proof.
  intros Hn Hd Hbig Hb Hlt.
  destruct (last_place_spec n d Hn Hd Hbig) as (He & Hlo & Hhi).
  pose proof (last_place_below n d b Hn Hd Hbig Hb Hlt) as Hbelow.
  unfold Float64.round_quotient.
  set (e := Float64.last_place n d) in *.
  set (N := n * 2 ^ Float64.scale) in *.
  assert (Hpe : 0 < 2 ^ e) by (apply Z.pow_pos_nonneg; lia).
  destruct (round_half_even_near N (d * 2 ^ e)) as [_ Herr]; [lia | nia |].
  assert (Hle : 2 ^ e <= 2 ^ Z.max (Float64.scale + b - 53) 0)
    by (apply Z.pow_le_mono_r; lia).
  replace (Float64.round_half_even N (d * 2 ^ e) * 2 ^ e * d - N)
    with (Float64.round_half_even N (d * 2 ^ e) * (d * 2 ^ e) - N) by ring.
  nia.
Qed.

Lemma million_below_scale : 1000000 <= 2 ^ Float64.scale.
Proof.
  unfold Float64.scale. transitivity (2 ^ 20); [vm_compute; discriminate|].
  apply Z.pow_le_mono_r; lia.
Qed.

(** The sign of [total_seconds()] is the sign of the timedelta: the
    tests [> 0.0], [>= 0.0] and [< 0.0] on it are exact. *)
Lemma total_seconds_sign (d : timedelta) :
  (total_seconds d < 0 <-> d < 0) /\ (total_seconds d = 0 <-> d = 0).
Proof.
  unfold total_seconds, Float64.true_divide.
  pose proof million_below_scale as Hs.
  destruct (Z.lt_trichotomy d 0) as [Hd|[->|Hd]].
  - pose proof (round_quotient_pos (Z.abs d) 1000000 ltac:(lia) ltac:(lia) ltac:(nia)).
    rewrite Z.sgn_neg by exact Hd. lia.
  - simpl. lia.
  - pose proof (round_quotient_pos (Z.abs d) 1000000 ltac:(lia) ltac:(lia) ltac:(nia)).
    rewrite Z.sgn_pos by exact Hd. lia.
Qed.

Lemma total_seconds_tests (d : timedelta) :
  (Float64.ltb Float64.zero (total_seconds d) = is_positive d)
  /\ (negb (Float64.ltb (total_seconds d) Float64.zero) = is_nonnegative d)
  /\ (Float64.ltb (total_seconds d) Float64.zero = is_negative d).
Proof.
  unfold Float64.ltb, Float64.zero, is_positive, is_nonnegative, is_negative.
  destruct (total_seconds_sign d) as [Hneg Hzero].
  rewrite Z.gtb_ltb, Z.geb_leb.
  destruct (Z.ltb_spec 0 (total_seconds d)), (Z.ltb_spec 0 d),
    (Z.ltb_spec (total_seconds d) 0), (Z.ltb_spec d 0), (Z.leb_spec 0 d);
    simpl; repeat split; try reflexivity; lia.
Qed.

Lemma total_seconds_negative (d : timedelta) :
  Float64.ltb (total_seconds d) Float64.zero = is_negative d.
Proof.
  unfold Float64.ltb, Float64.zero, is_negative.
  destruct (total_seconds_sign d) as [Hneg _].
  destruct (Z.ltb_spec (total_seconds d) 0), (Z.ltb_spec d 0); try reflexivity; lia.
Qed.

Lemma round_quotient_strict (n1 n2 : Z) :
  0 < n1 -> n1 < n2 -> n2 < exact_within ->
  Float64.round_quotient n1 1000000 < Float64.round_quotient n2 1000000.
Proof.
  intros H1 H12 H2. pose proof million_below_scale as Hs.
  assert (Hp : 0 < 2 ^ 1054) by (apply Z.pow_pos_nonneg; lia).
  pose proof (round_quotient_error n1 1000000 33 ltac:(lia) ltac:(lia) ltac:(nia)
                ltac:(lia) ltac:(unfold exact_within in *; lia)) as E1.
  pose proof (round_quotient_error n2 1000000 33 ltac:(lia) ltac:(lia) ltac:(nia)
                ltac:(lia) ltac:(unfold exact_within in *; lia)) as E2.
  unfold Float64.scale in E1, E2.
  change (Z.max (1074 + 33 - 53) 0) with 1054 in E1, E2.
  replace (2 ^ 1074) with (2 ^ 1054 * 2 ^ 20) in E1, E2
    by (rewrite <- Z.pow_add_r by lia; reflexivity).
  change (2 ^ 20) with 1048576 in E1, E2.
  set (P := 2 ^ 1054) in *.
  nia.
Qed.

(** Below [2 ** 33] seconds, about 272 years, a microsecond is more than
    a unit in the last place: timedeltas that differ have
    [total_seconds()] that differ, in the same order. *)
Lemma total_seconds_strict (a b : timedelta) :
  - exact_within < a -> a < b -> b < exact_within ->
  total_seconds a < total_seconds b.
Proof.
  intros Ha Hab Hb.
  destruct (total_seconds_sign a) as [Hna Hza].
  destruct (total_seconds_sign b) as [Hnb Hzb].
  destruct (Z.lt_trichotomy a 0) as [Ha0|[->|Ha0]];
    destruct (Z.lt_trichotomy b 0) as [Hb0|[->|Hb0]]; try lia.
  - unfold total_seconds, Float64.true_divide.
    rewrite !Z.sgn_neg by assumption.
    pose proof (round_quotient_strict (Z.abs b) (Z.abs a)
                  ltac:(lia) ltac:(lia) ltac:(lia)).
    lia.
  - unfold total_seconds, Float64.true_divide.
    rewrite !Z.sgn_pos by assumption.
    pose proof (round_quotient_strict (Z.abs a) (Z.abs b)
                  ltac:(lia) ltac:(lia) ltac:(lia)).
    lia.
Qed.

(* ===================================================================== *)
(** ** numpy: argsort and where *)

Lemma insert_index_Permutation (dts : list Z) (i : nat) (acc : list nat) :
  Permutation (Numpy.insert_index dts i acc) (i :: acc).
Proof.
  induction acc as [|j acc IH]; simpl; [reflexivity|].
  destruct (nth i dts 0 <=? nth j dts 0); [reflexivity|].
  rewrite IH. apply perm_swap.
Qed.

Lemma insert_index_Sorted (dts : list Z) (i : nat) (acc : list nat) :
  Sorted (Numpy.ascending dts) acc ->
  Sorted (Numpy.ascending dts) (Numpy.insert_index dts i acc).
Proof.
  induction 1 as [|j acc Hs IH Hhd]; simpl; [repeat constructor|].
  destruct (Z.leb_spec (nth i dts 0) (nth j dts 0)) as [Hle|Hgt].
  - constructor; [constructor; assumption|]. constructor. exact Hle.
  - constructor; [exact IH|].
    destruct Hhd as [|k acc Hjk]; simpl.
    + constructor. unfold Numpy.ascending. lia.
    + destruct (nth i dts 0 <=? nth k dts 0); constructor;
        [unfold Numpy.ascending; lia | exact Hjk].
Qed.

(** The reference [argsort] is one of the functions the properties of
    [get_file_by_date] are stated for. *)
Lemma argsort_sorts (dts : list Z) : Numpy.sorts Numpy.argsort dts.
Proof.
  unfold Numpy.sorts, Numpy.argsort.
  generalize (seq 0 (length dts)) as l.
  induction l as [|i l [IHp IHs]]; simpl; [split; constructor|].
  split.
  - rewrite insert_index_Permutation. constructor. exact IHp.
  - apply insert_index_Sorted, IHs.
Qed.

Lemma insert_index_before_Permutation (dts : list Z) (i : nat) (acc : list nat) :
  Permutation (Numpy.insert_index_before dts i acc) (i :: acc).
Proof.
  induction acc as [|j acc IH]; simpl; [reflexivity|].
  destruct (nth i dts 0 <? nth j dts 0); [reflexivity|].
  rewrite IH. apply perm_swap.
Qed.

Lemma insert_index_before_Sorted (dts : list Z) (i : nat) (acc : list nat) :
  Sorted (Numpy.ascending dts) acc ->
  Sorted (Numpy.ascending dts) (Numpy.insert_index_before dts i acc).
Proof.
  induction 1 as [|j acc Hs IH Hhd]; simpl; [repeat constructor|].
  destruct (Z.ltb_spec (nth i dts 0) (nth j dts 0)) as [Hlt|Hge].
  - constructor; [constructor; assumption|]. constructor.
    unfold Numpy.ascending. lia.
  - constructor; [exact IH|].
    destruct Hhd as [|k acc Hjk]; simpl.
    + constructor. exact Hge.
    + destruct (nth i dts 0 <? nth k dts 0); constructor;
        [exact Hge | exact Hjk].
Qed.

(** So is the function that puts equal entries the other way round. *)
Lemma argsort_ties_reversed_sorts (dts : list Z) :
  Numpy.sorts Numpy.argsort_ties_reversed dts.
Proof.
  unfold Numpy.sorts, Numpy.argsort_ties_reversed.
  generalize (seq 0 (length dts)) as l.
  induction l as [|i l [IHp IHs]]; simpl; [split; constructor|].
  split.
  - rewrite insert_index_before_Permutation. constructor. exact IHp.
  - apply insert_index_before_Sorted, IHs.
Qed.

Lemma take_in_range (dts : list Z) (inds : list nat) :
  Forall (fun i => (i < length dts)%nat) inds ->
  Numpy.take dts inds = Ok (map (fun i => nth i dts 0) inds).
Proof.
  unfold Numpy.take. induction 1 as [|i inds Hi _ IH]; [reflexivity|].
  simpl. rewrite getitem_nat.
  destruct (lookup_lt_is_Some_2 dts i Hi) as [x Hx].
  rewrite Hx, (nth_lookup_Some _ _ 0 _ Hx). simpl. rewrite IH. reflexivity.
Qed.

Lemma combine_snoc {A B} (l1 : list A) (l2 : list B) (a : A) (b : B) :
  length l1 = length l2 ->
  combine (l1 ++ [a]) (l2 ++ [b]) = combine l1 l2 ++ [(a, b)].
Proof.
  revert l2. induction l1 as [|x l1 IH]; intros [|y l2] Hlen;
    simpl in *; try discriminate; [reflexivity|].
  rewrite IH by lia. reflexivity.
Qed.

Lemma where_true_snoc (mask : list bool) (b : bool) :
  Numpy.where_true (mask ++ [b])
  = Numpy.where_true mask ++ (if b then [length mask] else []).
Proof.
  unfold Numpy.where_true, PyList.enumerate.
  rewrite length_app. simpl length. rewrite Nat.add_1_r, seq_S.
  rewrite combine_snoc by apply length_seq.
  rewrite List.filter_app, map_app. simpl. destruct b; reflexivity.
Qed.

(** [np.where(mask)[0]] is empty when no entry of the mask is true, and
    ends with the position of the last true entry otherwise. *)
Lemma where_true_last (mask : list bool) :
  match last (Numpy.where_true mask) with
  | Some k => mask !! k = Some true
              /\ forall j, mask !! j = Some true -> (j <= k)%nat
  | None => Numpy.where_true mask = []
            /\ forall j, mask !! j <> Some true
  end.
Proof.
  induction mask as [|b mask IH] using rev_ind.
  - simpl. split; [reflexivity|]. intros j. rewrite lookup_nil. discriminate.
  - rewrite where_true_snoc. destruct b.
    + rewrite last_snoc. split.
      * apply list_lookup_middle. reflexivity.
      * intros j Hj. apply lookup_lt_Some in Hj.
        rewrite length_app in Hj. simpl in Hj. lia.
    + rewrite app_nil_r.
      destruct (last (Numpy.where_true mask)) as [k|].
      * destruct IH as [Hk Hmax]. split.
        { apply lookup_app_l_Some, Hk. }
        intros j Hj. apply lookup_app_Some in Hj as [Hj|[_ Hj]]; [auto|].
        destruct (j - length mask)%nat; simpl in Hj; [discriminate|].
        rewrite lookup_nil in Hj. discriminate.
      * destruct IH as [Hnil Hnone]. split; [exact Hnil|].
        intros j Hj. apply lookup_app_Some in Hj as [Hj|[_ Hj]];
          [exact (Hnone j Hj)|].
        destruct (j - length mask)%nat; simpl in Hj; [discriminate|].
        rewrite lookup_nil in Hj. discriminate.
Qed.

(* ===================================================================== *)
(** ** The file at a date *)

Lemma lookup_map {A B} (f : A -> B) (l : list A) (i : nat) :
  map f l !! i = option_map f (l !! i).
Proof.
  revert i. induction l as [|a l IH]; intros [|i]; simpl; auto.
Qed.

Lemma last_slice_last {A} (l : list A) :
  PyList.last_slice l = match last l with Some x => [x] | None => [] end.
Proof.
  unfold PyList.last_slice. induction l as [|a l IH]; [reflexivity|].
  rewrite last_cons. destruct l as [|b l]; [reflexivity|].
  simpl length in *. replace (S (S (length l)) - 1)%nat with (S (length l)) by lia.
  replace (S (length l) - 1)%nat with (length l) in IH by lia.
  change (drop (S (length l)) (a :: b :: l)) with (drop (length l) (b :: l)).
  rewrite IH. destruct (last (b :: l)) eqn:E; [reflexivity|].
  apply last_None in E. discriminate.
Qed.

Section NearestFile.

Variable name_to_date : string -> datetime.
Variable get_files : Z -> Z -> result (list string).
Variable argsort : list Float64.float -> list nat.

Local Abbreviation day_listing := (DataProvider.day_listing get_files).
Local Abbreviation get_file_by_date :=
  (DataProvider.get_file_by_date name_to_date get_files argsort).

(** the candidates of [get_file_by_date]: the last file of the day
    before, then the files of the day *)
Local Abbreviation candidates :=
  (fun prev today : list string =>
     match last prev with Some x => [x] | None => [] end ++ today).

(** What the function computes once both listings are there: the
    candidate at the index that sorts last among the negative deltas, or
    the last candidate when no delta is negative. *)
Lemma get_file_by_date_eq (t t_p : datetime) (prev today : list string) :
  DateTime.sub t (days 1) = Ok t_p ->
  day_listing t_p = Ok prev ->
  day_listing t = Ok today ->
  let cands := candidates prev today in
  let dts := map (fun f => total_seconds (diff (name_to_date f) t)) cands in
  Permutation (argsort dts) (seq 0 (length dts)) ->
  get_file_by_date t
  = match last (Numpy.where_true
                  (map (fun x => Float64.ltb x Float64.zero)
                     (map (fun i => nth i dts 0) (argsort dts)))) with
    | Some k =>
        match argsort dts !! k with
        | Some i => PyList.getitem cands (Z.of_nat i)
        | None => Raise IndexError
        end
    | None => PyList.getitem cands (-1)
    end.
Proof.
  intros Hsub Hprev Htoday cands dts Hperm.
  unfold DataProvider.get_file_by_date, DataProvider.day_listing in *.
  rewrite Hsub. cbn [bind]. rewrite Hprev. cbn [bind]. rewrite Htoday. cbn [bind].
  rewrite last_slice_last. fold cands.
  assert (Hdts : map total_seconds
                   (map (fun tf => diff tf t) (map name_to_date cands)) = dts)
    by (unfold dts; rewrite !map_map; reflexivity).
  rewrite Hdts.
  rewrite take_in_range.
  2: { apply Forall_forall. intros i Hi. rewrite Hperm in Hi.
       apply elem_of_seq in Hi. lia. }
  cbn [bind].
  set (indices := Numpy.where_true _).
  rewrite getitem_last.
  destruct (last indices) as [k|] eqn:Hlast.
  - destruct indices as [|k0 rest]; [discriminate|]. simpl length.
    cbn [Nat.eqb bind]. rewrite getitem_nat.
    destruct (argsort dts !! k) as [i|]; reflexivity.
  - apply last_None in Hlast. rewrite Hlast. simpl length. cbn [Nat.eqb bind].
    unfold dts. rewrite length_map.
    destruct cands as [|c cands']; [reflexivity|].
    rewrite getitem_last.
    replace (Z.of_nat (length (c :: cands')) - 1)
      with (Z.of_nat (pred (length (c :: cands')))) by (simpl; lia).
    rewrite getitem_nat, last_lookup. reflexivity.
Qed.

(** The candidates are of the day before [t] and of the day of [t] when
    the listings hold files of their own day only: they start less than
    two days before [t]. *)
Lemma candidates_near (t t_p : datetime) (prev today : list string) :
  DateTime.sub t (days 1) = Ok t_p ->
  day_listing t_p = Ok prev ->
  day_listing t = Ok today ->
  Archive.listings_by_day name_to_date get_files ->
  forall c, c ∈ candidates prev today -> t - name_to_date c < 2 * us_per_day.
Proof.
  intros Hsub Hprev Htoday Hday c Hc.
  pose proof (sub_one_day _ _ Hsub) as [-> _].
  assert (Hn : day_number (t - us_per_day) = day_number t - 1)
    by (apply (day_number_shift t (-1))).
  assert (Hdn : day_number t - 1 <= day_number (name_to_date c)).
  { apply elem_of_app in Hc as [Hc|Hc].
    - destruct (last prev) as [x|] eqn:Hlast; [|inversion Hc].
      apply list_elem_of_singleton in Hc as ->.
      apply last_Some in Hlast as [l' ->].
      rewrite (Hday _ _ x Hprev) by (apply elem_of_app; right; left). lia.
    - rewrite (Hday _ _ c Htoday Hc). lia. }
  unfold day_number, us_per_day in *.
  pose proof (Z.div_mod t 86400000000 ltac:(lia)).
  pose proof (Z.mod_pos_bound t 86400000000 ltac:(lia)).
  pose proof (Z.div_mod (name_to_date c) 86400000000 ltac:(lia)).
  pose proof (Z.mod_pos_bound (name_to_date c) 86400000000 ltac:(lia)).
  lia.
Qed.

(** C2, as the code behaves.  With the listings of the day before [t] and
    of the day of [t] at hand, and an [argsort] that sorts the array of
    the [total_seconds()] of the deltas: when some candidate starts before
    [t], [get_file_by_date] returns a candidate that starts before [t]
    and whose delta, as a float, is not below that of any other candidate
    that starts before [t]; a candidate that starts exactly at [t] does
    not count.  When no candidate starts [2 ** 33] seconds or more before
    [t], the floats tell the deltas apart and the candidate returned
    starts no earlier than any other candidate that starts before [t];
    this is so when the listings hold files of their own day only.  When
    no candidate starts before [t], the function returns the last
    candidate of the sequence, which is the latest one when the
    candidates are in ascending order, and raises [IndexError] when there
    is no candidate. *)
Theorem file_by_date_latest_before (t t_p : datetime) (prev today : list string) :
  DateTime.sub t (days 1) = Ok t_p ->
  day_listing t_p = Ok prev ->
  day_listing t = Ok today ->
  let cands := candidates prev today in
  Numpy.sorts argsort
    (map (fun f => total_seconds (diff (name_to_date f) t)) cands) ->
  ((exists c, c ∈ cands /\ name_to_date c < t) ->
     exists f, get_file_by_date t = Ok f /\ f ∈ cands /\ name_to_date f < t
               /\ (forall c, c ∈ cands -> name_to_date c < t ->
                     total_seconds (diff (name_to_date c) t)
                     <= total_seconds (diff (name_to_date f) t))
               /\ ((forall c, c ∈ cands -> t - name_to_date c < exact_within) ->
                   forall c, c ∈ cands -> name_to_date c < t ->
                             name_to_date c <= name_to_date f))
  /\ (Archive.listings_by_day name_to_date get_files ->
      forall c, c ∈ cands -> t - name_to_date c < exact_within)
  /\ ((forall c, c ∈ cands -> t <= name_to_date c) ->
      get_file_by_date t
      = match last cands with Some f => Ok f | None => Raise IndexError end)
  /\ (forall f, last cands = Some f ->
        StronglySorted (fun a b => name_to_date a <= name_to_date b) cands ->
        forall c, c ∈ cands -> name_to_date c <= name_to_date f).
Proof.
  intros Hsub Hprev Htoday cands [Hperm Hsorted].
  assert (Hnear : Archive.listings_by_day name_to_date get_files ->
            forall c, c ∈ cands -> t - name_to_date c < exact_within).
  { intros Hday c Hc.
    pose proof (candidates_near t t_p prev today Hsub Hprev Htoday Hday c Hc).
    unfold exact_within, us_per_day in *. lia. }
  assert (Hlatest : forall f, last cands = Some f ->
            StronglySorted (fun a b => name_to_date a <= name_to_date b) cands ->
            forall c, c ∈ cands -> name_to_date c <= name_to_date f).
  { intros g Hg Hs c Hc. apply last_Some in Hg as [l' Hl'].
    rewrite Hl' in Hs, Hc.
    apply elem_of_app in Hc as [Hc| ->%list_elem_of_singleton]; [|lia].
    eapply (StronglySorted_app_1_elem_of _ _ _ c g Hs Hc). left. }
  set (dts := map (fun f => total_seconds (diff (name_to_date f) t)) cands) in *.
  rewrite (get_file_by_date_eq t t_p prev today Hsub Hprev Htoday Hperm).
  fold cands. fold dts.
  set (inds := argsort dts) in *.
  set (mask := map (fun x => Float64.ltb x Float64.zero)
                 (map (fun i => nth i dts 0) inds)).
  (* the float at an index of a candidate *)
  assert (Hdelta : forall p c, cands !! p = Some c ->
            nth p dts 0 = total_seconds (diff (name_to_date c) t)).
  { intros p c Hp. apply nth_lookup_Some. unfold dts.
    rewrite lookup_map, Hp. reflexivity. }
  (* every index of a candidate is somewhere in [inds] *)
  assert (Hfind : forall p c, cands !! p = Some c ->
            exists j, inds !! j = Some p
                      /\ mask !! j = Some (is_negative (diff (name_to_date c) t))).
  { intros p c Hp.
    assert (Hin : p ∈ inds).
    { rewrite Hperm. apply elem_of_seq. apply lookup_lt_Some in Hp.
      unfold dts. rewrite length_map. lia. }
    apply list_elem_of_lookup in Hin as [j Hj]. exists j. split; [exact Hj|].
    unfold mask. rewrite !lookup_map, Hj. simpl. rewrite (Hdelta p c Hp).
    rewrite total_seconds_negative. reflexivity. }
  (* and every index in [inds] is the index of a candidate *)
  assert (Hcand : forall j i, inds !! j = Some i -> exists c, cands !! i = Some c).
  { intros j i Hj. apply list_elem_of_lookup_2 in Hj. rewrite Hperm in Hj.
    apply elem_of_seq in Hj. apply lookup_lt_is_Some_2.
    unfold dts in Hj. rewrite length_map in Hj. lia. }
  pose proof (where_true_last mask) as Hwhere.
  destruct (last (Numpy.where_true mask)) as [k|].
  - destruct Hwhere as [Hk Hmax].
    assert (Hik : exists i, inds !! k = Some i).
    { apply lookup_lt_is_Some_2. apply lookup_lt_Some in Hk.
      unfold mask in Hk. rewrite !length_map in Hk. exact Hk. }
    destruct Hik as [i Hi]. destruct (Hcand k i Hi) as [f Hf].
    rewrite Hi, getitem_nat, Hf.
    assert (Hneg : name_to_date f < t).
    { unfold mask in Hk. rewrite !lookup_map, Hi in Hk. simpl in Hk.
      rewrite (Hdelta i f Hf), total_seconds_negative in Hk. injection Hk as Hk.
      unfold is_negative, diff in Hk. apply Z.ltb_lt in Hk. lia. }
    assert (Hfloat : forall c, c ∈ cands -> name_to_date c < t ->
              total_seconds (diff (name_to_date c) t)
              <= total_seconds (diff (name_to_date f) t)).
    { intros c Hc Hct. apply list_elem_of_lookup in Hc as [p Hp].
      destruct (Hfind p c Hp) as (j & Hj & Hmj).
      assert (Hjk : (j <= k)%nat).
      { apply Hmax. rewrite Hmj. f_equal. unfold is_negative, diff.
        apply Z.ltb_lt. lia. }
      destruct (decide (j = k)) as [->|Hne].
      * assert (p = i) by congruence. subst p.
        assert (c = f) by congruence. subst c. lia.
      * assert (Hasc : Numpy.ascending dts p i).
        { eapply (StronglySorted_lookup _ inds j k); [| lia | eassumption..].
          apply Sorted_StronglySorted; [|exact Hsorted].
          intros x y z. unfold Numpy.ascending. lia. }
        unfold Numpy.ascending in Hasc.
        rewrite (Hdelta p c Hp), (Hdelta i f Hf) in Hasc. exact Hasc. }
    split; [|split; [exact Hnear|split; [|exact Hlatest]]].
    + intros _. exists f.
      split; [reflexivity|]. split; [eapply list_elem_of_lookup_2, Hf|].
      split; [exact Hneg|]. split; [exact Hfloat|].
      intros Hwithin c Hc Hct.
      destruct (Z.le_gt_cases (name_to_date c) (name_to_date f)) as [Hle|Hgt];
        [exact Hle|]. exfalso.
      pose proof (Hfloat c Hc Hct) as Hcf.
      pose proof (Hwithin f (list_elem_of_lookup_2 _ _ _ Hf)) as Hwf.
      assert (Hstrict : total_seconds (diff (name_to_date f) t)
                        < total_seconds (diff (name_to_date c) t)).
      { apply total_seconds_strict; unfold diff, exact_within in *; lia. }
      lia.
    + intros Hall. specialize (Hall f (list_elem_of_lookup_2 _ _ _ Hf)). lia.
  - destruct Hwhere as [_ Hnone]. rewrite getitem_last.
    split; [|split; [exact Hnear|split; [reflexivity|exact Hlatest]]].
    intros (c & Hc & Hct). exfalso.
    apply list_elem_of_lookup in Hc as [p Hp].
    destruct (Hfind p c Hp) as (j & _ & Hmj).
    apply (Hnone j). rewrite Hmj. f_equal. unfold is_negative, diff.
    apply Z.ltb_lt. lia.
Qed.

End NearestFile.

(* ===================================================================== *)
(** ** Construction of the providers *)

(** [IcareProvider(product)] raises [ValueError], naming the product,
    for a product that is not a key of [icare_products]. *)
Lemma icare_unsupported_product (p : product) :
  Registry.contains IcareProvider.icare_products (product_name p) = false ->
  exists msg,
    IcareProvider.init p = Raise (ValueError (product_name p ++ msg)).
Proof.
  intros H. unfold IcareProvider.init. rewrite H. simpl. eauto.
Qed.

(** C8, as the code behaves for [CopernicusProvider].  For a product that
    is not in [copernicus_products] the constructor does not reach its
    [raise ValueError]: building the message calls [.keys()] on a list,
    which raises [AttributeError]. *)
Theorem copernicus_unsupported_product (p : product) (variables : list string)
    (domain : option (list string)) :
  Registry.contains CopernicusProvider.copernicus_products (product_name p) = false ->
  CopernicusProvider.init p variables domain = Raise AttributeError.
Proof.
  intros H. unfold CopernicusProvider.init. rewrite H. reflexivity.
Qed.

(* ===================================================================== *)
(** ** The listing cache of the ICARE provider *)

Section ListingCache.

Variable server : nat -> string -> IcareProvider.ftp_reply.
Variable day_directory : string -> Z -> Z -> result string.

Local Abbreviation ftp_listing_to_list := (IcareProvider.ftp_listing_to_list server).
Local Abbreviation get_files := (IcareProvider.get_files server day_directory).
Local Abbreviation run := (IcareProvider.run server day_directory).
Local Abbreviation cache_inv := IcareProvider.cache_inv.
Local Abbreviation keeps_listings := IcareLifetime.keeps_listings.

(** no session that has delivered a listing fails when it is left *)
Local Abbreviation sessions_end_well :=
  (forall (k : nat) (path : string) (names : list string),
     server k path <> IcareProvider.QuitFails names).

Lemma mapM_str (names : list string) :
  PyList.mapM IcareProvider.str names = Ok (map IcareProvider.AStr names).
Proof.
  induction names as [|n names IH]; [reflexivity|].
  simpl. rewrite IH. reflexivity.
Qed.

(** A cached path is answered from the cache, without a connection. *)
Lemma ftp_listing_cached (path : string) (t : string -> result IcareProvider.atom)
    (s : IcareProvider.instance) (listing : list IcareProvider.atom) :
  IcareProvider.cache s !! path = Some listing ->
  ftp_listing_to_list path t s = (Ok listing, s).
Proof. intros H. unfold IcareProvider.ftp_listing_to_list. rewrite H. reflexivity. Qed.

(** A call keeps the product path and every entry of the cache, and what
    it returns is in the cache afterwards. *)
Lemma ftp_listing_keeps (path : string) (t : string -> result IcareProvider.atom)
    (s s' : IcareProvider.instance) (r : result (list IcareProvider.atom)) :
  ftp_listing_to_list path t s = (r, s') ->
  IcareProvider.product_path s' = IcareProvider.product_path s
  /\ (forall p l, IcareProvider.cache s !! p = Some l ->
                  IcareProvider.cache s' !! p = Some l)
  /\ (forall l, r = Ok l -> IcareProvider.cache s' !! path = Some l).
Proof.
  unfold IcareProvider.ftp_listing_to_list.
  destruct (IcareProvider.cache s !! path) as [listing|] eqn:Hc.
  - intros [= <- <-]. repeat split; [auto | congruence].
  - destruct (server _ path) as [| | | | |names'|names];
      try (intros [= <- <-]; repeat split; [auto | discriminate]).
    destruct (PyList.mapM t names) as [listing|e]; intros [= <- <-].
    + repeat split; simpl.
      * intros p l Hp. rewrite lookup_insert_ne; [exact Hp | congruence].
      * intros l [= <-]. apply lookup_insert_eq.
    + repeat split; [auto | discriminate].
Qed.

(** A call retrieves nothing, or the listing of its path, which was not
    in the cache. *)
Lemma ftp_listing_log (path : string) (t : string -> result IcareProvider.atom)
    (s s' : IcareProvider.instance) (r : result (list IcareProvider.atom)) :
  ftp_listing_to_list path t s = (r, s') ->
  IcareProvider.retrieved s' = IcareProvider.retrieved s
  \/ (IcareProvider.cache s !! path = None
      /\ IcareProvider.retrieved s' = IcareProvider.retrieved s ++ [path]).
Proof.
  unfold IcareProvider.ftp_listing_to_list.
  destruct (IcareProvider.cache s !! path) as [listing|] eqn:Hc.
  - intros [= <- <-]. left. reflexivity.
  - destruct (server _ path) as [| | | | |names'|names];
      try (intros [= <- <-]; left; reflexivity).
    + intros [= <- <-]. right. split; reflexivity.
    + destruct (PyList.mapM t names) as [listing|e]; intros [= <- <-];
        right; split; reflexivity.
Qed.

Lemma ftp_listing_keeps_listings (path : string)
    (t : string -> result IcareProvider.atom)
    (s s' : IcareProvider.instance) (r : result (list IcareProvider.atom)) :
  ftp_listing_to_list path t s = (r, s') -> keeps_listings s s'.
Proof.
  intros Hcall.
  destruct (ftp_listing_keeps _ _ _ _ _ Hcall) as (Hpp & Hkeep & _).
  split; [exact Hpp|]. split; [exact Hkeep|].
  destruct (ftp_listing_log _ _ _ _ _ Hcall) as [Hlog|[Hnone Hlog]].
  - exists []. rewrite app_nil_r. split; [exact Hlog|].
    intros p _ Hin. inversion Hin.
  - exists [path]. split; [exact Hlog|].
    intros p [l Hl] ->%list_elem_of_singleton. congruence.
Qed.

Lemma get_files_keeps_listings (year day : Z) (s s' : IcareProvider.instance)
    (r : result (list string)) :
  get_files year day s = (r, s') -> keeps_listings s s'.
Proof.
  unfold IcareProvider.get_files.
  destruct (day_directory _ year day) as [path|e].
  - destruct (ftp_listing_to_list path IcareProvider.str s) as [r0 s0] eqn:Hl.
    intros [= <- <-]. eapply ftp_listing_keeps_listings, Hl.
  - intros [= <- <-]. split; [reflexivity|]. split; [auto|].
    exists []. rewrite app_nil_r. split; [reflexivity|].
    intros p _ Hin. inversion Hin.
Qed.

Lemma keeps_listings_trans (s1 s2 s3 : IcareProvider.instance) :
  keeps_listings s1 s2 -> keeps_listings s2 s3 -> keeps_listings s1 s3.
Proof.
  intros (Hpp1 & Hkeep1 & more1 & Hlog1 & Hnew1)
         (Hpp2 & Hkeep2 & more2 & Hlog2 & Hnew2).
  split; [congruence|]. split; [auto|].
  exists (more1 ++ more2). split.
  - rewrite Hlog2, Hlog1, app_assoc. reflexivity.
  - intros p Hp [Hin|Hin]%elem_of_app.
    + exact (Hnew1 p Hp Hin).
    + destruct Hp as [l Hl]. apply (Hnew2 p); [|exact Hin].
      exists l. apply Hkeep1, Hl.
Qed.

(** When the sessions end well, every path whose listing [get_files]
    retrieved is in the cache, and none was retrieved twice. *)
Lemma ftp_listing_inv (path : string) (s s' : IcareProvider.instance)
    (r : result (list IcareProvider.atom)) :
  sessions_end_well ->
  cache_inv s ->
  ftp_listing_to_list path IcareProvider.str s = (r, s') ->
  cache_inv s'.
Proof.
  intros Hwell [Hnd Hcov]. unfold IcareProvider.ftp_listing_to_list.
  destruct (IcareProvider.cache s !! path) as [listing|] eqn:Hc.
  - intros [= <- <-]. split; assumption.
  - assert (Hfresh : path ∉ IcareProvider.retrieved s).
    { intros Hin. apply Hcov in Hin as [l Hl]. congruence. }
    destruct (server _ path) as [| | | | |names'|names] eqn:Hreply;
      try (intros [= <- <-]; split; assumption).
    { exfalso. exact (Hwell _ _ _ Hreply). }
    rewrite mapM_str. intros [= <- <-]. split; simpl.
    + apply NoDup_app. split; [exact Hnd|]. split; [|apply NoDup_singleton].
      intros x Hx ->%list_elem_of_singleton. contradiction.
    + intros p [Hp| ->%list_elem_of_singleton]%elem_of_app.
      * destruct (decide (path = p)) as [->|Hne].
        { rewrite lookup_insert_eq. eauto. }
        rewrite lookup_insert_ne by exact Hne. auto.
      * rewrite lookup_insert_eq. eauto.
Qed.

Lemma get_files_inv (year day : Z) (s s' : IcareProvider.instance)
    (r : result (list string)) :
  sessions_end_well ->
  cache_inv s ->
  get_files year day s = (r, s') ->
  cache_inv s'.
Proof.
  intros Hwell Hinv. unfold IcareProvider.get_files.
  destruct (day_directory _ year day) as [path|e].
  - destruct (ftp_listing_to_list path IcareProvider.str s) as [r0 s0] eqn:Hl.
    intros [= <- <-]. eapply ftp_listing_inv; eassumption.
  - intros [= <- <-]. exact Hinv.
Qed.

Lemma run_inv (calls : list (Z * Z)) (s : IcareProvider.instance) :
  sessions_end_well ->
  cache_inv s ->
  cache_inv (run calls s).
Proof.
  intros Hwell. revert s.
  induction calls as [|[y d] calls IH]; intros s Hinv; [exact Hinv|].
  change (run ((y, d) :: calls) s) with (run calls (snd (get_files y d s))).
  destruct (get_files y d s) as [r s1] eqn:Hcall. cbn [snd].
  apply IH. eapply get_files_inv; eassumption.
Qed.

(** A call that returned a listing is repeated from the cache. *)
Lemma get_files_again (year day : Z) (s1 s2 s3 : IcareProvider.instance)
    (fs : list string) :
  get_files year day s1 = (Ok fs, s2) ->
  IcareProvider.product_path s3 = IcareProvider.product_path s1 ->
  (forall p l, IcareProvider.cache s2 !! p = Some l ->
               IcareProvider.cache s3 !! p = Some l) ->
  get_files year day s3 = (Ok fs, s3).
Proof.
  unfold IcareProvider.get_files. intros Hcall Hpp Hkeep. rewrite Hpp.
  destruct (day_directory _ year day) as [path|e]; [|discriminate].
  destruct (ftp_listing_to_list path IcareProvider.str s1) as [r0 s0] eqn:Hl.
  injection Hcall as Hr <-.
  destruct r0 as [listing|e]; [|discriminate]. simpl in Hr.
  destruct (ftp_listing_keeps _ _ _ _ _ Hl) as (_ & _ & Hstored).
  rewrite (ftp_listing_cached path _ s3 listing) by (apply Hkeep, Hstored; reflexivity).
  simpl. rewrite Hr. reflexivity.
Qed.

End ListingCache.

Lemma download_keeps_listings (has_identity : bool)
    (transfers : nat -> string -> string -> IcareDownload.transfer_reply)
    (can_open : string -> bool) (strftime_Y : Z -> string)
    (filename dest : string) (s s' : IcareProvider.instance)
    (disk disk' : gmap string string) (r : result unit) :
  IcareDownload.download has_identity transfers can_open strftime_Y
    filename dest s disk = (r, s', disk') ->
  IcareLifetime.keeps_listings s s'.
Proof.
  unfold IcareDownload.download. intros Hcall.
  assert (Hs : s' = s \/ s' = IcareProvider.connect s).
  { destruct (negb has_identity); [injection Hcall as _ <- _; left; reflexivity|].
    destruct (transfers _ _ _) as [| | |blocks complete];
      try (injection Hcall as _ <- _; right; reflexivity).
    destruct (negb (can_open dest)); [injection Hcall as _ <- _; right; reflexivity|].
    destruct complete; injection Hcall as _ <- _; right; reflexivity. }
  destruct Hs as [-> | ->]; (split; [reflexivity|]; split; [auto|]);
    exists []; rewrite app_nil_r; (split; [reflexivity|]);
    intros p _ Hin; inversion Hin.
Qed.

Section Lifetime.

Variable listings : nat -> string -> IcareProvider.ftp_reply.
Variable day_directory : string -> Z -> Z -> result string.
Variable has_identity : bool.
Variable transfers : nat -> string -> string -> IcareDownload.transfer_reply.
Variable can_open : string -> bool.
Variable strftime_Y : Z -> string.

Local Abbreviation get_files := (IcareProvider.get_files listings day_directory).
Local Abbreviation run := (IcareProvider.run listings day_directory).
Local Abbreviation step :=
  (IcareLifetime.step listings day_directory has_identity transfers can_open
     strftime_Y).
Local Abbreviation later :=
  (IcareLifetime.later listings day_directory has_identity transfers can_open
     strftime_Y).

Lemma later_keeps_listings (s s' : IcareProvider.instance) :
  later s s' -> IcareLifetime.keeps_listings s s'.
Proof.
  unfold IcareLifetime.later. induction 1 as [s|s1 s2 s3 Hstep _ IH].
  - split; [reflexivity|]. split; [auto|].
    exists []. rewrite app_nil_r. split; [reflexivity|].
    intros p _ Hin. inversion Hin.
  - eapply keeps_listings_trans; [|exact IH].
    destruct Hstep as [y d r Hcall|path t r Hcall|filename dest disk disk' r Hcall].
    + eapply get_files_keeps_listings, Hcall.
    + eapply ftp_listing_keeps_listings, Hcall.
    + eapply download_keeps_listings, Hcall.
Qed.

(** C9, as the code behaves.  Let a [get_files] call for [(year, day)]
    have returned, and let the instance be used further in any way: by
    [get_files], by [download], by direct calls of
    [__ftp_listing_to_list__] with any converter, returning or raising.
    Then a call for [(year, day)] returns the same list and leaves the
    instance as it is, so it opens no connection and retrieves nothing;
    every entry of the cache is what it was; and none of the listings
    retrieved in between is of a path that was in the cache.  A path can
    still be retrieved twice before it is stored: the last part says that
    this takes a session that fails when it is left or a call other than
    [get_files]; when the sessions end well, a sequence of [get_files]
    calls from the construction on retrieves no path twice. *)
Theorem listing_retrieved_once (s1 s2 s3 : IcareProvider.instance)
    (year day : Z) (fs : list string) :
  get_files year day s1 = (Ok fs, s2) ->
  later s2 s3 ->
  get_files year day s3 = (Ok fs, s3)
  /\ (forall path l, IcareProvider.cache s2 !! path = Some l ->
                     IcareProvider.cache s3 !! path = Some l)
  /\ (exists more,
        IcareProvider.retrieved s3 = IcareProvider.retrieved s2 ++ more
        /\ forall path, is_Some (IcareProvider.cache s2 !! path) -> path ∉ more)
  /\ ((forall (k : nat) (path : string) (names : list string),
         listings k path <> IcareProvider.QuitFails names) ->
      forall (p : product) (s0 : IcareProvider.instance) (calls : list (Z * Z)),
        IcareProvider.init p = Ok s0 ->
        NoDup (IcareProvider.retrieved (run calls s0))).
Proof.
  intros Hcall Hlater.
  destruct (get_files_keeps_listings _ _ _ _ _ _ _ Hcall) as (Hpp2 & _ & _).
  destruct (later_keeps_listings _ _ Hlater) as (Hpp3 & Hkeep3 & Hlog3).
  split; [|split; [exact Hkeep3|split; [exact Hlog3|]]].
  - eapply get_files_again; [exact Hcall | congruence | exact Hkeep3].
  - intros Hwell p s0 calls Hinit.
    assert (Hinv0 : IcareProvider.cache_inv s0).
    { unfold IcareProvider.init in Hinit.
      destruct (negb _); [destruct (Registry.keys _); discriminate|].
      apply bind_Ok_inv in Hinit as (parts & _ & [= <-]). split; simpl.
      - constructor.
      - intros path Hpath. inversion Hpath. }
    apply (run_inv listings day_directory calls s0 Hwell Hinv0).
Qed.

End Lifetime.

(* ===================================================================== *)
(** ** The example archive *)

Lemma table_lookup (tbl : list (datetime * list string)) (t : datetime)
    (fs : list string) (f : string) :
  Archive.table_get_files tbl (year t) (julian_day t) = Ok fs -> f ∈ fs ->
  exists e, In e tbl /\ snd e = fs /\ day_number (fst e) = day_number t.
Proof.
  unfold Archive.table_get_files. intros Hget Hin.
  destruct (List.find _ tbl) as [e|] eqn:Hfind.
  - injection Hget as <-. apply find_some in Hfind as [He Hkey].
    apply andb_true_iff in Hkey as [Hy Hd]. apply Z.eqb_eq in Hy, Hd.
    exists e. repeat split; [exact He|]. apply day_key_injective; assumption.
  - injection Hget as <-. inversion Hin.
Qed.

Lemma table_by_day (ntd : string -> datetime) (tbl : list (datetime * list string)) :
  Archive.table_ok ntd tbl = true ->
  Archive.listings_by_day ntd (Archive.table_get_files tbl).
Proof.
  intros Hok t fs f Hget Hin.
  destruct (table_lookup tbl t fs f Hget Hin) as (e & He & <- & <-).
  unfold Archive.table_ok in Hok. rewrite forallb_forall in Hok.
  specialize (Hok e He). unfold Archive.entry_ok in Hok.
  apply andb_true_iff in Hok as [Hok _]. apply andb_true_iff in Hok as [Hok _].
  rewrite forallb_forall in Hok. apply Z.eqb_eq, Hok, list_elem_of_In, Hin.
Qed.

Lemma table_entry (tbl : list (datetime * list string)) (y d : Z) (fs : list string) :
  Archive.table_get_files tbl y d = Ok fs ->
  fs = [] \/ exists e, In e tbl /\ snd e = fs.
Proof.
  unfold Archive.table_get_files.
  destruct (List.find _ tbl) as [e|] eqn:Hfind; intros [= <-]; [|left; reflexivity].
  right. exists e. split; [|reflexivity]. eapply find_some, Hfind.
Qed.

Lemma table_nodup (ntd : string -> datetime) (tbl : list (datetime * list string)) :
  Archive.table_ok ntd tbl = true ->
  Archive.listings_nodup (Archive.table_get_files tbl).
Proof.
  intros Hok y d fs Hget.
  destruct (table_entry tbl y d fs Hget) as [->|(e & He & <-)]; [constructor|].
  unfold Archive.table_ok in Hok. rewrite forallb_forall in Hok.
  specialize (Hok e He). unfold Archive.entry_ok in Hok.
  apply andb_true_iff in Hok as [Hok _]. apply andb_true_iff in Hok as [_ Hok].
  apply bool_decide_eq_true in Hok. exact Hok.
Qed.

Lemma adjacent_pairs_Sorted (ntd : string -> datetime) (l : list string) :
  forallb (fun ab => ntd (fst ab) <=? ntd (snd ab)) (combine l (tail l)) = true ->
  Archive.chronological ntd l.
Proof.
  unfold Archive.chronological.
  induction l as [|a [|b l] IH]; intros H; [constructor | repeat constructor |].
  simpl in H. apply andb_true_iff in H as [Hab H].
  constructor; [apply IH, H|]. constructor. apply Z.leb_le, Hab.
Qed.

Lemma table_chronological (ntd : string -> datetime)
    (tbl : list (datetime * list string)) :
  Archive.table_ok ntd tbl = true ->
  Archive.listings_chronological ntd (Archive.table_get_files tbl).
Proof.
  intros Hok y d fs Hget.
  destruct (table_entry tbl y d fs Hget) as [->|(e & He & <-)]; [constructor|].
  unfold Archive.table_ok in Hok. rewrite forallb_forall in Hok.
  specialize (Hok e He). unfold Archive.entry_ok in Hok.
  apply andb_true_iff in Hok as [_ Hok]. apply adjacent_pairs_Sorted, Hok.
Qed.

Lemma archive_ok : Archive.table_ok Archive.name_to_date Archive.listings = true.
Proof. vm_compute. reflexivity. Qed.

Lemma archive_by_day :
  Archive.listings_by_day Archive.name_to_date Archive.get_files.
Proof. apply table_by_day, archive_ok. Qed.

Lemma archive_nodup : Archive.listings_nodup Archive.get_files.
Proof. apply (table_nodup Archive.name_to_date), archive_ok. Qed.

Lemma archive_chronological :
  Archive.listings_chronological Archive.name_to_date Archive.get_files.
Proof. apply table_chronological, archive_ok. Qed.

(* ===================================================================== *)
(** ** The properties on the example archive *)

Section Examples.

Local Abbreviation ntd := Archive.name_to_date.
Local Abbreviation gf := Archive.get_files.
Local Abbreviation feb29 := Archive.feb29.
Local Abbreviation mar01 := Archive.mar01.
Local Abbreviation get_preceeding_file := (DataProvider.get_preceeding_file ntd gf).
Local Abbreviation get_following_file := (DataProvider.get_following_file ntd gf).
Local Abbreviation get_files_in_range := (DataProvider.get_files_in_range ntd gf).
Local Abbreviation get_file_by_date :=
  (DataProvider.get_file_by_date ntd gf Numpy.argsort).
Local Abbreviation range_loop := (DataProvider.range_loop ntd gf).

(** The listing [f1@10:00, f2@14:00, f3@20:00] and the query at 15:00. *)
Example file_by_date_at_15 : get_file_by_date (feb29 15) = Ok "f2".
Proof. vm_compute. reflexivity. Qed.

(** Before all files of the day, the last file of the day before. *)
Example file_by_date_at_5 : get_file_by_date (feb29 5) = Ok "e9".
Proof. vm_compute. reflexivity. Qed.

(** A range that ends in the night of the next day: the loop visits one
    day only, and the first file of the next day comes from the append. *)
Example range_into_next_day :
  get_files_in_range (feb29 12) (mar01 6) false = Ok ["f2"; "f3"; "g1"].
Proof. vm_compute. reflexivity. Qed.

Lemma adjacent_file_lookup_witness :
  DataProvider.day_listing gf (ntd "f1") = Ok ["f1"; "f2"; "f3"]
  /\ PyList.find_index "f1" ["f1"; "f2"; "f3"] = Some 0%nat
  /\ get_preceeding_file "f1" = Ok "e9"
  /\ get_following_file "f1" = Ok "f2".
Proof.
  assert (Hfs : DataProvider.day_listing gf (ntd "f1") = Ok ["f1"; "f2"; "f3"])
    by (vm_compute; reflexivity).
  destruct (adjacent_file_lookup ntd gf "f1" ["f1"; "f2"; "f3"] 0 Hfs eq_refl)
    as (_ & Hprev & Hnext & _).
  split; [exact Hfs|]. split; [reflexivity|]. split.
  - refine (proj2 (Hprev eq_refl (ntd "f1" - us_per_day) ["e9"] _ _));
      vm_compute; reflexivity.
  - destruct Hnext as (x & Hx & Hres); [vm_compute; lia|].
    injection Hx as <-. exact Hres.
Defined.

Lemma preceeding_of_following_witness :
  get_following_file "f3" = Ok "g1"
  /\ get_preceeding_file "g1" = Ok "f3"
  /\ "f3" = "f3".
Proof.
  assert (Hfol : get_following_file "f3" = Ok "g1") by (vm_compute; reflexivity).
  assert (Hpre : get_preceeding_file "g1" = Ok "f3") by (vm_compute; reflexivity).
  split; [exact Hfol|]. split; [exact Hpre|].
  exact (preceeding_of_following ntd gf "f3" "g1" "f3"
           archive_nodup (by_day_disjoint ntd gf archive_by_day) Hfol Hpre).
Defined.

Lemma inclusive_prepends_preceeding_witness :
  get_files_in_range (feb29 12) (mar01 13) false = Ok ["f2"; "f3"; "g1"; "g2"]
  /\ get_files_in_range (feb29 12) (mar01 13) true
     = let* p := get_preceeding_file "f2" in Ok [p; "f2"; "f3"; "g1"; "g2"].
Proof.
  assert (H : get_files_in_range (feb29 12) (mar01 13) false
              = Ok ["f2"; "f3"; "g1"; "g2"]) by (vm_compute; reflexivity).
  split; [exact H|].
  exact (inclusive_prepends_preceeding ntd gf _ _ "f2" ["f3"; "g1"; "g2"] H).
Defined.

Lemma range_loop_terminates_witness :
  feb29 12 < mar01 13
  /\ exists r, range_loop 2 (feb29 12) (mar01 13)
                 (DataProvider.range_start (feb29 12)) = Some r.
Proof.
  assert (Hlt : feb29 12 < mar01 13) by reflexivity.
  split; [exact Hlt|].
  destruct (range_loop_terminates ntd gf (feb29 12) (mar01 13) Hlt)
    as (_ & _ & r & Hr & _).
  exists r. apply Hr. vm_compute. constructor.
Defined.

Lemma range_query_without_files_raises_witness :
  feb29 0 < mar01 12
  /\ DataProvider.get_files_in_range ntd Archive.no_files (feb29 0) (mar01 12) false
     = Raise IndexError.
Proof.
  assert (Hlt : feb29 0 < mar01 12) by reflexivity.
  split; [exact Hlt|].
  apply (range_query_without_files_raises ntd Archive.no_files _ _ Hlt).
  - intros y d. reflexivity.
  - vm_compute. reflexivity.
  - vm_compute. reflexivity.
Defined.

Lemma range_query_window_witness :
  feb29 12 < mar01 13
  /\ get_files_in_range (feb29 12) (mar01 13) false = Ok ["f2"; "f3"; "g1"; "g2"]
  /\ StronglySorted (fun a b => ntd a <= ntd b) ["f2"; "f3"; "g1"; "g2"].
Proof.
  assert (Hlt : feb29 12 < mar01 13) by reflexivity.
  assert (H : get_files_in_range (feb29 12) (mar01 13) false
              = Ok ["f2"; "f3"; "g1"; "g2"]) by (vm_compute; reflexivity).
  split; [exact Hlt|]. split; [exact H|].
  destruct (range_query_window ntd gf _ _ _ Hlt H)
    as (sel & extra & _ & _ & _ & Hsorted).
  exact (Hsorted archive_by_day archive_chronological).
Defined.

(** C1 as stated fails: with [t1] at 20:00, the start of [f3], the query
    returns [f3] ahead of the trailing entry [g1], and [f3] does not
    start strictly before [t1]. *)
Lemma range_query_window_counterexample :
  feb29 0 < feb29 20
  /\ get_files_in_range (feb29 0) (feb29 20) false = Ok ["f1"; "f2"; "f3"; "g1"]
  /\ get_following_file "f3" = Ok "g1"
  /\ ~ (forall l f, get_files_in_range (feb29 0) (feb29 20) false = Ok l ->
                   f ∈ removelast l -> feb29 0 <= ntd f /\ ntd f < feb29 20).
Proof.
  assert (H : get_files_in_range (feb29 0) (feb29 20) false
              = Ok ["f1"; "f2"; "f3"; "g1"]) by (vm_compute; reflexivity).
  split; [reflexivity|]. split; [exact H|]. split; [vm_compute; reflexivity|].
  intros Hclaim.
  destruct (Hclaim _ "f3" H) as [_ Hlt].
  - simpl. apply list_elem_of_In. simpl. auto.
  - vm_compute in Hlt. discriminate.
Qed.

Lemma trailing_file_appended_witness :
  feb29 0 < feb29 22
  /\ get_files_in_range (feb29 0) (feb29 22) false = Ok ["f1"; "f2"; "f3"; "g1"].
Proof.
  assert (Hlt : feb29 0 < feb29 22) by reflexivity.
  split; [exact Hlt|].
  pose (st := {| DataProvider.cursor := mar01 0;
                 DataProvider.files := ["f1"; "f2"; "f3"];
                 DataProvider.pos1 := Some [false; false; false] |}).
  assert (Hrun : range_loop (DataProvider.days_spanned (feb29 0) (feb29 22))
                   (feb29 0) (feb29 22) (DataProvider.range_start (feb29 0))
                 = Some (Ok st)) by (vm_compute; reflexivity).
  destruct (trailing_file_appended ntd gf _ _ st Hlt Hrun) as (fs & Hfs & _ & Hcond).
  assert (Hday : DataProvider.day_listing gf
                   (feb29 0 + days (Z.of_nat (DataProvider.days_spanned (feb29 0) (feb29 22)) - 1))
                 = Ok ["f1"; "f2"; "f3"]) by (vm_compute; reflexivity).
  rewrite Hday in Hfs. injection Hfs as <-.
  destruct (Hcond "f3" eq_refl) as [Happend _].
  destruct Happend as (lastf & Hlast & Hres).
  - vm_compute. discriminate.
  - discriminate.
  - injection Hlast as <-. rewrite Hres. vm_compute. reflexivity.
Defined.

(** C3 as stated fails: with [t1] at noon, the last day visited has
    entries at or after [t1] ([f2], [f3]), a file was selected ([f1]) and
    it has a following file ([f2]); nothing is appended. *)
Lemma trailing_file_appended_counterexample :
  feb29 0 < feb29 12
  /\ range_loop (DataProvider.days_spanned (feb29 0) (feb29 12))
       (feb29 0) (feb29 12) (DataProvider.range_start (feb29 0))
     = Some (Ok {| DataProvider.cursor := mar01 0;
                   DataProvider.files := ["f1"];
                   DataProvider.pos1 := Some [false; true; true] |})
  /\ DataProvider.day_listing gf (feb29 0) = Ok ["f1"; "f2"; "f3"]
  /\ feb29 12 <= ntd "f2"
  /\ get_following_file "f1" = Ok "f2"
  /\ get_files_in_range (feb29 0) (feb29 12) false = Ok ["f1"]
  /\ get_files_in_range (feb29 0) (feb29 12) false <> Ok ["f1"; "f2"].
Proof.
  repeat split; try (vm_compute; reflexivity); vm_compute; discriminate.
Qed.

Lemma file_by_date_latest_before_witness :
  exists f, get_file_by_date (feb29 15) = Ok f
            /\ f ∈ ["e9"; "f1"; "f2"; "f3"]
            /\ ntd f < feb29 15
            /\ forall c, c ∈ ["e9"; "f1"; "f2"; "f3"] -> ntd c < feb29 15 ->
                         ntd c <= ntd f.
Proof.
  assert (Hsub : DateTime.sub (feb29 15) (days 1) = Ok (feb29 15 - us_per_day))
    by (vm_compute; reflexivity).
  assert (Hprev : DataProvider.day_listing gf (feb29 15 - us_per_day) = Ok ["e9"])
    by (vm_compute; reflexivity).
  assert (Htoday : DataProvider.day_listing gf (feb29 15) = Ok ["f1"; "f2"; "f3"])
    by (vm_compute; reflexivity).
  destruct (file_by_date_latest_before ntd gf Numpy.argsort _ _ _ _
              Hsub Hprev Htoday (argsort_sorts _)) as (Hbefore & Hnear & _).
  destruct Hbefore as (f & Hf & Hin & Hlt & _ & Hlatest).
  - exists "f1". split.
    + apply list_elem_of_In. simpl. auto.
    + reflexivity.
  - exists f. split; [exact Hf|]. split; [exact Hin|]. split; [exact Hlt|].
    apply Hlatest, Hnear, archive_by_day.
Defined.

(** C2 as stated fails: at 14:00, the start of [f2], the function returns
    [f1], although [f2] is a candidate that starts at [t] and later than
    [f1]. *)
Lemma file_by_date_latest_before_counterexample :
  get_file_by_date (feb29 14) = Ok "f1"
  /\ DataProvider.day_listing gf (feb29 14) = Ok ["f1"; "f2"; "f3"]
  /\ ntd "f2" <= feb29 14
  /\ ntd "f1" < ntd "f2".
Proof.
  repeat split; try (vm_compute; reflexivity); vm_compute; discriminate.
Qed.

(** Far from [t] the floats do not tell the deltas apart.  Of two
    candidates that start a microsecond apart, ten thousand years before
    [t], the function returns the one that [argsort] puts last: with
    equal entries kept in their order, the earlier file when the listing
    has it last; with equal entries the other way round, the earlier file
    when the listing has it first. *)
Example file_by_date_far_candidates :
  Scenario.far_name_to_date "a" < Scenario.far_name_to_date "b"
  /\ Scenario.far_name_to_date "b" < Scenario.far_day 12
  /\ total_seconds (diff (Scenario.far_name_to_date "a") (Scenario.far_day 12))
     = total_seconds (diff (Scenario.far_name_to_date "b") (Scenario.far_day 12))
  /\ DataProvider.get_file_by_date Scenario.far_name_to_date
       (Scenario.far_get_files ["b"; "a"]) Numpy.argsort (Scenario.far_day 12)
     = Ok "a"
  /\ DataProvider.get_file_by_date Scenario.far_name_to_date
       (Scenario.far_get_files ["a"; "b"]) Numpy.argsort_ties_reversed
       (Scenario.far_day 12)
     = Ok "a".
Proof. repeat split; vm_compute; reflexivity. Qed.

Lemma copernicus_unsupported_product_witness :
  Registry.contains CopernicusProvider.copernicus_products
    (product_name Archive.cloudsat) = false
  /\ CopernicusProvider.init Archive.cloudsat ["2m_temperature"] None
     = Raise AttributeError.
Proof.
  split; [reflexivity|].
  apply copernicus_unsupported_product. reflexivity.
Defined.

(** The sibling constructor raises the [ValueError] for a product of the
    other provider. *)
Example icare_unsupported_product_example :
  exists msg,
    IcareProvider.init {| product_name := "reanalysis-era5-land";
                          product_name_to_date := ntd |}
    = Raise (ValueError (String.append "reanalysis-era5-land" msg)).
Proof. apply icare_unsupported_product. reflexivity. Qed.

Lemma listing_retrieved_once_witness :
  let get_files := IcareProvider.get_files Archive.changing_server Archive.two_days in
  let download :=
    IcareDownload.download true Scenario.file_server Scenario.any_destination
      Paths.str_int in
  exists s2 s3 s4 disk',
    get_files 2020 60 Scenario.fresh = (Ok ["f1.hdf"; "f2.hdf"], s2)
    /\ get_files 2020 61 s2 = (Ok ["f1.hdf"; "f2.hdf"; "f3.hdf"], s3)
    /\ download "f1" "out.hdf" s3 Scenario.disk = (Ok tt, s4, disk')
    /\ IcareProvider.connections s4 = 3%nat
    /\ get_files 2020 60 s4 = (Ok ["f1.hdf"; "f2.hdf"], s4)
    /\ NoDup (IcareProvider.retrieved
                (IcareProvider.run Archive.changing_server Archive.two_days
                   [(2020, 60); (2020, 61); (2020, 60)] Scenario.fresh)).
Proof.
  intros get_files download.
  pose (s2 := snd (get_files 2020 60 Scenario.fresh)).
  pose (s3 := snd (get_files 2020 61 s2)).
  pose (s4 := snd (fst (download "f1" "out.hdf" s3 Scenario.disk))).
  pose (disk' := snd (download "f1" "out.hdf" s3 Scenario.disk)).
  assert (Hinit : IcareProvider.init Archive.cloudsat = Ok Scenario.fresh)
    by (vm_compute; reflexivity).
  assert (Hcall : get_files 2020 60 Scenario.fresh = (Ok ["f1.hdf"; "f2.hdf"], s2))
    by (vm_compute; reflexivity).
  assert (Hnext : get_files 2020 61 s2 = (Ok ["f1.hdf"; "f2.hdf"; "f3.hdf"], s3))
    by (vm_compute; reflexivity).
  assert (Hload : download "f1" "out.hdf" s3 Scenario.disk = (Ok tt, s4, disk'))
    by (vm_compute; reflexivity).
  assert (Hlater : IcareLifetime.later Archive.changing_server Archive.two_days
                     true Scenario.file_server Scenario.any_destination
                     Paths.str_int s2 s4).
  { apply (rtc_l _ _ s3).
    - exact (IcareLifetime.step_get_files _ _ _ _ _ _ _ _ 2020 61 _ Hnext).
    - apply rtc_once.
      exact (IcareLifetime.step_download _ _ _ _ _ _ _ _ "f1" "out.hdf" _ _ _ Hload). }
  exists s2, s3, s4, disk'.
  split; [exact Hcall|]. split; [exact Hnext|]. split; [exact Hload|].
  split; [vm_compute; reflexivity|].
  destruct (listing_retrieved_once Archive.changing_server Archive.two_days
              true Scenario.file_server Scenario.any_destination Paths.str_int
              Scenario.fresh s2 s4 2020 60 _ Hcall Hlater)
    as (Hagain & _ & _ & Honce).
  split; [exact Hagain|].
  apply (Honce ltac:(intros [|k] path names; discriminate) Archive.cloudsat).
  exact Hinit.
Defined.

(** C9 as stated fails: the first session delivers the listing and fails
    at [QUIT], so [get_files] raises with nothing stored, and the next
    call retrieves the listing of the same path again. *)
Lemma listing_retrieved_once_counterexample :
  let get_files :=
    IcareProvider.get_files Scenario.quitting_server
      (Paths.day_directory Paths.str_int) in
  exists s1 s2,
    get_files 2020 60 Scenario.fresh = (Raise (RemoteError "quit"), s1)
    /\ IcareProvider.retrieved s1 = [Scenario.feb29_directory]
    /\ IcareProvider.cache s1 !! Scenario.feb29_directory = None
    /\ get_files 2020 60 s1 = (Ok ["f1.hdf"; "f2.hdf"], s2)
    /\ IcareProvider.retrieved s2
       = [Scenario.feb29_directory; Scenario.feb29_directory]
    /\ ~ NoDup (IcareProvider.retrieved s2).
Proof.
  intros get_files.
  pose (s1 := snd (get_files 2020 60 Scenario.fresh)).
  pose (s2 := snd (get_files 2020 60 s1)).
  assert (Hlog : IcareProvider.retrieved s2
                 = [Scenario.feb29_directory; Scenario.feb29_directory])
    by (vm_compute; reflexivity).
  exists s1, s2. repeat split; try (vm_compute; reflexivity).
  rewrite Hlog. intros Hnd. apply NoDup_cons in Hnd as [Hnot _].
  apply Hnot. left.
Qed.

End Examples.

(* ===================================================================== *)
(** ** Further properties of the neighbouring-file lookups *)

Lemma find_index_None (x : string) (l : list string) :
  x ∉ l -> PyList.find_index x l = None.
Proof.
  intros Hnot. destruct (PyList.find_index x l) as [i|] eqn:Hi; [|reflexivity].
  exfalso. apply Hnot. eapply list_elem_of_lookup_2, find_index_lookup, Hi.
Qed.

(** The position [index] finds is the first one. *)
Lemma find_index_middle (x : string) (pre post : list string) :
  x ∉ pre -> PyList.find_index x (pre ++ x :: post) = Some (length pre).
Proof.
  induction pre as [|y pre IH]; intros Hnot; simpl.
  - rewrite String.eqb_refl. reflexivity.
  - destruct (String.eqb_spec y x) as [->|Hne].
    + exfalso. apply Hnot. left.
    + rewrite IH; [reflexivity|]. intros Hin. apply Hnot. right. exact Hin.
Qed.

Lemma getitem_elem_of {A} (l : list A) (i : Z) (x : A) :
  PyList.getitem l i = Ok x -> x ∈ l.
Proof.
  unfold PyList.getitem. destruct (_ && _); [|discriminate].
  destruct (l !! _) as [y|] eqn:Hy; [|discriminate].
  intros [= <-]. eapply list_elem_of_lookup_2, Hy.
Qed.

Section AdjacentFilesMore.

Variable name_to_date : string -> datetime.
Variable get_files : Z -> Z -> result (list string).

Local Abbreviation day_listing := (DataProvider.day_listing get_files).
Local Abbreviation get_preceeding_file :=
  (DataProvider.get_preceeding_file name_to_date get_files).
Local Abbreviation get_following_file :=
  (DataProvider.get_following_file name_to_date get_files).
Local Abbreviation not_later := (fun a b : string => name_to_date a <= name_to_date b).

(** X1.  A file that is not in the listing of the day its name decodes to has
    no neighbours: both lookups raise the [ValueError] of [list.index],
    whatever the other days hold. *)
Theorem missing_file_lookup_raises (filename : string) (fs : list string) :
  day_listing (name_to_date filename) = Ok fs ->
  filename ∉ fs ->
  exists msg,
    get_preceeding_file filename = Raise (ValueError msg)
    /\ get_following_file filename = Raise (ValueError msg).
Proof.
  intros Hfs Hnot. unfold DataProvider.day_listing in Hfs.
  unfold DataProvider.get_preceeding_file, DataProvider.get_following_file.
  rewrite Hfs. cbn [bind]. unfold PyList.index.
  rewrite (find_index_None _ _ Hnot). cbn [bind]. eauto.
Qed.

(** A file that has a following file is in the listing of its own day. *)
Lemma following_own_listing (g h : string) :
  get_following_file g = Ok h ->
  exists fs, day_listing (name_to_date g) = Ok fs /\ g ∈ fs.
Proof.
  unfold DataProvider.get_following_file. intros H.
  apply bind_Ok_inv in H as (fs & Hfs & H).
  apply bind_Ok_inv in H as (iz & Hidx & _).
  apply index_Ok in Hidx as (i & Hi & _).
  exists fs. split; [exact Hfs|].
  eapply list_elem_of_lookup_2, find_index_lookup, Hi.
Qed.

(** X2.  The round trip in the other direction: when no listing names a file
    twice and no file is in the listings of two days, the file after the
    file before [f] is [f], whenever both calls return. *)
Theorem following_of_preceeding (f g h : string) :
  Archive.listings_nodup get_files ->
  Archive.listings_disjoint get_files ->
  get_preceeding_file f = Ok g ->
  get_following_file g = Ok h ->
  h = f.
Proof.
  intros Hnd Hdis Hpre Hfol.
  destruct (following_own_listing g h Hfol) as (gs & Hgs & Hg).
  unfold DataProvider.day_listing in Hgs.
  unfold DataProvider.get_preceeding_file in Hpre.
  apply bind_Ok_inv in Hpre as (fs & Hfs & Hpre).
  apply bind_Ok_inv in Hpre as (iz & Hidx & Hpre).
  apply index_Ok in Hidx as (i & Hi & ->).
  pose proof (find_index_lookup _ _ _ Hi) as Hfi.
  pose proof (find_index_length _ _ _ Hi) as Hlen.
  unfold DataProvider.get_following_file in Hfol.
  rewrite Hgs in Hfol. cbn [bind] in Hfol.
  destruct (Z.eqb_spec (Z.of_nat i) 0) as [E0|Epos].
  - (* [f] opens its day: [g] closes the day before *)
    assert (i = 0%nat) by lia. subst i.
    apply bind_Ok_inv in Hpre as (t_p & Hsub & Hpre).
    apply bind_Ok_inv in Hpre as (prev & Hprev & Hpre).
    rewrite getitem_last in Hpre.
    destruct (last prev) as [g'|] eqn:Hlast; [|discriminate].
    injection Hpre as ->.
    apply sub_one_day in Hsub as [_ Hdp].
    assert (Hsame : day_number (name_to_date g) = day_number t_p)
      by (eapply (Hdis _ _ gs prev g);
          [eassumption.. | eapply last_Some_elem_of, Hlast]).
    destruct (day_key_same_day _ _ Hsame) as [Ey Ed].
    rewrite Ey, Ed, Hprev in Hgs. injection Hgs as <-.
    unfold PyList.index in Hfol. rewrite last_lookup in Hlast.
    rewrite (find_index_NoDup g prev _ (Hnd _ _ _ Hprev) Hlast) in Hfol.
    cbn [bind] in Hfol.
    assert (Hne : prev <> []) by (intros ->; discriminate).
    destruct (Z.eqb_spec (Z.of_nat (pred (length prev))) (Z.of_nat (length prev) - 1))
      as [_|Hno]; [|destruct prev; [contradiction | simpl in Hno; lia]].
    apply bind_Ok_inv in Hfol as (t_n & Hadd & Hfol).
    apply bind_Ok_inv in Hfol as (next & Hnext & Hfol).
    apply add_one_day in Hadd as [_ Hdn].
    assert (Hback : day_number t_n = day_number (name_to_date f)) by lia.
    destruct (day_key_same_day _ _ Hback) as [Ey' Ed'].
    rewrite Ey', Ed', Hfs in Hnext. injection Hnext as <-.
    rewrite getitem_first, head_lookup, Hfi in Hfol. congruence.
  - (* [g] is the entry before [f] in the same day *)
    destruct i as [|i]; [lia|].
    replace (Z.of_nat (S i) - 1) with (Z.of_nat i) in Hpre by lia.
    rewrite getitem_nat in Hpre.
    destruct (fs !! i) as [g'|] eqn:Hgi; [|discriminate].
    injection Hpre as ->.
    assert (Hsame : day_number (name_to_date g) = day_number (name_to_date f))
      by (eapply (Hdis _ _ gs fs g);
          [eassumption.. | eapply list_elem_of_lookup_2, Hgi]).
    destruct (day_key_same_day _ _ Hsame) as [Ey Ed].
    rewrite Ey, Ed, Hfs in Hgs. injection Hgs as <-.
    unfold PyList.index in Hfol.
    rewrite (find_index_NoDup g fs i (Hnd _ _ _ Hfs) Hgi) in Hfol.
    cbn [bind] in Hfol.
    destruct (Z.eqb_spec (Z.of_nat i) (Z.of_nat (length fs) - 1)) as [E|_]; [lia|].
    replace (Z.of_nat i + 1) with (Z.of_nat (S i)) in Hfol by lia.
    rewrite getitem_nat, Hfi in Hfol. congruence.
Qed.

(** The preceding file does not start later. *)
Lemma preceeding_not_later (f g : string) :
  Archive.listings_by_day name_to_date get_files ->
  Archive.listings_chronological name_to_date get_files ->
  get_preceeding_file f = Ok g ->
  name_to_date g <= name_to_date f.
Proof.
  intros Hday Hchr Hpre. unfold DataProvider.get_preceeding_file in Hpre.
  apply bind_Ok_inv in Hpre as (fs & Hfs & Hpre).
  apply bind_Ok_inv in Hpre as (iz & Hidx & Hpre).
  apply index_Ok in Hidx as (i & Hi & ->).
  apply find_index_lookup in Hi.
  destruct (Z.eqb_spec (Z.of_nat i) 0) as [_|Epos].
  - apply bind_Ok_inv in Hpre as (t_p & Hsub & Hpre).
    apply bind_Ok_inv in Hpre as (prev & Hprev & Hpre).
    apply getitem_elem_of in Hpre.
    apply sub_one_day in Hsub as [_ Hdp].
    pose proof (Hday _ _ g Hprev Hpre) as Hg.
    apply Z.lt_le_incl, day_number_lt. lia.
  - destruct i as [|i]; [lia|].
    replace (Z.of_nat (S i) - 1) with (Z.of_nat i) in Hpre by lia.
    rewrite getitem_nat in Hpre.
    destruct (fs !! i) as [g'|] eqn:Hgi; [|discriminate].
    injection Hpre as ->.
    eapply (StronglySorted_lookup not_later fs i (S i)); [| lia | eassumption..].
    apply Sorted_StronglySorted; [intros x y z ? ?; lia|].
    eapply Hchr, Hfs.
Qed.

(** X3.  When every listing is in ascending order of the timestamps and holds
    files of its own day only, the two lookups move in time as their
    names say: the preceding file starts no later, the following file no
    earlier. *)
Theorem adjacent_files_in_order (f g : string) :
  Archive.listings_by_day name_to_date get_files ->
  Archive.listings_chronological name_to_date get_files ->
  (get_preceeding_file f = Ok g -> name_to_date g <= name_to_date f)
  /\ (get_following_file f = Ok g -> name_to_date f <= name_to_date g).
Proof.
  intros Hday Hchr. split.
  - apply preceeding_not_later; assumption.
  - apply (following_not_earlier name_to_date get_files); assumption.
Qed.

End AdjacentFilesMore.

(* ===================================================================== *)
(** ** Further properties of the range query *)

Lemma filter_head {A} (p : A -> bool) (l : list A) (x : A) (r : list A) :
  List.filter p l = x :: r ->
  exists pre post,
    l = pre ++ x :: post /\ Forall (fun y => p y = false) pre /\ p x = true
    /\ r = List.filter p post.
Proof.
  induction l as [|a l IH]; simpl; [discriminate|].
  destruct (p a) eqn:Hpa.
  - intros [= -> <-]. exists [], l. repeat split; [constructor | exact Hpa].
  - intros H. destruct (IH H) as (pre & post & -> & Hpre & Hx & Hr).
    exists (a :: pre), post. repeat split; [constructor; assumption | exact Hx | exact Hr].
Qed.

Lemma filter_nil {A} (p : A -> bool) (l : list A) (x : A) :
  List.filter p l = [] -> x ∈ l -> p x = false.
Proof.
  intros Hnil Hin. destruct (p x) eqn:Hpx; [|reflexivity].
  assert (Hf : In x (List.filter p l))
    by (apply filter_In; split; [apply list_elem_of_In, Hin | exact Hpx]).
  rewrite Hnil in Hf. destruct Hf.
Qed.

Section RangeQueryMore.

Variable name_to_date : string -> datetime.
Variable get_files : Z -> Z -> result (list string).

Local Abbreviation day_listing := (DataProvider.day_listing get_files).
Local Abbreviation get_preceeding_file :=
  (DataProvider.get_preceeding_file name_to_date get_files).
Local Abbreviation get_following_file :=
  (DataProvider.get_following_file name_to_date get_files).
Local Abbreviation range_loop := (DataProvider.range_loop name_to_date get_files).
Local Abbreviation range_finish := (DataProvider.range_finish name_to_date get_files).
Local Abbreviation append_following :=
  (DataProvider.append_following name_to_date get_files).
Local Abbreviation get_files_in_range :=
  (DataProvider.get_files_in_range name_to_date get_files).
Local Abbreviation selected := (RangeQuery.selected name_to_date).
Local Abbreviation in_window := (RangeQuery.in_window name_to_date).
Local Abbreviation after := (RangeQuery.after name_to_date).
Local Abbreviation visit := (RangeQuery.visit get_files).
Local Abbreviation loop_exit := (RangeQuery.loop_exit name_to_date).
Local Abbreviation not_later := (fun a b : string => name_to_date a <= name_to_date b).

(** X4.  An empty or reversed range never returns: the loop does not run,
    [pos1] stays unbound and the test after the loop raises
    [UnboundLocalError]; with [t0_inclusive] the earlier [files[0]] raises
    [IndexError].  No listing is asked for. *)
Theorem degenerate_range_raises (t0 t1 : datetime) :
  t1 <= t0 ->
  get_files_in_range t0 t1 false = Raise UnboundLocalError
  /\ get_files_in_range t0 t1 true = Raise IndexError.
Proof.
  intros Hle. rewrite !get_files_in_range_eq.
  rewrite (days_spanned_zero t0 t1 Hle). split; reflexivity.
Qed.

Lemma in_window_bounds (t0 t1 : datetime) (f : string) :
  in_window t0 t1 f = true <-> t0 <= name_to_date f /\ name_to_date f <= t1.
Proof.
  unfold RangeQuery.in_window. rewrite andb_true_iff, !Z.leb_le. reflexivity.
Qed.

Lemma range_finish_contains (t0_inclusive : bool) (st : DataProvider.loop_state)
    (l : list string) (f : string) :
  range_finish t0_inclusive st = Ok l ->
  f ∈ DataProvider.files st -> f ∈ l.
Proof.
  unfold DataProvider.range_finish. intros H Hin.
  apply bind_Ok_inv in H as (fl & Hfl & H).
  assert (Hfl' : f ∈ fl).
  { unfold DataProvider.prepend_preceeding in Hfl.
    destruct t0_inclusive; [|injection Hfl as <-; exact Hin].
    apply bind_Ok_inv in Hfl as (first & _ & Hfl).
    apply bind_Ok_inv in Hfl as (p & _ & [= <-]). right. exact Hin. }
  apply append_following_shape in H as [->|(lastf & g & _ & _ & ->)];
    [exact Hfl' | apply elem_of_app; left; exact Hfl'].
Qed.

(** X5.  On the days the loop visits the selection is complete: a file of the
    listing of a visited day whose timestamp is in [[t0, t1]] is in the
    list that is returned, with or without [t0_inclusive]. *)
Theorem range_query_complete (t0 t1 : datetime) (t0_inclusive : bool)
    (l fs : list string) (j : nat) (f : string) :
  get_files_in_range t0 t1 t0_inclusive = Ok l ->
  (j < DataProvider.days_spanned t0 t1)%nat ->
  day_listing (t0 + days (Z.of_nat j)) = Ok fs ->
  f ∈ fs ->
  t0 <= name_to_date f -> name_to_date f <= t1 ->
  f ∈ l.
Proof.
  intros Hquery Hj Hfs Hin H0 H1. rewrite get_files_in_range_eq in Hquery.
  apply bind_Ok_inv in Hquery as (ls & Hls & Hfin).
  destruct (visit_Ok get_files _ _ _ Hls) as [Hlen Hall].
  destruct (lookup_lt_is_Some_2 ls j) as [fs' Hfs']; [lia|].
  pose proof (Hall j fs' Hfs') as Hsame. rewrite Hfs in Hsame.
  injection Hsame as <-.
  apply (range_finish_contains _ _ _ _ Hfin). simpl.
  apply list_elem_of_In, in_concat. exists (selected t0 t1 fs). split.
  - apply in_map, list_elem_of_In. eapply list_elem_of_lookup_2, Hfs'.
  - apply filter_In. split; [apply list_elem_of_In, Hin|].
    apply in_window_bounds. auto.
Qed.

(** X6.  When nothing is selected and the call without [t0_inclusive] returns
    the empty list, the call with [t0_inclusive] does not return: it
    raises [IndexError] at [files[0]]. *)
Theorem inclusive_without_selection_raises (t0 t1 : datetime) :
  get_files_in_range t0 t1 false = Ok [] ->
  get_files_in_range t0 t1 true = Raise IndexError.
Proof.
  rewrite !get_files_in_range_eq. intros H.
  apply bind_Ok_inv in H as (ls & Hls & H). rewrite Hls. cbn [bind].
  unfold DataProvider.range_finish in *.
  cbn [DataProvider.prepend_preceeding bind] in H.
  assert (Hnil : DataProvider.files
                   (loop_exit t0 t1 (DataProvider.range_start t0)
                      (DataProvider.days_spanned t0 t1) ls) = []).
  { apply append_following_shape in H as [H|(lastf & g & _ & _ & H)].
    - symmetry. exact H.
    - symmetry in H. apply app_eq_nil in H as [_ H]. discriminate. }
  unfold DataProvider.prepend_preceeding. rewrite Hnil. reflexivity.
Qed.

(** X7.  The defect behind the empty archive, in general: whenever the listing
    of the last day the loop visits is empty, the call raises
    [IndexError] at [pos1[-1]], also when files of earlier days were
    selected. *)
Theorem last_day_empty_raises (t0 t1 : datetime) (st : DataProvider.loop_state) :
  t0 < t1 ->
  range_loop (DataProvider.days_spanned t0 t1) t0 t1 (DataProvider.range_start t0)
  = Some (Ok st) ->
  day_listing (t0 + days (Z.of_nat (DataProvider.days_spanned t0 t1) - 1)) = Ok [] ->
  get_files_in_range t0 t1 false = Raise IndexError.
Proof.
  intros Hlt Hrun Hempty.
  destruct (range_loop_exit name_to_date get_files t0 t1 st Hlt Hrun)
    as (ls & fs & Hls & Hst & _ & Hfs & _ & Hpos).
  rewrite Hempty in Hfs. injection Hfs as <-.
  rewrite get_files_in_range_eq, Hls. cbn [bind]. rewrite <- Hst.
  unfold DataProvider.range_finish. cbn [DataProvider.prepend_preceeding bind].
  unfold DataProvider.append_following. rewrite Hpos. reflexivity.
Qed.

(** The first selected file: the first file in the window, on the first
    visited day that has one. *)
Lemma first_selected (t0 t1 : datetime) (ls : list (list string)) (f : string)
    (rest : list string) :
  concat (map (selected t0 t1) ls) = f :: rest ->
  exists (j : nat) (pre post : list string),
    ls !! j = Some (pre ++ f :: post)
    /\ Forall (fun x => in_window t0 t1 x = false) pre
    /\ in_window t0 t1 f = true
    /\ forall (i : nat) (fs : list string),
         (i < j)%nat -> ls !! i = Some fs -> selected t0 t1 fs = [].
Proof.
  induction ls as [|fs0 ls IH]; simpl; [discriminate|].
  destruct (selected t0 t1 fs0) as [|x r] eqn:Hsel0.
  - simpl. intros H. destruct (IH H) as (j & pre & post & Hj & Hpre & Hf & Hbefore).
    exists (S j), pre, post. repeat split; try assumption.
    intros [|i] fs Hi Hfs; simpl in Hfs.
    + injection Hfs as <-. exact Hsel0.
    + apply (Hbefore i fs); [lia | exact Hfs].
  - simpl. intros [= -> _].
    apply filter_head in Hsel0 as (pre & post & -> & Hpre & Hf & _).
    exists 0%nat, pre, post. repeat split; try assumption.
    intros i fs Hi. lia.
Qed.

(** X8.  What [t0_inclusive] is for.  When every listing is in ascending order
    of the timestamps and holds files of its own day only, a call with
    [t0_inclusive] that returns starts with a file that begins strictly
    before [t0], the preceding file of the second entry, which is the
    first file at or after [t0]. *)
Theorem inclusive_starts_before_t0 (t0 t1 : datetime) (l : list string) :
  Archive.listings_by_day name_to_date get_files ->
  Archive.listings_chronological name_to_date get_files ->
  get_files_in_range t0 t1 true = Ok l ->
  exists p f rest,
    l = p :: f :: rest
    /\ get_preceeding_file f = Ok p
    /\ name_to_date p < t0
    /\ t0 <= name_to_date f.
Proof.
  intros Hday Hchr Hquery. rewrite get_files_in_range_eq in Hquery.
  apply bind_Ok_inv in Hquery as (ls & Hls & Hfin).
  destruct (visit_Ok get_files _ _ _ Hls) as [_ Hall].
  unfold DataProvider.range_finish, DataProvider.prepend_preceeding in Hfin.
  apply bind_Ok_inv in Hfin as (fl & Hfl & Hfin).
  apply bind_Ok_inv in Hfl as (f & Hf & Hfl).
  apply bind_Ok_inv in Hfl as (p & Hp & [= <-]).
  unfold RangeQuery.loop_exit in Hf, Hfin.
  cbn [DataProvider.files DataProvider.range_start app] in Hf, Hfin.
  rewrite getitem_first in Hf.
  destruct (concat (map (selected t0 t1) ls)) as [|f' sel'] eqn:Hsel;
    [discriminate|].
  injection Hf as ->.
  exists p, f.
  assert (Hshape : exists rest, l = p :: f :: rest).
  { apply append_following_shape in Hfin as [->|(lastf & g & _ & _ & ->)]; eauto. }
  destruct Hshape as [rest ->]. exists rest.
  destruct (first_selected t0 t1 ls f sel' Hsel)
    as (j & pre & post & Hj & Hpre & Hwin & Hbefore).
  apply in_window_bounds in Hwin as [Hf0 Hf1].
  split; [reflexivity|]. split; [exact Hp|]. split; [|exact Hf0].
  pose proof (Hall j _ Hj) as Hfs. unfold DataProvider.day_listing in Hfs.
  assert (Hfday : day_number (name_to_date f)
                  = day_number (t0 + days (Z.of_nat j))).
  { apply (Hday _ _ f Hfs). apply elem_of_app. right. left. }
  assert (Hout : forall x, in_window t0 t1 x = false ->
                   name_to_date x <= name_to_date f -> name_to_date x < t0).
  { intros x Hx Hxf. unfold RangeQuery.in_window in Hx.
    apply andb_false_iff in Hx as [Hx|Hx]; apply Z.leb_gt in Hx; lia. }
  unfold DataProvider.get_preceeding_file in Hp.
  destruct (day_key_same_day _ _ Hfday) as [Ey Ed].
  rewrite Ey, Ed, Hfs in Hp. cbn [bind] in Hp.
  unfold PyList.index in Hp. rewrite find_index_middle in Hp.
  2: { intros Hin. rewrite Forall_forall in Hpre. apply Hpre in Hin.
       rewrite (proj2 (in_window_bounds t0 t1 f)) in Hin by auto. discriminate. }
  cbn [bind] in Hp.
  destruct (Z.eqb_spec (Z.of_nat (length pre)) 0) as [E0|Epos].
  - (* [f] opens its day: [p] closes the day before *)
    apply bind_Ok_inv in Hp as (t_p & Hsub & Hp).
    apply bind_Ok_inv in Hp as (prev & Hprev & Hp).
    apply getitem_elem_of in Hp. apply sub_one_day in Hsub as [_ Hdp].
    pose proof (Hday _ _ p Hprev Hp) as Hpday.
    rewrite day_number_shift in Hfday.
    destruct j as [|j].
    + apply day_number_lt. lia.
    + destruct (lookup_lt_is_Some_2 ls j) as [fs' Hfs'];
        [apply lookup_lt_Some in Hj; lia|].
      pose proof (Hall j fs' Hfs') as Hlist. unfold DataProvider.day_listing in Hlist.
      assert (Hsame : day_number t_p = day_number (t0 + days (Z.of_nat j)))
        by (rewrite day_number_shift; lia).
      destruct (day_key_same_day _ _ Hsame) as [Ey' Ed'].
      rewrite Ey', Ed', Hlist in Hprev. injection Hprev as <-.
      apply Hout.
      * apply (filter_nil _ fs'); [|exact Hp]. apply (Hbefore j); [lia | exact Hfs'].
      * apply Z.lt_le_incl, day_number_lt. lia.
  - (* [p] is the entry before [f] in the listing of the day *)
    destruct pre as [|q pre _] using rev_ind; [simpl in Epos; lia|].
    rewrite length_app in Hp. simpl in Hp.
    replace (Z.of_nat (length pre + 1) - 1) with (Z.of_nat (length pre)) in Hp by lia.
    rewrite getitem_nat in Hp.
    rewrite <- app_assoc in Hp, Hfs. simpl in Hp, Hfs.
    rewrite list_lookup_middle in Hp by reflexivity. injection Hp as <-.
    apply Forall_app in Hpre as [_ Hq]. apply Forall_inv in Hq.
    apply Hout; [exact Hq|].
    assert (Hs : StronglySorted not_later (pre ++ q :: f :: post)).
    { apply Sorted_StronglySorted; [intros x y z ? ?; lia|]. eapply Hchr, Hfs. }
    apply StronglySorted_app_1_r, StronglySorted_inv in Hs as [_ Hs].
    apply Forall_inv in Hs. exact Hs.
Qed.

End RangeQueryMore.

(* ===================================================================== *)
(** ** Further properties of the file at a date *)

Section NearestFileMore.

Variable name_to_date : string -> datetime.
Variable get_files : Z -> Z -> result (list string).
Variable argsort : list Float64.float -> list nat.

Local Abbreviation day_listing := (DataProvider.day_listing get_files).
Local Abbreviation get_file_by_date :=
  (DataProvider.get_file_by_date name_to_date get_files argsort).

Lemma file_by_date_source (t : datetime) (f : string) :
  get_file_by_date t = Ok f ->
  exists t_p prev today,
    DateTime.sub t (days 1) = Ok t_p
    /\ day_listing t_p = Ok prev
    /\ day_listing t = Ok today
    /\ (last prev = Some f \/ f ∈ today).
Proof.
  unfold DataProvider.get_file_by_date. intros H.
  apply bind_Ok_inv in H as (t_p & Hsub & H).
  apply bind_Ok_inv in H as (prev & Hprev & H).
  apply bind_Ok_inv in H as (today & Htoday & H).
  apply bind_Ok_inv in H as (sorted & _ & H).
  apply bind_Ok_inv in H as (ind & _ & H).
  apply getitem_elem_of in H. rewrite last_slice_last in H.
  exists t_p, prev, today. repeat split; try assumption.
  apply elem_of_app in H as [H|H]; [left | right; exact H].
  destruct (last prev) as [x|]; [|inversion H].
  apply list_elem_of_singleton in H. congruence.
Qed.

(** X9.  Whatever [argsort] returns, a file that [get_file_by_date(t)] returns
    is the last file of the day before [t] or a file of the day of [t].
    So, when listings hold files of their own day only, the file starts
    on the day of [t] or on the day before: an older file is never
    found, also when it is the last one that starts before [t]. *)
Theorem file_by_date_reach (t : datetime) (f : string) :
  get_file_by_date t = Ok f ->
  (exists t_p prev today,
     DateTime.sub t (days 1) = Ok t_p
     /\ day_listing t_p = Ok prev
     /\ day_listing t = Ok today
     /\ (last prev = Some f \/ f ∈ today))
  /\ (Archive.listings_by_day name_to_date get_files ->
      day_number t - 1 <= day_number (name_to_date f)
      /\ day_number (name_to_date f) <= day_number t).
Proof.
  intros H. pose proof (file_by_date_source t f H) as Hsrc.
  split; [exact Hsrc|].
  destruct Hsrc as (t_p & prev & today & Hsub & Hprev & Htoday & Hin).
  intros Hday. apply sub_one_day in Hsub as [_ Hdp].
  destruct Hin as [Hlast|Hin].
  - apply last_Some_elem_of in Hlast.
    rewrite (Hday _ _ f Hprev Hlast). lia.
  - rewrite (Hday _ _ f Htoday Hin). lia.
Qed.

End NearestFileMore.

(* ===================================================================== *)
(** ** No file is returned twice *)

Lemma filter_last {A} (p : A -> bool) (l : list A) (x : A) :
  last (List.filter p l) = Some x ->
  exists pre post,
    l = pre ++ x :: post /\ Forall (fun y => p y = false) post /\ p x = true.
Proof.
  induction l as [|a l IH]; simpl; [discriminate|].
  destruct (last (List.filter p l)) as [y|] eqn:Hlast.
  - intros H.
    assert (Hy : y = x).
    { destruct (p a); [|congruence].
      rewrite last_cons, Hlast in H. congruence. }
    subst y. destruct (IH eq_refl) as (pre & post & -> & Hpost & Hx).
    exists (a :: pre), post. auto.
  - apply last_None in Hlast. rewrite Hlast.
    destruct (p a) eqn:Hpa; [|discriminate].
    intros [= <-]. exists [], l. repeat split; [|exact Hpa].
    apply Forall_forall. intros y Hy. apply (filter_nil p l y Hlast Hy).
Qed.

Section RangeQueryDistinct.

Variable name_to_date : string -> datetime.
Variable get_files : Z -> Z -> result (list string).

Local Abbreviation day_listing := (DataProvider.day_listing get_files).
Local Abbreviation get_following_file :=
  (DataProvider.get_following_file name_to_date get_files).
Local Abbreviation get_files_in_range :=
  (DataProvider.get_files_in_range name_to_date get_files).
Local Abbreviation selected := (RangeQuery.selected name_to_date).
Local Abbreviation in_window := (RangeQuery.in_window name_to_date).
Local Abbreviation visit := (RangeQuery.visit get_files).

Lemma selected_origin (t0 t1 : datetime) (ls : list (list string)) (f : string) :
  f ∈ concat (map (selected t0 t1) ls) ->
  exists (i : nat) (fs : list string),
    ls !! i = Some fs /\ f ∈ fs /\ in_window t0 t1 f = true.
Proof.
  intros Hin. apply list_elem_of_In, in_concat in Hin as (sel & Hsel & Hin).
  apply in_map_iff in Hsel as (fs & <- & Hfs).
  apply filter_In in Hin as [Hin Hwin].
  apply list_elem_of_In, list_elem_of_lookup in Hfs as [i Hi].
  exists i, fs. repeat split; [exact Hi | apply list_elem_of_In, Hin | exact Hwin].
Qed.

(** The last selected file: the last file in the window, on the last
    visited day that has one. *)
Lemma last_selected (t0 t1 : datetime) (ls : list (list string)) (x : string) :
  last (concat (map (selected t0 t1) ls)) = Some x ->
  exists (j : nat) (pre post : list string),
    ls !! j = Some (pre ++ x :: post)
    /\ Forall (fun y => in_window t0 t1 y = false) post
    /\ in_window t0 t1 x = true
    /\ forall (i : nat) (fs : list string),
         (j < i)%nat -> ls !! i = Some fs -> selected t0 t1 fs = [].
Proof.
  induction ls as [|fs0 ls IH]; simpl; [discriminate|].
  rewrite last_app.
  destruct (last (concat (map (selected t0 t1) ls))) as [y|] eqn:Hlast.
  - intros [= ->]. destruct (IH eq_refl) as (j & pre & post & Hj & Hpost & Hx & Hafter).
    exists (S j), pre, post. repeat split; try assumption.
    intros [|i] fs Hi Hfs; [lia|]. apply (Hafter i fs); [lia | exact Hfs].
  - intros Hx. apply last_None in Hlast.
    apply filter_last in Hx as (pre & post & -> & Hpost & Hx).
    exists 0%nat, pre, post. repeat split; try assumption.
    intros [|i] fs Hi Hfs; [lia|]. simpl in Hfs.
    apply concat_nil_Forall in Hlast. rewrite List.Forall_forall in Hlast.
    apply Hlast, in_map, list_elem_of_In. eapply list_elem_of_lookup_2, Hfs.
Qed.

Lemma selected_distinct (t0 t1 : datetime) (ls : list (list string)) (t : datetime) :
  Archive.listings_by_day name_to_date get_files ->
  Archive.listings_nodup get_files ->
  (forall (j : nat) (fs : list string), ls !! j = Some fs ->
     day_listing (t + days (Z.of_nat j)) = Ok fs) ->
  NoDup (concat (map (selected t0 t1) ls))
  /\ Forall (fun f => day_number t <= day_number (name_to_date f))
       (concat (map (selected t0 t1) ls)).
Proof.
  intros Hday Hnd. revert t. induction ls as [|fs ls IH]; intros t Hls; simpl.
  - split; constructor.
  - assert (Hfs : day_listing (t + days (Z.of_nat 0)) = Ok fs) by (apply Hls; reflexivity).
    assert (Hhere : forall f, f ∈ selected t0 t1 fs ->
                      day_number (name_to_date f) = day_number t).
    { intros f Hf. apply list_elem_of_In, filter_In in Hf as [Hf _].
      rewrite (Hday _ _ f Hfs) by (apply list_elem_of_In, Hf).
      rewrite day_number_shift. simpl. lia. }
    destruct (IH (t + days 1)) as [Hrest Hlater].
    { intros j gs Hj.
      replace (t + days 1 + days (Z.of_nat j)) with (t + days (Z.of_nat (S j)))
        by (unfold days; lia).
      apply Hls. exact Hj. }
    rewrite day_number_shift in Hlater. rewrite Forall_forall in Hlater.
    split.
    + apply NoDup_app. split; [|split; [|exact Hrest]].
      * apply NoDup_ListNoDup, List.NoDup_filter, NoDup_ListNoDup.
        eapply Hnd, Hfs.
      * intros f H1 H2. apply Hhere in H1. apply Hlater in H2. lia.
    + apply Forall_app. split; apply Forall_forall; intros f Hf.
      * rewrite (Hhere f Hf). lia.
      * apply Hlater in Hf. lia.
Qed.

(** X10.  When no listing names a file twice and every listing holds files of
    its own day only, the list returned without [t0_inclusive] names no
    file twice: the trailing entry is not one of the selected files. *)
Theorem range_query_no_repeats (t0 t1 : datetime) (l : list string) :
  Archive.listings_by_day name_to_date get_files ->
  Archive.listings_nodup get_files ->
  get_files_in_range t0 t1 false = Ok l ->
  NoDup l.
Proof.
  intros Hday Hnd Hquery. rewrite get_files_in_range_eq in Hquery.
  apply bind_Ok_inv in Hquery as (ls & Hls & Hfin).
  destruct (visit_Ok get_files _ _ _ Hls) as [_ Hall].
  unfold DataProvider.range_finish, DataProvider.prepend_preceeding in Hfin.
  cbn [bind] in Hfin. unfold RangeQuery.loop_exit in Hfin.
  cbn [DataProvider.files DataProvider.pos1 DataProvider.range_start app] in Hfin.
  destruct (selected_distinct t0 t1 ls t0 Hday Hnd Hall) as [Hsel _].
  apply append_following_shape in Hfin as [->|(x & g & Hlast & Hg & ->)];
    [exact Hsel|].
  apply NoDup_app. split; [exact Hsel|]. split; [|apply NoDup_singleton].
  intros g' Hin ->%list_elem_of_singleton.
  destruct (selected_origin t0 t1 ls g Hin) as (i & fs' & Hi & Hgfs & Hgwin).
  destruct (last_selected t0 t1 ls x Hlast)
    as (j & pre & post & Hj & Hpost & Hxwin & Hafter).
  pose proof (Hall j _ Hj) as Hfs. unfold DataProvider.day_listing in Hfs.
  assert (Hxday : day_number (name_to_date x)
                  = day_number (t0 + days (Z.of_nat j))).
  { apply (Hday _ _ x Hfs). apply elem_of_app. right. left. }
  destruct (day_key_same_day _ _ Hxday) as [Ey Ed].
  unfold DataProvider.get_following_file in Hg.
  rewrite Ey, Ed, Hfs in Hg. cbn [bind] in Hg.
  unfold PyList.index in Hg. rewrite find_index_middle in Hg.
  2: { pose proof (Hnd _ _ _ Hfs) as Hnodup.
       apply NoDup_app in Hnodup as (_ & Hsep & _).
       intros Hpre. apply (Hsep x Hpre). left. }
  cbn [bind] in Hg.
  destruct (Z.eqb_spec (Z.of_nat (length pre))
              (Z.of_nat (length (pre ++ x :: post)) - 1)) as [Elast|Enot].
  - (* [g] opens the next day, where nothing was selected *)
    apply bind_Ok_inv in Hg as (t_n & Hadd & Hg).
    apply bind_Ok_inv in Hg as (next & Hnext & Hg).
    apply getitem_elem_of in Hg. apply add_one_day in Hadd as [_ Hdn].
    pose proof (Hday _ _ g Hnext Hg) as Hgday.
    pose proof (Hall i fs' Hi) as Hfs'.
    pose proof (Hday _ _ g Hfs' Hgfs) as Hgday'.
    rewrite day_number_shift in Hgday', Hxday.
    destruct (Nat.lt_ge_cases j i) as [Hlt|Hge]; [|lia].
    assert (Hnone : selected t0 t1 fs' = []) by (apply (Hafter i); assumption).
    rewrite (filter_nil _ fs' g Hnone Hgfs) in Hgwin. discriminate.
  - (* [g] follows [x] in its listing, outside the window *)
    replace (Z.of_nat (length pre) + 1) with (Z.of_nat (length pre + 1)) in Hg by lia.
    rewrite getitem_nat in Hg.
    destruct ((pre ++ x :: post) !! (length pre + 1)%nat) as [g'|] eqn:Hgi;
      [|discriminate].
    injection Hg as ->.
    rewrite lookup_app_r, Nat.add_comm, Nat.add_sub in Hgi by lia.
    simpl in Hgi. apply list_elem_of_lookup_2 in Hgi.
    rewrite Forall_forall in Hpost. rewrite (Hpost g Hgi) in Hgwin. discriminate.
Qed.

End RangeQueryDistinct.

(* ===================================================================== *)
(** ** Further properties of the ICARE provider *)

Lemma registry_lookup_contains (items : list (string * list string)) (name : string) :
  Registry.contains (PyDictOf items) name = true ->
  exists parts, Registry.lookup (PyDictOf items) name = Ok parts
                /\ (name, parts) ∈ items.
Proof.
  simpl. intros H. apply existsb_exists in H as (kv & Hin & Hkey).
  destruct (List.find _ items) as [kv'|] eqn:Hfind.
  - apply find_some in Hfind as [Hin' Hkey']. apply String.eqb_eq in Hkey'.
    exists (snd kv'). split; [reflexivity|]. subst name.
    apply list_elem_of_In. destruct kv'. exact Hin'.
  - exfalso. apply (find_none _ _ Hfind) in Hin. congruence.
Qed.

(** X11.  [IcareProvider(product)] has two outcomes.  For a product whose name
    is a key of [icare_products] it returns an instance with the product,
    the path joined from the components of that key and an empty cache;
    the lookup after the membership test cannot fail.  For any other
    product it raises [ValueError] with a message that starts with the
    name. *)
Theorem icare_init_outcome (p : product) :
  match IcareProvider.init p with
  | Ok s =>
      exists parts,
        Registry.lookup IcareProvider.icare_products (product_name p) = Ok parts
        /\ IcareProvider.self_product s = p
        /\ IcareProvider.product_path s = path_join parts
        /\ IcareProvider.cache s = ∅
        /\ IcareProvider.connections s = 0%nat
        /\ IcareProvider.retrieved s = []
  | Raise e =>
      Registry.contains IcareProvider.icare_products (product_name p) = false
      /\ exists msg, e = ValueError (String.append (product_name p) msg)
  end.
Proof.
  unfold IcareProvider.init, IcareProvider.icare_products.
  destruct (Registry.contains _ _) eqn:Hin; cbn [negb].
  - destruct (registry_lookup_contains _ _ Hin) as (parts & Hparts & _).
    rewrite Hparts. cbn [bind]. exists parts. repeat split.
  - cbn [Registry.keys bind]. split; [reflexivity|]. eauto.
Qed.

Lemma substring_skip (a b : string) (n : nat) :
  String.substring (String.length a) n (String.append a b) = String.substring 0 n b.
Proof. induction a as [|c a IH]; [reflexivity | exact IH]. Qed.

Lemma string_length_append (a b : string) :
  String.length (String.append a b) = (String.length a + String.length b)%nat.
Proof. induction a as [|c a IH]; simpl; [reflexivity | rewrite IH; reflexivity]. Qed.

Lemma substring_tail_hdf (k : nat) (s : string) :
  String.length s = (k + 3)%nat ->
  String.substring k 3 s = "hdf"%string ->
  exists stem, s = String.append stem "hdf".
Proof.
  revert s. induction k as [|k IH]; intros s Hlen Hsub.
  - destruct s as [|c1 [|c2 [|c3 [|c4 s]]]]; try discriminate.
    simpl in Hsub. exists ""%string. simpl. exact Hsub.
  - destruct s as [|c s]; [discriminate|]. simpl in Hlen, Hsub.
    destruct (IH s) as [stem ->]; [lia | exact Hsub |].
    exists (String c stem). reflexivity.
Qed.

(** [name[-3:] == "hdf"] holds for the names that end in [hdf], with or
    without a dot in front, in lower case only. *)
Lemma ends_with_hdf_suffix (name : string) :
  IcareProvider.ends_with_hdf name = true
  <-> exists stem, name = String.append stem "hdf".
Proof.
  unfold IcareProvider.ends_with_hdf. split.
  - intros H. apply String.eqb_eq in H.
    destruct (Nat.lt_ge_cases (String.length name) 3) as [Hshort|Hlong].
    + exfalso. replace (String.length name - 3)%nat with 0%nat in H by lia.
      destruct name as [|c1 [|c2 [|c3 s]]]; simpl in *; try discriminate; lia.
    + apply (substring_tail_hdf (String.length name - 3)); [lia | exact H].
  - intros [stem ->]. rewrite string_length_append. simpl String.length.
    rewrite Nat.add_sub, substring_skip. reflexivity.
Qed.

Lemma hdf_files_str (names : list string) :
  IcareProvider.hdf_files (map IcareProvider.AStr names)
  = Ok (List.filter IcareProvider.ends_with_hdf names).
Proof.
  induction names as [|n names IH]; [reflexivity|].
  simpl. rewrite IH. cbn [bind]. destruct (IcareProvider.ends_with_hdf n); reflexivity.
Qed.

Lemma hdf_files_Ok (listing : list IcareProvider.atom) (fs : list string) :
  IcareProvider.hdf_files listing = Ok fs ->
  exists names, listing = map IcareProvider.AStr names.
Proof.
  revert fs. induction listing as [|[name|n] listing IH]; intros fs H.
  - exists []. reflexivity.
  - simpl in H. apply bind_Ok_inv in H as (fs' & Hfs' & _).
    destruct (IH fs' Hfs') as [names ->]. exists (name :: names). reflexivity.
  - discriminate.
Qed.

Lemma hdf_files_int (listing : list IcareProvider.atom) (n : Z) :
  IcareProvider.AInt n ∈ listing ->
  IcareProvider.hdf_files listing = Raise TypeError.
Proof.
  induction listing as [|[name|m] listing IH]; intros Hin.
  - inversion Hin.
  - apply elem_of_cons in Hin as [Hin|Hin]; [discriminate|].
    simpl. rewrite (IH Hin). reflexivity.
  - reflexivity.
Qed.

Section ListingCacheMore.

Variable server : nat -> string -> IcareProvider.ftp_reply.
Variable day_directory : string -> Z -> Z -> result string.

Local Abbreviation ftp_listing_to_list := (IcareProvider.ftp_listing_to_list server).
Local Abbreviation get_files := (IcareProvider.get_files server day_directory).

(** X12.  What [get_files] returns is what the cache holds for the directory
    of the day, filtered: the names that end in [hdf], in the order of the
    listing, and nothing else. *)
Theorem get_files_keeps_hdf_names (year day : Z) (s s' : IcareProvider.instance)
    (fs : list string) :
  get_files year day s = (Ok fs, s') ->
  exists path names,
    day_directory (IcareProvider.product_path s) year day = Ok path
    /\ IcareProvider.cache s' !! path = Some (map IcareProvider.AStr names)
    /\ fs = List.filter IcareProvider.ends_with_hdf names
    /\ forall f, f ∈ fs <-> f ∈ names /\ exists stem, f = String.append stem "hdf".
Proof.
  unfold IcareProvider.get_files.
  destruct (day_directory _ year day) as [path|e]; [|discriminate].
  destruct (ftp_listing_to_list path IcareProvider.str s) as [r s0] eqn:Hl.
  intros [= Hr <-]. destruct r as [listing|e]; [|discriminate]. cbn [bind] in Hr.
  destruct (ftp_listing_keeps server _ _ _ _ _ Hl) as (_ & _ & Hstored).
  destruct (hdf_files_Ok _ _ Hr) as [names ->].
  rewrite hdf_files_str in Hr. injection Hr as <-.
  exists path, names. split; [reflexivity|]. split; [apply Hstored; reflexivity|].
  split; [reflexivity|]. intros f.
  rewrite <- ends_with_hdf_suffix, !list_elem_of_In, filter_In. reflexivity.
Qed.

(** X13.  Failures are not cached.  When the directory of the day is not in the
    cache and the server does not deliver a listing, [get_files] raises,
    one connection has been opened and the cache is as before; the next
    call asks the server again and returns what it delivers then. *)
Theorem failed_listing_is_retried (year day : Z) (s : IcareProvider.instance)
    (path : string) (names : list string) :
  day_directory (IcareProvider.product_path s) year day = Ok path ->
  IcareProvider.cache s !! path = None ->
  (forall l, server (IcareProvider.connections s) path <> IcareProvider.Listing l) ->
  server (S (IcareProvider.connections s)) path = IcareProvider.Listing names ->
  exists e s1 s2,
    get_files year day s = (Raise e, s1)
    /\ IcareProvider.cache s1 = IcareProvider.cache s
    /\ IcareProvider.connections s1 = S (IcareProvider.connections s)
    /\ get_files year day s1
       = (Ok (List.filter IcareProvider.ends_with_hdf names), s2)
    /\ IcareProvider.connections s2 = S (S (IcareProvider.connections s)).
Proof.
  intros Hdir Hmiss Hfail Hnext.
  assert (Hfirst : exists e s1,
            ftp_listing_to_list path IcareProvider.str s = (Raise e, s1)
            /\ IcareProvider.product_path s1 = IcareProvider.product_path s
            /\ IcareProvider.cache s1 = IcareProvider.cache s
            /\ IcareProvider.connections s1 = S (IcareProvider.connections s)).
  { unfold IcareProvider.ftp_listing_to_list. rewrite Hmiss.
    destruct (server _ path) as [| | | | |l'|l] eqn:Hreply;
      try (eexists _, _; split; [reflexivity|]; repeat split; reflexivity).
    exfalso. exact (Hfail l eq_refl). }
  destruct Hfirst as (e & s1 & He & Hpp & Hcache & Hconn).
  exists e, s1.
  eexists. split; [|split; [exact Hcache|split; [exact Hconn|]]].
  - unfold IcareProvider.get_files. rewrite Hdir, He. reflexivity.
  - unfold IcareProvider.get_files. rewrite Hpp, Hdir.
    unfold IcareProvider.ftp_listing_to_list.
    rewrite Hcache, Hmiss, Hconn, Hnext, mapM_str. cbn [bind].
    rewrite hdf_files_str. split; [reflexivity|]. simpl. rewrite Hconn. reflexivity.
Qed.

(** X14.  The cache is keyed by the path alone.  A listing that a direct call
    of [__ftp_listing_to_list__] stored with a converter that yields
    integers (the default, [int]) is handed to [get_files] as it is:
    [get_files] for that directory then raises [TypeError] at
    [name[-3:]], without asking the server. *)
Theorem cached_integers_break_get_files (year day : Z) (path : string)
    (t : string -> result IcareProvider.atom) (s0 s1 : IcareProvider.instance)
    (listing : list IcareProvider.atom) (n : Z) :
  ftp_listing_to_list path t s0 = (Ok listing, s1) ->
  IcareProvider.AInt n ∈ listing ->
  day_directory (IcareProvider.product_path s1) year day = Ok path ->
  get_files year day s1 = (Raise TypeError, s1).
Proof.
  intros Hcall Hint Hdir.
  destruct (ftp_listing_keeps server _ _ _ _ _ Hcall) as (_ & _ & Hstored).
  unfold IcareProvider.get_files. rewrite Hdir.
  rewrite (ftp_listing_cached server path _ s1 listing) by (apply Hstored; reflexivity).
  cbn [bind]. rewrite (hdf_files_int listing n Hint). reflexivity.
Qed.

(** X15.  A listing whose conversion raises is not stored, although it was
    retrieved: the same call again retrieves it again.  Only [get_files],
    whose converter [str] never raises, retrieves each listing once. *)
Theorem failed_conversion_retrieves_again (path : string)
    (t : string -> result IcareProvider.atom) (s : IcareProvider.instance)
    (names : list string) (e : exn) :
  IcareProvider.cache s !! path = None ->
  server (IcareProvider.connections s) path = IcareProvider.Listing names ->
  server (S (IcareProvider.connections s)) path = IcareProvider.Listing names ->
  PyList.mapM t names = Raise e ->
  exists s1 s2,
    ftp_listing_to_list path t s = (Raise e, s1)
    /\ IcareProvider.cache s1 = IcareProvider.cache s
    /\ ftp_listing_to_list path t s1 = (Raise e, s2)
    /\ IcareProvider.retrieved s2 = IcareProvider.retrieved s ++ [path; path].
Proof.
  intros Hmiss Hfirst Hsecond Hconv.
  eexists. eexists. split; [|split; [|split]].
  - unfold IcareProvider.ftp_listing_to_list. rewrite Hmiss, Hfirst, Hconv. reflexivity.
  - reflexivity.
  - unfold IcareProvider.ftp_listing_to_list.
    cbn [IcareProvider.note_retrieved IcareProvider.connect IcareProvider.cache
         IcareProvider.connections].
    rewrite Hmiss, Hsecond, Hconv. reflexivity.
  - simpl. rewrite <- app_assoc. reflexivity.
Qed.

End ListingCacheMore.

(* ===================================================================== *)
(** ** The calendar, from a year and a day of the year *)

Lemma days_before_next_year (y : Z) :
  days_before_year (y + 1) = days_before_year y + Paths.year_length y.
Proof.
  unfold days_before_year, Paths.year_length, is_leap. cbv zeta.
  replace (y + 1 - 1) with y by lia.
  assert (H4 : y / 4 = (y - 1) / 4 + (if y mod 4 =? 0 then 1 else 0)).
  { destruct (Z.eqb_spec (y mod 4) 0); Z.to_euclidean_division_equations; lia. }
  assert (H100 : y / 100 = (y - 1) / 100 + (if y mod 100 =? 0 then 1 else 0)).
  { destruct (Z.eqb_spec (y mod 100) 0); Z.to_euclidean_division_equations; lia. }
  assert (H400 : y / 400 = (y - 1) / 400 + (if y mod 400 =? 0 then 1 else 0)).
  { destruct (Z.eqb_spec (y mod 400) 0); Z.to_euclidean_division_equations; lia. }
  assert (Hd1 : y mod 100 = 0 -> y mod 4 = 0)
    by (intros; Z.to_euclidean_division_equations; lia).
  assert (Hd2 : y mod 400 = 0 -> y mod 100 = 0)
    by (intros; Z.to_euclidean_division_equations; lia).
  rewrite H4, H100, H400.
  destruct (Z.eqb_spec (y mod 4) 0), (Z.eqb_spec (y mod 100) 0),
    (Z.eqb_spec (y mod 400) 0); simpl; lia.
Qed.

Lemma days_before_later_year (y : Z) (k : Z) :
  0 <= k -> days_before_year y + 365 * k <= days_before_year (y + k).
Proof.
  intros Hk. revert k Hk. apply natlike_ind.
  - replace (y + 0) with y by lia. lia.
  - intros k Hk IH. replace (y + Z.succ k) with (y + k + 1) by lia.
    rewrite days_before_next_year. unfold Paths.year_length.
    destruct (is_leap (y + k)); lia.
Qed.

(** The day of the year that [year_and_yday] returns is a day of the
    year it returns. *)
Lemma yday_within_year (n : Z) :
  1 <= snd (year_and_yday n) <= Paths.year_length (fst (year_and_yday n)).
Proof.
  unfold year_and_yday. cbv zeta.
  set (a := n / 146097). set (r400 := n mod 146097).
  set (b := r400 / 36524). set (r100 := r400 mod 36524).
  set (c := r100 / 1461). set (r4 := r100 mod 1461).
  set (e := r4 / 365). set (r1 := r4 mod 365).
  assert (H400 : 0 <= r400 < 146097) by (apply Z.mod_pos_bound; lia).
  assert (Hb : r400 = 36524 * b + r100) by (apply Z.div_mod; lia).
  assert (H100 : 0 <= r100 < 36524) by (apply Z.mod_pos_bound; lia).
  assert (Hc : r100 = 1461 * c + r4) by (apply Z.div_mod; lia).
  assert (H4 : 0 <= r4 < 1461) by (apply Z.mod_pos_bound; lia).
  assert (He : r4 = 365 * e + r1) by (apply Z.div_mod; lia).
  assert (H1 : 0 <= r1 < 365) by (apply Z.mod_pos_bound; lia).
  clearbody a r400 b r100 c r4 e r1.
  destruct ((e =? 4) || (b =? 4)) eqn:E; cbn [fst snd].
  - unfold Paths.year_length, is_leap.
    set (Y := a * 400 + 1 + b * 100 + c * 4 + e - 1).
    apply orb_true_iff in E. rewrite !Z.eqb_eq in E.
    assert (HY : Y mod 4 = 0 /\ (Y mod 100 <> 0 \/ Y mod 400 = 0)).
    { destruct (Z.eq_dec b 4) as [Hb4|Hb4].
      - assert (Hz : c = 0 /\ e = 0) by lia. destruct Hz as [Hc0 He0].
        split; [|right].
        + replace Y with ((a + 1) * 100 * 4) by (unfold Y; lia).
          apply Z.mod_mul. lia.
        + replace Y with ((a + 1) * 400) by (unfold Y; lia).
          apply Z.mod_mul. lia.
      - assert (He4 : e = 4) by lia.
        assert (Hbc : 0 <= b <= 3 /\ 0 <= c <= 23) by lia.
        split; [|left].
        + replace Y with ((100 * a + 25 * b + c + 1) * 4) by (unfold Y; lia).
          apply Z.mod_mul. lia.
        + replace Y with (4 * (c + 1) + (4 * a + b) * 100) by (unfold Y; lia).
          rewrite Z.mod_add by lia. rewrite Z.mod_small by lia. lia. }
    clearbody Y. destruct HY as [HY4 HY100].
    apply Z.eqb_eq in HY4. rewrite HY4. simpl.
    destruct HY100 as [HY100|HY400].
    + apply Z.eqb_neq in HY100. rewrite HY100. simpl. lia.
    + apply Z.eqb_eq in HY400. rewrite HY400, orb_true_r. lia.
  - unfold Paths.year_length. destruct (is_leap _); lia.
Qed.

(** The day [d] of year [y] has that year and that day of the year. *)
Lemma year_and_yday_of_date (y d : Z) :
  1 <= d <= Paths.year_length y ->
  year_and_yday (days_before_year y + d - 1) = (y, d).
Proof.
  intros Hd.
  pose proof (year_and_yday_inverse (days_before_year y + d - 1)) as Hinv.
  pose proof (yday_within_year (days_before_year y + d - 1)) as Hbound.
  destruct (year_and_yday (days_before_year y + d - 1)) as [y' d'].
  cbn [fst snd] in *.
  assert (y' = y).
  { destruct (Z.lt_trichotomy y y') as [Hlt|[Heq|Hgt]]; [exfalso | auto | exfalso].
    - pose proof (days_before_later_year (y + 1) (y' - (y + 1)) ltac:(lia)) as Hm.
      replace (y + 1 + (y' - (y + 1))) with y' in Hm by lia.
      rewrite days_before_next_year in Hm. lia.
    - pose proof (days_before_later_year (y' + 1) (y - (y' + 1)) ltac:(lia)) as Hm.
      replace (y' + 1 + (y - (y' + 1))) with y in Hm by lia.
      rewrite days_before_next_year in Hm. lia. }
  subst y'. f_equal. lia.
Qed.

Lemma day_number_of_midnight (n : Z) : day_number (n * us_per_day) = n.
Proof. unfold day_number, us_per_day. apply Z.div_mul. lia. Qed.

(* ===================================================================== *)
(** ** Reading back the printed year and day *)

Lemma years_read_back : forallb Paths.year_reads_back (seqZ 1000 9000) = true.
Proof. vm_compute. reflexivity. Qed.

Lemma days_read_back : forallb Paths.day_reads_back (seqZ 1 366) = true.
Proof. vm_compute. reflexivity. Qed.

Lemma days_not_read : forallb Paths.day_not_read (seqZ 367 633) = true.
Proof. vm_compute. reflexivity. Qed.

Lemma day_zero_not_read : Paths.day_not_read 0 = true.
Proof. vm_compute. reflexivity. Qed.

Lemma in_seqZ_forallb (f : Z -> bool) (m n x : Z) :
  forallb f (seqZ m n) = true -> m <= x < m + n -> f x = true.
Proof.
  intros Hall Hx. rewrite forallb_forall in Hall.
  apply Hall, list_elem_of_In, elem_of_seqZ. exact Hx.
Qed.

(** A year of four digits is printed as the four characters that [%Y]
    reads back, whatever follows. *)
Lemma match_Y_year (y : Z) (rest : string) :
  1000 <= y <= 9999 ->
  Paths.match_Y (String.append (Paths.str_int y) rest) = Some (y, rest).
Proof.
  intros Hy.
  pose proof (in_seqZ_forallb _ _ _ y years_read_back ltac:(lia)) as Hok.
  unfold Paths.year_reads_back in Hok.
  destruct (Paths.str_int y) as [|a [|b [|c [|d s]]]]; try discriminate.
  simpl in Hok |- *.
  destruct (Paths.digit a), (Paths.digit b), (Paths.digit c), (Paths.digit d);
    try discriminate.
  destruct s; [|discriminate]. apply Z.eqb_eq in Hok. subst y. reflexivity.
Qed.

(** The padded day of the year is read back by [%j]. *)
Lemma match_j_day (d : Z) :
  1 <= d <= 366 ->
  Paths.match_j (Paths.pad_day (Paths.str_int d)) = Some (d, EmptyString).
Proof.
  intros Hd.
  pose proof (in_seqZ_forallb _ _ _ d days_read_back ltac:(lia)) as Hok.
  unfold Paths.day_reads_back in Hok.
  destruct (Paths.match_j _) as [[v [|c s]]|]; try discriminate.
  apply Z.eqb_eq in Hok. subst v. reflexivity.
Qed.

Lemma string_of_uint_length (u : Decimal.uint) :
  String.length (NilEmpty.string_of_uint u) = Decimal.nb_digits u.
Proof. induction u; simpl; congruence. Qed.

Lemma of_uint_acc_bound (u : Decimal.uint) (acc : positive) :
  Z.pos (Pos.of_uint_acc u acc)
  < (Z.pos acc + 1) * 10 ^ Z.of_nat (Decimal.nb_digits u).
Proof.
  revert acc. induction u as [|u IH|u IH|u IH|u IH|u IH|u IH|u IH|u IH|u IH|u IH];
    intros acc; simpl Decimal.nb_digits; simpl Pos.of_uint_acc;
    [simpl; lia | ..];
    rewrite Nat2Z.inj_succ, Z.pow_succ_r by lia;
    match goal with |- Z.pos (Pos.of_uint_acc u ?a) < _ => specialize (IH a) end;
    assert (0 < 10 ^ Z.of_nat (Decimal.nb_digits u)) by (apply Z.pow_pos_nonneg; lia);
    nia.
Qed.

Lemma of_uint_bound (u : Decimal.uint) :
  Z.of_uint u < 10 ^ Z.of_nat (Decimal.nb_digits u).
Proof.
  unfold Z.of_uint.
  induction u as [|u IH|u IH|u IH|u IH|u IH|u IH|u IH|u IH|u IH|u IH];
    simpl Decimal.nb_digits; simpl Pos.of_uint;
    [simpl; lia | ..];
    rewrite Nat2Z.inj_succ, Z.pow_succ_r by lia;
    assert (0 < 10 ^ Z.of_nat (Decimal.nb_digits u)) by (apply Z.pow_pos_nonneg; lia);
    [lia | ..];
    match goal with |- Z.of_N (N.pos (Pos.of_uint_acc u ?a)) < _ =>
      pose proof (of_uint_acc_bound u a) end;
    simpl Z.of_N; nia.
Qed.

Lemma string_of_uint_digits (u : Decimal.uint) :
  (Decimal.nb_digits u <= String.length (NilZero.string_of_uint u))%nat.
Proof.
  destruct u; simpl; rewrite ?string_of_uint_length; lia.
Qed.

(** A number from a thousand on is printed with four characters or more. *)
Lemma str_int_long (d : Z) :
  1000 <= d -> (4 <= String.length (Paths.str_int d))%nat.
Proof.
  intros Hd. destruct d as [|p|p]; try lia.
  unfold Paths.str_int. simpl Z.to_int. simpl NilZero.string_of_int.
  pose proof (of_uint_bound (Pos.to_uint p)) as Hbound.
  unfold Z.of_uint in Hbound. rewrite DecimalPos.Unsigned.of_to in Hbound.
  simpl Z.of_N in Hbound.
  pose proof (string_of_uint_digits (Pos.to_uint p)) as Hlen.
  destruct (Nat.lt_ge_cases (Decimal.nb_digits (Pos.to_uint p)) 4) as [Hlt|Hge];
    [exfalso | lia].
  assert (10 ^ Z.of_nat (Decimal.nb_digits (Pos.to_uint p)) <= 10 ^ 3)
    by (apply Z.pow_le_mono_r; lia).
  lia.
Qed.

(** [%j] takes three characters at most. *)
Lemma match_j_long (s : string) :
  (4 <= String.length s)%nat ->
  match Paths.match_j s with
  | Some (_, EmptyString) => False
  | _ => True
  end.
Proof.
  destruct s as [|a [|b [|c [|d s]]]]; simpl String.length; try lia. intros _.
  unfold Paths.match_j, Paths.match_j3, Paths.match_j2, Paths.match_j1.
  destruct (Paths.digit a), (Paths.digit b), (Paths.digit c); try exact I;
    repeat match goal with
      | |- context [if ?c then _ else _] => destruct c
      end; exact I.
Qed.

(** A negative number is printed with a minus sign, which [%j] does not
    read, also behind the zeros of the padding. *)
Lemma match_j_negative (p : positive) :
  Paths.match_j (Paths.pad_day (Paths.str_int (Z.neg p))) = None.
Proof.
  unfold Paths.str_int. simpl Z.to_int. simpl NilZero.string_of_int.
  destruct (NilZero.string_of_uint (Pos.to_uint p)) as [|c1 [|c2 s]];
    unfold Paths.pad_day; simpl; try reflexivity.
Qed.

(** The days that are not days of a year are not read. *)
Lemma day_out_of_range_not_read (d : Z) :
  d <= 0 \/ 367 <= d ->
  match Paths.match_j (Paths.pad_day (Paths.str_int d)) with
  | Some (_, EmptyString) => False
  | _ => True
  end.
Proof.
  intros Hd.
  destruct (Z_lt_le_dec d 0) as [Hneg|Hnn].
  - destruct d as [|p|p]; try lia. rewrite match_j_negative. exact I.
  - destruct (Z_lt_le_dec d 1000) as [Hsmall|Hbig].
    + assert (Hok : Paths.day_not_read d = true).
      { destruct (Z.eq_dec d 0) as [->|Hne]; [exact day_zero_not_read|].
        apply (in_seqZ_forallb _ _ _ d days_not_read). lia. }
      unfold Paths.day_not_read in Hok.
      destruct (Paths.match_j _) as [[v [|c s]]|]; try exact I. discriminate.
    + pose proof (str_int_long d Hbig) as Hlen.
      unfold Paths.pad_day.
      replace (3 - String.length (Paths.str_int d))%nat with 0%nat by lia.
      apply match_j_long. exact Hlen.
Qed.

(* ===================================================================== *)
(** ** The directory of a day *)

Lemma julian_day_bounds (t : datetime) : 1 <= julian_day t <= 366.
Proof.
  unfold julian_day. pose proof (yday_within_year (day_number t)) as H.
  unfold Paths.year_length in H. destruct (is_leap _); lia.
Qed.

(** For a year of four digits and a day from 1 to 366, the date that
    [get_files] parses is the day counted from the first of January. *)
Lemma listing_date_counted (y d : Z) :
  1000 <= y <= 9999 -> 1 <= d <= 366 ->
  Paths.listing_date y d
  = if days_before_year y + d - 1 <=? 3652058
    then Ok ((days_before_year y + d - 1) * us_per_day)
    else Raise (ValueError "year 10000 is out of range").
Proof.
  intros Hy Hd. unfold Paths.listing_date, Paths.strptime_Yj.
  rewrite match_Y_year by exact Hy. rewrite match_j_day by exact Hd.
  destruct (Z.eqb_spec y 0) as [E|_]; [lia|]. reflexivity.
Qed.

Lemma days_before_year_10000 (y : Z) :
  y <= 9999 -> days_before_year y + Paths.year_length y <= 3652059.
Proof.
  intros Hy. rewrite <- days_before_next_year.
  pose proof (days_before_later_year (y + 1) (10000 - (y + 1)) ltac:(lia)) as Hm.
  replace (y + 1 + (10000 - (y + 1))) with 10000 in Hm by lia.
  change (days_before_year 10000) with 3652059 in Hm. lia.
Qed.

Lemma in_range_day_number (t : datetime) :
  in_range t = true -> day_number t <= 3652058.
Proof.
  unfold in_range, max_datetime, min_datetime, day_number, us_per_day.
  intros H. apply andb_true_iff in H as [_ Hhi]. apply Z.leb_le in Hhi.
  enough (t / 86400000000 < 3652059) by lia.
  apply Z.div_lt_upper_bound; lia.
Qed.

Section PathFacts.

Variable strftime_Y : Z -> string.

Local Abbreviation day_directory := (Paths.day_directory strftime_Y).
Local Abbreviation file_directory := (Paths.file_directory strftime_Y).
Local Abbreviation strftime_Ymd := (Paths.strftime_Ymd strftime_Y).

Lemma strftime_same_day (a b : datetime) :
  day_number a = day_number b ->
  strftime_Ymd a = strftime_Ymd b /\ year a = year b.
Proof.
  intros H. unfold Paths.strftime_Ymd, Paths.day, Paths.month, year, julian_day.
  rewrite H. split; reflexivity.
Qed.

(** X16.  [download] and [get_files] agree on the directory: for a date [t]
    with a year of four digits, the directory that [get_files] lists for
    the year and the day of the year of [t] is the directory where
    [download] looks for a file of date [t]. *)
Theorem listing_directory_of_date (product_path : string) (t : datetime) :
  in_range t = true ->
  1000 <= year t <= 9999 ->
  day_directory product_path (year t) (julian_day t)
  = Ok (file_directory product_path t).
Proof.
  intros Hrange Hy.
  pose proof (in_range_day_number t Hrange) as Hmax.
  assert (Hn : days_before_year (year t) + julian_day t - 1 = day_number t).
  { unfold year, julian_day. symmetry. apply year_and_yday_inverse. }
  assert (Hdate : Paths.listing_date (year t) (julian_day t)
                  = Ok (day_number t * us_per_day)).
  { rewrite listing_date_counted by (auto using julian_day_bounds).
    rewrite Hn. destruct (Z.leb_spec (day_number t) 3652058); [reflexivity | lia]. }
  destruct (strftime_same_day (day_number t * us_per_day) t
              (day_number_of_midnight (day_number t))) as [Hfmt _].
  unfold Paths.day_directory. rewrite Hdate. cbn [bind]. rewrite Hfmt.
  reflexivity.
Qed.

(** X17.  For a year of four digits and a day of that year, [get_files] lists
    the directory of that very day: the date it parses has the year and
    the day of the year that were asked for. *)
Theorem valid_day_directory (product_path : string) (y d : Z) :
  1000 <= y <= 9999 ->
  1 <= d <= Paths.year_length y ->
  exists t,
    Paths.listing_date y d = Ok t
    /\ year t = y /\ julian_day t = d
    /\ day_directory product_path y d = Ok (file_directory product_path t).
Proof.
  intros Hy Hd.
  assert (Hd' : 1 <= d <= 366)
    by (unfold Paths.year_length in Hd; destruct (is_leap y); lia).
  pose proof (days_before_year_10000 y ltac:(lia)) as Hmax.
  assert (Hdate : Paths.listing_date y d
                  = Ok ((days_before_year y + d - 1) * us_per_day)).
  { rewrite listing_date_counted by assumption.
    destruct (Z.leb_spec (days_before_year y + d - 1) 3652058); [reflexivity | lia]. }
  exists ((days_before_year y + d - 1) * us_per_day).
  assert (Hyd : year ((days_before_year y + d - 1) * us_per_day) = y
                /\ julian_day ((days_before_year y + d - 1) * us_per_day) = d).
  { unfold year, julian_day.
    rewrite day_number_of_midnight, year_and_yday_of_date by exact Hd.
    split; reflexivity. }
  destruct Hyd as [Hyear Hjul].
  split; [exact Hdate|]. split; [exact Hyear|]. split; [exact Hjul|].
  unfold Paths.day_directory, Paths.file_directory.
  rewrite Hdate. cbn [bind]. rewrite Hyear. reflexivity.
Qed.

(** X18.  Day 366 of a year of 365 days is not refused: [get_files] lists the
    first of January of the next year, in the folder of the year that was
    given. *)
Theorem day_366_of_short_year (product_path : string) (y : Z) :
  1000 <= y <= 9998 ->
  is_leap y = false ->
  exists t,
    Paths.listing_date y 366 = Ok t
    /\ year t = y + 1 /\ Paths.month t = 1 /\ Paths.day t = 1
    /\ day_directory product_path y 366
       = Ok (Paths.posix_join product_path [Paths.str_int y; strftime_Ymd t]).
Proof.
  intros Hy Hleap.
  assert (Hn : days_before_year y + 366 - 1 = days_before_year (y + 1) + 1 - 1).
  { rewrite days_before_next_year. unfold Paths.year_length. rewrite Hleap. lia. }
  pose proof (days_before_year_10000 (y + 1) ltac:(lia)) as Hmax.
  assert (Hlen : 365 <= Paths.year_length (y + 1))
    by (unfold Paths.year_length; destruct (is_leap (y + 1)); lia).
  assert (Hdate : Paths.listing_date y 366
                  = Ok ((days_before_year (y + 1) + 1 - 1) * us_per_day)).
  { rewrite listing_date_counted by lia. rewrite Hn.
    destruct (Z.leb_spec (days_before_year (y + 1) + 1 - 1) 3652058);
      [reflexivity | lia]. }
  exists ((days_before_year (y + 1) + 1 - 1) * us_per_day).
  assert (Hyd : year_and_yday (day_number ((days_before_year (y + 1) + 1 - 1)
                                             * us_per_day)) = (y + 1, 1)).
  { rewrite day_number_of_midnight. apply year_and_yday_of_date. lia. }
  set (T := (days_before_year (y + 1) + 1 - 1) * us_per_day) in *.
  assert (Hyear : year T = y + 1) by (unfold year; rewrite Hyd; reflexivity).
  assert (Hjul : julian_day T = 1) by (unfold julian_day; rewrite Hyd; reflexivity).
  assert (Hmonth : Paths.month T = 1).
  { unfold Paths.month. rewrite Hyear, Hjul.
    unfold Paths.month_of, days_before_month.
    destruct (is_leap (y + 1)); reflexivity. }
  assert (Hday : Paths.day T = 1).
  { unfold Paths.day. rewrite Hmonth, Hyear, Hjul. reflexivity. }
  split; [exact Hdate|]. split; [exact Hyear|]. split; [exact Hmonth|].
  split; [exact Hday|].
  unfold Paths.day_directory. rewrite Hdate. reflexivity.
Qed.

(** X19.  A day below 1 or above 366 is refused before the server is asked:
    [get_files] raises the [ValueError] of [strptime] and the instance is
    as it was. *)
Theorem day_out_of_range_raises (y d : Z) :
  1000 <= y <= 9999 ->
  d <= 0 \/ 367 <= d ->
  exists msg,
    Paths.listing_date y d = Raise (ValueError msg)
    /\ forall (server : nat -> string -> IcareProvider.ftp_reply)
              (s : IcareProvider.instance),
         IcareProvider.get_files server day_directory y d s
         = (Raise (ValueError msg), s).
Proof.
  intros Hy Hd.
  assert (Hdate : exists msg, Paths.listing_date y d = Raise (ValueError msg)).
  { unfold Paths.listing_date, Paths.strptime_Yj.
    rewrite match_Y_year by exact Hy.
    pose proof (day_out_of_range_not_read d Hd) as Hj.
    destruct (Paths.match_j _) as [[v [|c s]]|]; [contradiction | eauto | eauto]. }
  destruct Hdate as [msg Hmsg]. exists msg. split; [exact Hmsg|].
  intros server s. unfold IcareProvider.get_files, Paths.day_directory.
  rewrite Hmsg. reflexivity.
Qed.

End PathFacts.

(* ===================================================================== *)
(** ** Downloading a file *)

Section DownloadFacts.

Variable has_identity : bool.
Variable server : nat -> string -> string -> IcareDownload.transfer_reply.
Variable can_open : string -> bool.
Variable strftime_Y : Z -> string.

Local Abbreviation download :=
  (IcareDownload.download has_identity server can_open strftime_Y).
Local Abbreviation download_path := (IcareDownload.download_path strftime_Y).

(** X20.  [download] does not use the listing cache and does not touch it:
    whatever the outcome, the cache, the product path and the log of
    retrieved listings are as before, so a directory that was listed is
    still answered from the cache afterwards. *)
Theorem download_keeps_cache (filename dest : string)
    (s s' : IcareProvider.instance) (disk disk' : gmap string string)
    (r : result unit) :
  download filename dest s disk = (r, s', disk') ->
  IcareProvider.cache s' = IcareProvider.cache s
  /\ IcareProvider.product_path s' = IcareProvider.product_path s
  /\ IcareProvider.retrieved s' = IcareProvider.retrieved s
  /\ forall (listings : nat -> string -> IcareProvider.ftp_reply)
            (path : string) (t : string -> result IcareProvider.atom)
            (listing : list IcareProvider.atom),
       IcareProvider.cache s !! path = Some listing ->
       IcareProvider.ftp_listing_to_list listings path t s' = (Ok listing, s').
Proof.
  intros H.
  assert (Hs : s' = s \/ s' = IcareProvider.connect s).
  { unfold IcareDownload.download in H.
    destruct (negb has_identity); [injection H as _ <- _; auto|].
    destruct (server _ _ _) as [| | |blocks complete];
      try (injection H as _ <- _; auto).
    destruct (negb (can_open dest)); [injection H as _ <- _; auto|].
    destruct complete; injection H as _ <- _; auto. }
  assert (Hcache : IcareProvider.cache s' = IcareProvider.cache s)
    by (destruct Hs as [->| ->]; reflexivity).
  split; [exact Hcache|].
  split; [destruct Hs as [->| ->]; reflexivity|].
  split; [destruct Hs as [->| ->]; reflexivity|].
  intros listings path t listing Hhit.
  apply ftp_listing_cached. rewrite Hcache. exact Hhit.
Qed.

(** X21.  A download that returns has written the blocks the server sent, in
    order, to the destination, in place of what was there; no other file
    of the disk is changed, and one connection was opened. *)
Theorem download_writes_blocks (filename dest : string)
    (s s' : IcareProvider.instance) (disk disk' : gmap string string) :
  download filename dest s disk = (Ok tt, s', disk') ->
  exists blocks,
    server (IcareProvider.connections s) (download_path s filename) filename
    = IcareDownload.Transfer blocks true
    /\ disk' !! dest = Some (String.concat "" blocks)
    /\ (forall other, other <> dest -> disk' !! other = disk !! other)
    /\ IcareProvider.connections s' = S (IcareProvider.connections s).
Proof.
  unfold IcareDownload.download. intros H.
  destruct (negb has_identity); [discriminate|].
  destruct (server _ _ _) as [| | |blocks complete]; try discriminate.
  destruct (negb (can_open dest)); [discriminate|].
  destruct complete; [|discriminate].
  injection H as <- <-. exists blocks. split; [reflexivity|].
  split; [apply lookup_insert_eq|]. split; [|reflexivity].
  intros other Hne. apply lookup_insert_ne. congruence.
Qed.

(** X22.  A transfer that breaks off leaves its mark: when the directory was
    found and the destination could be opened, but [RETR] fails, the
    call raises and the destination holds the blocks received until then
    and nothing of its former content.  For a file that is not on the
    server this is the empty file. *)
Theorem broken_transfer_overwrites (filename dest : string)
    (s : IcareProvider.instance) (disk : gmap string string)
    (blocks : list string) :
  has_identity = true ->
  can_open dest = true ->
  server (IcareProvider.connections s) (download_path s filename) filename
  = IcareDownload.Transfer blocks false ->
  exists e s' disk',
    download filename dest s disk = (Raise e, s', disk')
    /\ disk' !! dest = Some (String.concat "" blocks)
    /\ (blocks = [] -> disk' !! dest = Some EmptyString).
Proof.
  intros Hid Hopen Hreply. unfold IcareDownload.download.
  rewrite Hid, Hreply, Hopen. cbn [negb].
  eexists. eexists. eexists. split; [reflexivity|].
  split; [apply lookup_insert_eq|].
  intros ->. apply lookup_insert_eq.
Qed.

(** X23.  A download that fails before the transfer leaves the disk alone:
    without an identity, when the connection, the login or the change of
    directory fails, or when the destination cannot be opened, the disk
    is as before; without an identity no connection is opened either. *)
Theorem early_failure_keeps_disk (filename dest : string)
    (s s' : IcareProvider.instance) (disk disk' : gmap string string)
    (r : result unit) :
  download filename dest s disk = (r, s', disk') ->
  (has_identity = false
   \/ can_open dest = false
   \/ forall blocks complete,
        server (IcareProvider.connections s) (download_path s filename) filename
        <> IcareDownload.Transfer blocks complete) ->
  (exists e, r = Raise e)
  /\ disk' = disk
  /\ (has_identity = false -> s' = s).
Proof.
  unfold IcareDownload.download. intros H Hwhy.
  destruct has_identity; cbn [negb] in H.
  - destruct (server _ _ _) as [| | |blocks complete] eqn:Hreply;
      try (injection H as <- <- <-; split; [eauto | split; [reflexivity | discriminate]]).
    destruct (can_open dest); cbn [negb] in H.
    + exfalso. destruct Hwhy as [Hid|[Hopen|Hno]]; try discriminate.
      exact (Hno blocks complete eq_refl).
    + injection H as <- <- <-. split; [eauto | split; [reflexivity | discriminate]].
  - injection H as <- <- <-. split; [eauto | split; reflexivity].
Qed.

End DownloadFacts.

(* ===================================================================== *)
(** ** Listing a day, then downloading a file of it *)

Lemma ftp_listing_self_product (server : nat -> string -> IcareProvider.ftp_reply)
    (path : string) (t : string -> result IcareProvider.atom)
    (s s' : IcareProvider.instance) (r : result (list IcareProvider.atom)) :
  IcareProvider.ftp_listing_to_list server path t s = (r, s') ->
  IcareProvider.self_product s' = IcareProvider.self_product s.
Proof.
  unfold IcareProvider.ftp_listing_to_list.
  destruct (IcareProvider.cache s !! path) as [listing|];
    [intros [= <- <-]; reflexivity|].
  destruct (server _ path) as [| | | | |names'|names];
    try (intros [= <- <-]; reflexivity).
  destruct (PyList.mapM t names) as [listing|e]; intros [= <- <-]; reflexivity.
Qed.

Section ListThenDownload.

Variable listings : nat -> string -> IcareProvider.ftp_reply.
Variable strftime_Y : Z -> string.

Local Abbreviation day_directory := (Paths.day_directory strftime_Y).
Local Abbreviation get_files := (IcareProvider.get_files listings day_directory).
Local Abbreviation download_path := (IcareDownload.download_path strftime_Y).

(** X24.  The two methods fit together when the product decodes a file name to
    the day it was listed for.  Let [get_files] return [fs] for the year
    and the day of the year of [t], a date with a year of four digits,
    and let [f] be one of [fs] whose decoded date is on the day of [t].
    Then the directory where [download] looks for [f] is the directory
    that was listed, and the cached listing of that directory names
    [f]. *)
Theorem listed_file_download_directory (t : datetime)
    (s s' : IcareProvider.instance) (fs : list string) (f : string) :
  in_range t = true ->
  1000 <= year t <= 9999 ->
  get_files (year t) (julian_day t) s = (Ok fs, s') ->
  f ∈ fs ->
  day_number (product_name_to_date (IcareProvider.self_product s) f) = day_number t ->
  day_directory (IcareProvider.product_path s) (year t) (julian_day t)
  = Ok (download_path s' f)
  /\ exists names,
       IcareProvider.cache s' !! download_path s' f
       = Some (map IcareProvider.AStr names)
       /\ f ∈ names.
Proof.
  intros Hrange Hy Hcall Hin Hday.
  pose proof (in_range_day_number t Hrange) as Hmax.
  assert (Hn : days_before_year (year t) + julian_day t - 1 = day_number t).
  { unfold year, julian_day. symmetry. apply year_and_yday_inverse. }
  assert (Hdate : Paths.listing_date (year t) (julian_day t)
                  = Ok (day_number t * us_per_day)).
  { rewrite listing_date_counted by (auto using julian_day_bounds).
    rewrite Hn. destruct (Z.leb_spec (day_number t) 3652058); [reflexivity | lia]. }
  set (date := product_name_to_date (IcareProvider.self_product s) f) in *.
  assert (Hmid : day_number (day_number t * us_per_day) = day_number date).
  { rewrite day_number_of_midnight. symmetry. exact Hday. }
  destruct (strftime_same_day strftime_Y _ _ Hmid) as [Hfmt _].
  destruct (strftime_same_day strftime_Y _ _ Hday) as [_ Hyear].
  assert (Hdir : day_directory (IcareProvider.product_path s) (year t) (julian_day t)
                 = Ok (Paths.file_directory strftime_Y
                         (IcareProvider.product_path s) date)).
  { unfold Paths.day_directory, Paths.file_directory. rewrite Hdate. cbn [bind].
    rewrite Hfmt, Hyear. reflexivity. }
  unfold IcareProvider.get_files in Hcall. rewrite Hdir in Hcall.
  destruct (IcareProvider.ftp_listing_to_list listings _ IcareProvider.str s)
    as [r s0] eqn:Hl.
  injection Hcall as Hr <-. destruct r as [listing|e]; [|discriminate].
  cbn [bind] in Hr.
  destruct (ftp_listing_keeps listings _ _ _ _ _ Hl) as (Hpp & _ & Hstored).
  pose proof (ftp_listing_self_product listings _ _ _ _ _ Hl) as Hprod.
  assert (Hpath : download_path s0 f
                  = Paths.file_directory strftime_Y (IcareProvider.product_path s) date).
  { unfold IcareDownload.download_path, date. rewrite Hpp, Hprod. reflexivity. }
  rewrite Hpath. split; [exact Hdir|].
  destruct (hdf_files_Ok _ _ Hr) as [names ->].
  rewrite hdf_files_str in Hr. injection Hr as <-.
  exists names. split; [apply Hstored; reflexivity|].
  apply list_elem_of_In in Hin. apply filter_In in Hin as [Hin _].
  apply list_elem_of_In. exact Hin.
Qed.

End ListThenDownload.

(* ===================================================================== *)
(** ** The further properties on examples *)

Section MoreExamples.

Local Abbreviation ntd := Archive.name_to_date.
Local Abbreviation gf := Archive.get_files.
Local Abbreviation feb29 := Archive.feb29.
Local Abbreviation mar01 := Archive.mar01.
Local Abbreviation mar02 := Scenario.mar02.
Local Abbreviation get_preceeding_file := (DataProvider.get_preceeding_file ntd gf).
Local Abbreviation get_following_file := (DataProvider.get_following_file ntd gf).
Local Abbreviation get_files_in_range := (DataProvider.get_files_in_range ntd gf).
Local Abbreviation get_file_by_date :=
  (DataProvider.get_file_by_date ntd gf Numpy.argsort).
Local Abbreviation range_loop := (DataProvider.range_loop ntd gf).
Local Abbreviation day_directory := (Paths.day_directory Paths.str_int).
Local Abbreviation file_directory := (Paths.file_directory Paths.str_int).
Local Abbreviation fresh := Scenario.fresh.
Local Abbreviation download :=
  (IcareDownload.download true Scenario.file_server Scenario.any_destination
     Paths.str_int).

Lemma missing_file_lookup_raises_witness :
  DataProvider.day_listing gf (Scenario.name_to_date_f4 "f4") = Ok ["f1"; "f2"; "f3"]
  /\ ("f4" ∉ ["f1"; "f2"; "f3"])
  /\ exists msg,
       DataProvider.get_preceeding_file Scenario.name_to_date_f4 gf "f4"
       = Raise (ValueError msg)
       /\ DataProvider.get_following_file Scenario.name_to_date_f4 gf "f4"
          = Raise (ValueError msg).
Proof.
  assert (Hfs : DataProvider.day_listing gf (Scenario.name_to_date_f4 "f4")
                = Ok ["f1"; "f2"; "f3"]) by (vm_compute; reflexivity).
  assert (Hnot : "f4" ∉ ["f1"; "f2"; "f3"]).
  { intros H. apply list_elem_of_In in H. simpl in H.
    destruct H as [H|[H|[H|[]]]]; discriminate. }
  split; [exact Hfs|]. split; [exact Hnot|].
  exact (missing_file_lookup_raises Scenario.name_to_date_f4 gf "f4" _ Hfs Hnot).
Defined.

Lemma following_of_preceeding_witness :
  get_preceeding_file "g1" = Ok "f3"
  /\ get_following_file "f3" = Ok "g1"
  /\ "g1" = "g1".
Proof.
  assert (Hpre : get_preceeding_file "g1" = Ok "f3") by (vm_compute; reflexivity).
  assert (Hfol : get_following_file "f3" = Ok "g1") by (vm_compute; reflexivity).
  split; [exact Hpre|]. split; [exact Hfol|].
  exact (following_of_preceeding ntd gf "g1" "f3" "g1"
           archive_nodup (by_day_disjoint ntd gf archive_by_day) Hpre Hfol).
Defined.

Lemma adjacent_files_in_order_witness :
  get_preceeding_file "g1" = Ok "f3"
  /\ ntd "f3" <= ntd "g1".
Proof.
  assert (Hpre : get_preceeding_file "g1" = Ok "f3") by (vm_compute; reflexivity).
  split; [exact Hpre|].
  exact (proj1 (adjacent_files_in_order ntd gf "g1" "f3"
                  archive_by_day archive_chronological) Hpre).
Defined.

Lemma degenerate_range_raises_witness :
  feb29 12 <= feb29 12
  /\ get_files_in_range (feb29 12) (feb29 12) false = Raise UnboundLocalError
  /\ get_files_in_range (feb29 12) (feb29 12) true = Raise IndexError.
Proof.
  assert (Hle : feb29 12 <= feb29 12) by lia.
  split; [exact Hle|].
  exact (degenerate_range_raises ntd gf (feb29 12) (feb29 12) Hle).
Defined.

Lemma range_query_complete_witness :
  get_files_in_range (feb29 12) (mar01 13) false = Ok ["f2"; "f3"; "g1"; "g2"]
  /\ DataProvider.day_listing gf (feb29 12 + days 1) = Ok ["g1"; "g2"]
  /\ "g1" ∈ ["f2"; "f3"; "g1"; "g2"].
Proof.
  assert (H : get_files_in_range (feb29 12) (mar01 13) false
              = Ok ["f2"; "f3"; "g1"; "g2"]) by (vm_compute; reflexivity).
  assert (Hday : DataProvider.day_listing gf (feb29 12 + days (Z.of_nat 1))
                 = Ok ["g1"; "g2"]) by (vm_compute; reflexivity).
  split; [exact H|]. split; [exact Hday|].
  apply (range_query_complete ntd gf (feb29 12) (mar01 13) false _
           ["g1"; "g2"] 1 "g1" H).
  - vm_compute. lia.
  - exact Hday.
  - apply list_elem_of_In. simpl. auto.
  - vm_compute. discriminate.
  - vm_compute. discriminate.
Defined.

Lemma inclusive_without_selection_raises_witness :
  get_files_in_range (feb29 11) (feb29 13) false = Ok []
  /\ get_files_in_range (feb29 11) (feb29 13) true = Raise IndexError.
Proof.
  assert (H : get_files_in_range (feb29 11) (feb29 13) false = Ok [])
    by (vm_compute; reflexivity).
  split; [exact H|].
  exact (inclusive_without_selection_raises ntd gf _ _ H).
Defined.

Lemma last_day_empty_raises_witness :
  mar01 0 < mar02 12
  /\ DataProvider.day_listing gf (mar02 0) = Ok []
  /\ get_files_in_range (mar01 0) (mar02 12) false = Raise IndexError.
Proof.
  assert (Hlt : mar01 0 < mar02 12) by reflexivity.
  pose (st := {| DataProvider.cursor := civil 2020 3 3 0 0 0;
                 DataProvider.files := ["g1"; "g2"];
                 DataProvider.pos1 := Some [] |}).
  assert (Hrun : range_loop (DataProvider.days_spanned (mar01 0) (mar02 12))
                   (mar01 0) (mar02 12) (DataProvider.range_start (mar01 0))
                 = Some (Ok st)) by (vm_compute; reflexivity).
  assert (Hday : DataProvider.day_listing gf
                   (mar01 0 + days (Z.of_nat (DataProvider.days_spanned
                                                (mar01 0) (mar02 12)) - 1))
                 = Ok []) by (vm_compute; reflexivity).
  split; [exact Hlt|]. split; [vm_compute; reflexivity|].
  exact (last_day_empty_raises ntd gf _ _ st Hlt Hrun Hday).
Defined.

Lemma inclusive_starts_before_t0_witness :
  get_files_in_range (feb29 12) (mar01 13) true = Ok ["f1"; "f2"; "f3"; "g1"; "g2"]
  /\ exists p f rest,
       ["f1"; "f2"; "f3"; "g1"; "g2"] = p :: f :: rest
       /\ get_preceeding_file f = Ok p
       /\ ntd p < feb29 12
       /\ feb29 12 <= ntd f.
Proof.
  assert (H : get_files_in_range (feb29 12) (mar01 13) true
              = Ok ["f1"; "f2"; "f3"; "g1"; "g2"]) by (vm_compute; reflexivity).
  split; [exact H|].
  exact (inclusive_starts_before_t0 ntd gf _ _ _
           archive_by_day archive_chronological H).
Defined.

Lemma file_by_date_reach_witness :
  get_file_by_date (feb29 15) = Ok "f2"
  /\ day_number (feb29 15) - 1 <= day_number (ntd "f2")
  /\ day_number (ntd "f2") <= day_number (feb29 15).
Proof.
  assert (H : get_file_by_date (feb29 15) = Ok "f2") by (vm_compute; reflexivity).
  split; [exact H|].
  exact (proj2 (file_by_date_reach ntd gf Numpy.argsort _ _ H) archive_by_day).
Defined.

Lemma range_query_no_repeats_witness :
  get_files_in_range (feb29 12) (mar01 13) false = Ok ["f2"; "f3"; "g1"; "g2"]
  /\ NoDup ["f2"; "f3"; "g1"; "g2"].
Proof.
  assert (H : get_files_in_range (feb29 12) (mar01 13) false
              = Ok ["f2"; "f3"; "g1"; "g2"]) by (vm_compute; reflexivity).
  split; [exact H|].
  exact (range_query_no_repeats ntd gf _ _ _ archive_by_day archive_nodup H).
Defined.

Lemma get_files_keeps_hdf_names_witness :
  exists s',
    IcareProvider.get_files Scenario.recovering_server day_directory 2020 60
      (IcareProvider.connect fresh)
    = (Ok ["f1.hdf"; "f2.hdf"], s')
    /\ exists path names,
         day_directory (IcareProvider.product_path fresh) 2020 60 = Ok path
         /\ IcareProvider.cache s' !! path = Some (map IcareProvider.AStr names)
         /\ ["f1.hdf"; "f2.hdf"] = List.filter IcareProvider.ends_with_hdf names
         /\ forall f, f ∈ ["f1.hdf"; "f2.hdf"]
                      <-> f ∈ names /\ exists stem, f = String.append stem "hdf".
Proof.
  pose (s' := snd (IcareProvider.get_files Scenario.recovering_server day_directory
                     2020 60 (IcareProvider.connect fresh))).
  assert (Hcall : IcareProvider.get_files Scenario.recovering_server day_directory
                    2020 60 (IcareProvider.connect fresh)
                  = (Ok ["f1.hdf"; "f2.hdf"], s')) by (vm_compute; reflexivity).
  exists s'. split; [exact Hcall|].
  exact (get_files_keeps_hdf_names Scenario.recovering_server day_directory
           2020 60 _ s' _ Hcall).
Defined.

Lemma failed_listing_is_retried_witness :
  day_directory (IcareProvider.product_path fresh) 2020 60
  = Ok Scenario.feb29_directory
  /\ exists e s1 s2,
       IcareProvider.get_files Scenario.recovering_server day_directory 2020 60 fresh
       = (Raise e, s1)
       /\ IcareProvider.cache s1 = IcareProvider.cache fresh
       /\ IcareProvider.connections s1 = 1%nat
       /\ IcareProvider.get_files Scenario.recovering_server day_directory 2020 60 s1
          = (Ok ["f1.hdf"; "f2.hdf"], s2)
       /\ IcareProvider.connections s2 = 2%nat.
Proof.
  assert (Hdir : day_directory (IcareProvider.product_path fresh) 2020 60
                 = Ok Scenario.feb29_directory) by (vm_compute; reflexivity).
  split; [exact Hdir|].
  apply (failed_listing_is_retried Scenario.recovering_server day_directory
           2020 60 fresh Scenario.feb29_directory
           ["f1.hdf"; "notes.txt"; "f2.hdf"] Hdir).
  - reflexivity.
  - intros l. simpl. discriminate.
  - reflexivity.
Defined.

Lemma cached_integers_break_get_files_witness :
  exists s1,
    IcareProvider.ftp_listing_to_list Scenario.numbered_server
      Scenario.feb29_directory Scenario.int_of_digits fresh
    = (Ok [IcareProvider.AInt 2019; IcareProvider.AInt 2020], s1)
    /\ IcareProvider.get_files Scenario.numbered_server day_directory 2020 60 s1
       = (Raise TypeError, s1).
Proof.
  pose (s1 := snd (IcareProvider.ftp_listing_to_list Scenario.numbered_server
                     Scenario.feb29_directory Scenario.int_of_digits fresh)).
  assert (Hcall : IcareProvider.ftp_listing_to_list Scenario.numbered_server
                    Scenario.feb29_directory Scenario.int_of_digits fresh
                  = (Ok [IcareProvider.AInt 2019; IcareProvider.AInt 2020], s1))
    by (vm_compute; reflexivity).
  exists s1. split; [exact Hcall|].
  apply (cached_integers_break_get_files Scenario.numbered_server day_directory
           2020 60 Scenario.feb29_directory Scenario.int_of_digits fresh s1
           _ 2019 Hcall).
  - apply list_elem_of_In. simpl. auto.
  - vm_compute. reflexivity.
Defined.

Lemma failed_conversion_retrieves_again_witness :
  exists e s1 s2,
    PyList.mapM Scenario.int_of_digits ["f1.hdf"; "f2.hdf"] = Raise e
    /\ IcareProvider.ftp_listing_to_list Scenario.steady_server
         Scenario.feb29_directory Scenario.int_of_digits fresh
       = (Raise e, s1)
    /\ IcareProvider.cache s1 = IcareProvider.cache fresh
    /\ IcareProvider.ftp_listing_to_list Scenario.steady_server
         Scenario.feb29_directory Scenario.int_of_digits s1
       = (Raise e, s2)
    /\ IcareProvider.retrieved s2
       = [Scenario.feb29_directory; Scenario.feb29_directory].
Proof.
  assert (Hconv : PyList.mapM Scenario.int_of_digits ["f1.hdf"; "f2.hdf"]
                  = Raise (ValueError "invalid literal for int()"))
    by (vm_compute; reflexivity).
  destruct (failed_conversion_retrieves_again Scenario.steady_server
              Scenario.feb29_directory Scenario.int_of_digits fresh
              ["f1.hdf"; "f2.hdf"] _ eq_refl eq_refl eq_refl Hconv)
    as (s1 & s2 & H1 & Hcache & H2 & Hlog).
  exists (ValueError "invalid literal for int()"), s1, s2.
  split; [exact Hconv|]. split; [exact H1|]. split; [exact Hcache|].
  split; [exact H2|]. exact Hlog.
Defined.

Lemma listing_directory_of_date_witness :
  in_range (feb29 12) = true
  /\ (year (feb29 12), julian_day (feb29 12)) = (2020, 60)
  /\ day_directory "SPACEBORNE/CLOUDSAT/1B-CPR" (year (feb29 12)) (julian_day (feb29 12))
     = Ok (file_directory "SPACEBORNE/CLOUDSAT/1B-CPR" (feb29 12)).
Proof.
  assert (Hrange : in_range (feb29 12) = true) by reflexivity.
  assert (Hyear : year (feb29 12) = 2020) by reflexivity.
  split; [exact Hrange|]. split; [reflexivity|].
  apply (listing_directory_of_date Paths.str_int _ (feb29 12) Hrange).
  rewrite Hyear. lia.
Defined.

Lemma valid_day_directory_witness :
  exists t,
    Paths.listing_date 2020 60 = Ok t
    /\ year t = 2020 /\ julian_day t = 60
    /\ day_directory "SPACEBORNE/CLOUDSAT/1B-CPR" 2020 60
       = Ok (file_directory "SPACEBORNE/CLOUDSAT/1B-CPR" t).
Proof.
  assert (Hlen : Paths.year_length 2020 = 366) by reflexivity.
  apply (valid_day_directory Paths.str_int "SPACEBORNE/CLOUDSAT/1B-CPR" 2020 60).
  - lia.
  - rewrite Hlen. lia.
Defined.

Lemma day_366_of_short_year_witness :
  is_leap 2021 = false
  /\ exists t,
       Paths.listing_date 2021 366 = Ok t
       /\ year t = 2021 + 1 /\ Paths.month t = 1 /\ Paths.day t = 1
       /\ day_directory "SPACEBORNE/CLOUDSAT/1B-CPR" 2021 366
          = Ok (Paths.posix_join "SPACEBORNE/CLOUDSAT/1B-CPR"
                  [Paths.str_int 2021; Paths.strftime_Ymd Paths.str_int t]).
Proof.
  assert (Hleap : is_leap 2021 = false) by reflexivity.
  split; [exact Hleap|].
  apply (day_366_of_short_year Paths.str_int "SPACEBORNE/CLOUDSAT/1B-CPR" 2021);
    [lia | exact Hleap].
Defined.

Lemma day_out_of_range_raises_witness :
  exists msg,
    Paths.listing_date 2020 400 = Raise (ValueError msg)
    /\ forall (server : nat -> string -> IcareProvider.ftp_reply)
              (s : IcareProvider.instance),
         IcareProvider.get_files server day_directory 2020 400 s
         = (Raise (ValueError msg), s).
Proof.
  apply (day_out_of_range_raises Paths.str_int 2020 400); [lia | right; lia].
Defined.

Lemma download_keeps_cache_witness :
  exists s1 s2 disk',
    IcareProvider.get_files Scenario.steady_server day_directory 2020 60 fresh
    = (Ok ["f1.hdf"; "f2.hdf"], s1)
    /\ download "f1" "out.hdf" s1 Scenario.disk = (Ok tt, s2, disk')
    /\ IcareProvider.cache s2 = IcareProvider.cache s1
    /\ IcareProvider.get_files Scenario.steady_server day_directory 2020 60 s2
       = (Ok ["f1.hdf"; "f2.hdf"], s2).
Proof.
  pose (s1 := snd (IcareProvider.get_files Scenario.steady_server day_directory
                     2020 60 fresh)).
  pose (s2 := snd (fst (download "f1" "out.hdf" s1 Scenario.disk))).
  pose (disk' := snd (download "f1" "out.hdf" s1 Scenario.disk)).
  assert (Hlist : IcareProvider.get_files Scenario.steady_server day_directory
                    2020 60 fresh = (Ok ["f1.hdf"; "f2.hdf"], s1))
    by (vm_compute; reflexivity).
  assert (Hload : download "f1" "out.hdf" s1 Scenario.disk = (Ok tt, s2, disk'))
    by (vm_compute; reflexivity).
  exists s1, s2, disk'. split; [exact Hlist|]. split; [exact Hload|].
  destruct (download_keeps_cache true Scenario.file_server Scenario.any_destination
              Paths.str_int "f1" "out.hdf" s1 s2 Scenario.disk disk' _ Hload)
    as (Hcache & _ & _ & _).
  split; [exact Hcache|]. vm_compute. reflexivity.
Defined.

Lemma download_writes_blocks_witness :
  exists s' disk',
    download "f1" "out.hdf" fresh Scenario.disk = (Ok tt, s', disk')
    /\ exists blocks,
         Scenario.file_server (IcareProvider.connections fresh)
           (IcareDownload.download_path Paths.str_int fresh "f1") "f1"
         = IcareDownload.Transfer blocks true
         /\ disk' !! "out.hdf" = Some (String.concat "" blocks)
         /\ (forall other, other <> "out.hdf" ->
               disk' !! other = Scenario.disk !! other)
         /\ IcareProvider.connections s' = S (IcareProvider.connections fresh).
Proof.
  pose (s' := snd (fst (download "f1" "out.hdf" fresh Scenario.disk))).
  pose (disk' := snd (download "f1" "out.hdf" fresh Scenario.disk)).
  assert (Hload : download "f1" "out.hdf" fresh Scenario.disk = (Ok tt, s', disk'))
    by (vm_compute; reflexivity).
  exists s', disk'. split; [exact Hload|].
  exact (download_writes_blocks true Scenario.file_server Scenario.any_destination
           Paths.str_int "f1" "out.hdf" fresh s' Scenario.disk disk' Hload).
Defined.

Lemma broken_transfer_overwrites_witness :
  Scenario.disk !! "out.hdf" = Some "old content"
  /\ exists e s' disk',
       download "f2" "out.hdf" fresh Scenario.disk = (Raise e, s', disk')
       /\ disk' !! "out.hdf" = Some (String.concat "" ["abc"])
       /\ (["abc"] = [] -> disk' !! "out.hdf" = Some EmptyString).
Proof.
  split; [vm_compute; reflexivity|].
  apply (broken_transfer_overwrites true Scenario.file_server
           Scenario.any_destination Paths.str_int "f2" "out.hdf" fresh
           Scenario.disk ["abc"]).
  - reflexivity.
  - reflexivity.
  - vm_compute. reflexivity.
Defined.

Lemma early_failure_keeps_disk_witness :
  exists r s' disk',
    IcareDownload.download false Scenario.file_server Scenario.any_destination
      Paths.str_int "f1" "out.hdf" fresh Scenario.disk = (r, s', disk')
    /\ (exists e, r = Raise e)
    /\ disk' = Scenario.disk
    /\ (false = false -> s' = fresh).
Proof.
  pose (call := IcareDownload.download false Scenario.file_server
                  Scenario.any_destination Paths.str_int "f1" "out.hdf" fresh
                  Scenario.disk).
  assert (Hcall : call = (fst (fst call), snd (fst call), snd call))
    by (vm_compute; reflexivity).
  exists (fst (fst call)), (snd (fst call)), (snd call). split; [exact Hcall|].
  apply (early_failure_keeps_disk false Scenario.file_server
           Scenario.any_destination Paths.str_int "f1" "out.hdf" fresh _
           Scenario.disk _ _ Hcall).
  left. reflexivity.
Defined.

Lemma listed_file_download_directory_witness :
  exists s',
    IcareProvider.get_files Scenario.steady_server day_directory
      (year (feb29 12)) (julian_day (feb29 12)) Scenario.fresh_hdf
    = (Ok ["f1.hdf"; "f2.hdf"], s')
    /\ IcareDownload.download_path Paths.str_int s' "f2.hdf" = Scenario.feb29_directory
    /\ exists names,
         IcareProvider.cache s' !! IcareDownload.download_path Paths.str_int s' "f2.hdf"
         = Some (map IcareProvider.AStr names)
         /\ "f2.hdf" ∈ names.
Proof.
  pose (s' := snd (IcareProvider.get_files Scenario.steady_server day_directory
                     (year (feb29 12)) (julian_day (feb29 12)) Scenario.fresh_hdf)).
  assert (Hcall : IcareProvider.get_files Scenario.steady_server day_directory
                    (year (feb29 12)) (julian_day (feb29 12)) Scenario.fresh_hdf
                  = (Ok ["f1.hdf"; "f2.hdf"], s')) by (vm_compute; reflexivity).
  assert (Hyear : year (feb29 12) = 2020) by reflexivity.
  exists s'. split; [exact Hcall|]. split; [vm_compute; reflexivity|].
  apply (listed_file_download_directory Scenario.steady_server Paths.str_int
           (feb29 12) Scenario.fresh_hdf s' ["f1.hdf"; "f2.hdf"] "f2.hdf").
  - reflexivity.
  - rewrite Hyear. lia.
  - exact Hcall.
  - apply list_elem_of_In. simpl. auto.
  - vm_compute. reflexivity.
Defined.

End MoreExamples.
